(** * otbiexport: the bundle organizer's naming, matching and layout logic

    A shallow embedding of [utils_bip.py], of the matching and
    extraction helpers and the container passes of [app.py], and of the
    launcher [launch.py], with the properties of the specification
    settled against it and further properties of the code.

    Python [str] values are modelled as [string] (sequences of 8-bit
    characters, read as the code points below 256); the character classes
    used by [str.strip], [str.lower] and the regular-expression class [\w]
    are the Unicode ones restricted to that range.

    Code that raises is modelled with [option] ([None] is the exception)
    or, where what was built before the exception matters, with
    [outcome]; loops that the code leaves by a test on the file system
    carry a bound, and the properties show that the bound is not
    reached. *)

From Stdlib Require Import Ascii String NArith Lia.
From stdpp Require Import base tactics option list strings pretty gmap
  sorting.

Local Open Scope stdpp_scope.

Set Warnings "-register-all".

(** ** Python string primitives *)

Module Py.

Definition code (c : ascii) : N := N_of_ascii c.

Definition between (lo hi : N) (c : ascii) : bool :=
  ((lo <=? code c) && (code c <=? hi))%N.

(** [str.isspace] on one character. *)
Definition isspace (c : ascii) : bool :=
  between 9 13 c || between 28 32 c || between 133 133 c || between 160 160 c.

(** [str.isalnum] on one character: letters, digits and the numeric
    characters of the Latin-1 block. *)
Definition isalnum (c : ascii) : bool :=
  between 48 57 c || between 65 90 c || between 97 122 c
  || between 170 170 c || between 178 179 c || between 181 181 c
  || between 185 186 c || between 188 190 c
  || between 192 214 c || between 216 246 c || between 248 255 c.

(** The class [\w] of [re] under [re.UNICODE]. *)
Definition isword (c : ascii) : bool := isalnum c || bool_decide (c = "_"%char).

(** [str.lower] on one character. *)
Definition lower_char (c : ascii) : ascii :=
  if between 65 90 c || between 192 214 c || between 216 222 c
  then ascii_of_N (code c + 32) else c.

Fixpoint lower (s : string) : string :=
  match s with
  | EmptyString => EmptyString
  | String c s' => String (lower_char c) (lower s')
  end.

Fixpoint lstrip_with (p : ascii -> bool) (s : string) : string :=
  match s with
  | EmptyString => EmptyString
  | String c s' => if p c then lstrip_with p s' else s
  end.

Fixpoint rstrip_with (p : ascii -> bool) (s : string) : string :=
  match s with
  | EmptyString => EmptyString
  | String c s' =>
      match rstrip_with p s' with
      | EmptyString => if p c then EmptyString else String c EmptyString
      | r => String c r
      end
  end.

(** [s.strip()] and [s.strip(chars)]: the characters satisfying [p] are
    removed from both ends. *)
Definition strip_with (p : ascii -> bool) (s : string) : string :=
  rstrip_with p (lstrip_with p s).

Definition strip (s : string) : string := strip_with isspace s.

Fixpoint mem_char (c : ascii) (chars : string) : bool :=
  match chars with
  | EmptyString => false
  | String d r => bool_decide (c = d) || mem_char c r
  end.

Definition strip_chars (chars s : string) : string :=
  strip_with (fun c => mem_char c chars) s.

(** [re.sub(P+, rep, s)] for a one-character class [P]: every maximal
    run of characters of the class is replaced by [rep].  [inrun] tells
    whether the previous character belonged to a run already replaced. *)
Fixpoint sub_runs (p : ascii -> bool) (rep : string) (inrun : bool)
    (s : string) : string :=
  match s with
  | EmptyString => EmptyString
  | String c s' =>
      if p c
      then (if inrun then sub_runs p rep true s'
            else rep +:+ sub_runs p rep true s')
      else String c (sub_runs p rep false s')
  end.

Definition re_sub_plus (p : ascii -> bool) (rep s : string) : string :=
  sub_runs p rep false s.

Fixpoint startswith (s pre : string) : bool :=
  match pre, s with
  | EmptyString, _ => true
  | String a p, String b t => bool_decide (a = b) && startswith t p
  | String _ _, EmptyString => false
  end.

Definition endswith (s suf : string) : bool :=
  startswith (String.rev s) (String.rev suf).

Fixpoint count_char (c : ascii) (s : string) : nat :=
  match s with
  | EmptyString => 0
  | String d r => (if bool_decide (d = c) then 1 else 0) + count_char c r
  end.

(** [sep.join(parts)] *)
Fixpoint join (sep : string) (parts : list string) : string :=
  match parts with
  | [] => ""
  | [x] => x
  | x :: rest => x +:+ sep +:+ join sep rest
  end.

(** [s.split(sep)] for a one-character separator: [cur] collects, in
    reverse, the characters of the field being read. *)
Fixpoint split_go (sep : ascii) (cur : string) (s : string) : list string :=
  match s with
  | EmptyString => [String.rev cur]
  | String c s' =>
      if bool_decide (c = sep)
      then String.rev cur :: split_go sep EmptyString s'
      else split_go sep (String c cur) s'
  end.

Definition split (sep : ascii) (s : string) : list string :=
  split_go sep EmptyString s.

(** [x or default] on strings: the empty string is falsy. *)
Definition or_else (x dflt : string) : string :=
  match x with EmptyString => dflt | _ => x end.

(** *** Predicates on strings used to state properties *)

Fixpoint all_chars (q : ascii -> bool) (s : string) : bool :=
  match s with
  | EmptyString => true
  | String c r => q c && all_chars q r
  end.

Definition head_char (s : string) : option ascii :=
  match s with EmptyString => None | String c _ => Some c end.

Fixpoint last_char (s : string) : option ascii :=
  match s with
  | EmptyString => None
  | String c r => match last_char r with None => Some c | o => o end
  end.

(** No two adjacent characters of [s] both satisfy [p]. *)
Fixpoint no_adjacent (p : ascii -> bool) (s : string) : bool :=
  match s with
  | EmptyString => true
  | String c r =>
      negb (p c && from_option p false (head_char r)) && no_adjacent p r
  end.

Definition fails (p : ascii -> bool) (o : option ascii) : Prop :=
  forall c, o = Some c -> p c = false.

End Py.

(** ** utils_bip.py: naming *)

(** The class [[^\w\-.]] of the first substitution of [safe_name]. *)
Definition unsafe_char (c : ascii) : bool :=
  negb (Py.isword c || bool_decide (c = "-"%char) || bool_decide (c = "."%char)).

Definition is_underscore (c : ascii) : bool := bool_decide (c = "_"%char).

Definition safe_name (name : string) : string :=
  let name := Py.strip (Py.or_else name "") in
  let name := Py.re_sub_plus unsafe_char "_" name in
  let name := Py.re_sub_plus is_underscore "_" name in
  Py.or_else (Py.strip_chars "._" name) "unnamed".

(** What [safe_name] produces: a non-empty string of characters of
    [[\w\-.]] without two adjacent underscores, which neither begins nor
    ends with a dot or an underscore. *)
Definition dot_or_underscore (c : ascii) : bool := Py.mem_char c "._".

Definition is_clean (s : string) : bool :=
  negb (bool_decide (s = ""))
  && Py.all_chars (fun c => negb (unsafe_char c)) s
  && Py.no_adjacent is_underscore s
  && from_option (fun c => negb (dot_or_underscore c)) true (Py.head_char s)
  && from_option (fun c => negb (dot_or_underscore c)) true (Py.last_char s).

(** ** pathlib: pure POSIX paths

    A path is its anchor (whether it starts at the root ["/"]) and the
    sequence of its names.  Constructing a path from a string drops empty
    and ["."] components, as [pathlib] does; [".."] is kept as a name, as
    [pathlib] keeps it.  (The special root ["//"] of POSIX is not
    distinguished from ["/"].) *)

Record Path := mkPath { anchored : bool; names : list string }.

Global Instance Path_eq_dec : EqDecision Path.
Proof. solve_decision. Defined.

Global Instance Path_countable : Countable Path :=
  inj_countable' (fun p => (anchored p, names p))
                 (fun '(a, n) => mkPath a n)
                 (fun p => match p with mkPath _ _ => eq_refl end).

Module Path.

Definition kept_part (s : string) : bool :=
  negb (bool_decide (s = "")) && negb (bool_decide (s = ".")).

(** [Path(s)] *)
Definition of_str (s : string) : Path :=
  mkPath (Py.startswith s "/") (List.filter kept_part (Py.split "/" s)).

(** [Path(".")] *)
Definition dot : Path := mkPath false [].

(** [p.joinpath(q)]: an anchored right operand replaces the left one. *)
Definition join (p q : Path) : Path :=
  if anchored q then q else mkPath (anchored p) (names p ++ names q).

(** [p / s] for a string [s] *)
Definition div (p : Path) (s : string) : Path := join p (of_str s).

(** [Path( *parts )] *)
Definition of_parts (parts : list string) : Path := foldl div dot parts.

(** [p.parts] *)
Definition parts (p : Path) : list string :=
  (if anchored p then ["/"] else []) ++ names p.

(** [p.as_posix()] *)
Definition as_posix (p : Path) : string :=
  if anchored p then "/" +:+ Py.join "/" (names p)
  else match names p with
       | [] => "."
       | _ => Py.join "/" (names p)
       end.

(** [p.parent] *)
Definition parent (p : Path) : Path :=
  mkPath (anchored p) (removelast (names p)).

(** [p.name] *)
Definition name (p : Path) : string := List.last (names p) "".

(** Splits a name at its last dot: the text before it and the text from
    it on. *)
Fixpoint split_last_dot (s : string) : option (string * string) :=
  match s with
  | EmptyString => None
  | String c r =>
      match split_last_dot r with
      | Some (a, b) => Some (String c a, b)
      | None => if bool_decide (c = "."%char) then Some ("", s) else None
      end
  end.

(** [name.rfind(".")] lies strictly between the first and the last
    position. *)
Definition suffix_of_name (n : string) : string :=
  match split_last_dot n with
  | Some (a, b) =>
      if negb (bool_decide (a = "")) && negb (bool_decide (b = "."))
      then b else ""
  | None => ""
  end.

Definition stem_of_name (n : string) : string :=
  match split_last_dot n with
  | Some (a, b) =>
      if negb (bool_decide (a = "")) && negb (bool_decide (b = "."))
      then a else n
  | None => n
  end.

(** [p.suffix] and [p.stem] *)
Definition suffix (p : Path) : string := suffix_of_name (name p).
Definition stem (p : Path) : string := stem_of_name (name p).

Fixpoint strip_prefix (pre l : list string) : option (list string) :=
  match pre, l with
  | [], _ => Some l
  | a :: pre', b :: l' =>
      if bool_decide (a = b) then strip_prefix pre' l' else None
  | _ :: _, [] => None
  end.

(** [p.relative_to(base)]; [None] stands for [ValueError]. *)
Definition relative_to (p base : Path) : option Path :=
  if bool_decide (anchored p = anchored base)
  then mkPath false <$> strip_prefix (names base) (names p)
  else None.

End Path.

Notation "p // s" := (Path.div p s) (at level 40, left associativity).

(** [safe_path_from_rel]: sanitize each part of a relative path. *)
Definition safe_parts (rel_dir : Path) : list string :=
  foldl (fun parts part =>
           if bool_decide (part = ".") || bool_decide (part = "")
           then parts
           else parts ++ [safe_name part])
        [] (Path.parts rel_dir).

Definition safe_path_from_rel (rel_dir : Path) : Path :=
  let parts := safe_parts rel_dir in
  match parts with
  | [] => Path.of_str "."
  | _ => Path.of_parts parts
  end.

(** ** app.py: the ancestor walk

    [walk_up_rel_paths] is a generator.  Its state is the local [cur]
    while it is suspended at the [yield], and [Finished] once the loop has
    been left; [walk_next] resumes it once. *)

Inductive walk_state :=
| Running (cur : Path)
| Finished.

Definition walk_next (st : walk_state) : option (string * walk_state) :=
  match st with
  | Finished => None
  | Running cur =>
      Some (Path.as_posix cur,
            if bool_decide (cur = Path.of_str ".") then Finished
            else Running (if bool_decide (Path.parent cur <> cur)
                          then Path.parent cur else Path.of_str "."))
  end.

(** The values a generator state still yields, when they are finitely
    many. *)
Inductive yields : walk_state -> list string -> Prop :=
| yields_done : yields Finished []
| yields_more st v st' vs :
    walk_next st = Some (v, st') -> yields st' vs -> yields st (v :: vs).

(** Draining the generator with a bound on the number of resumptions;
    [None] when the bound is reached before the generator finishes. *)
Fixpoint drain (fuel : nat) (st : walk_state) : option (list string) :=
  match fuel with
  | 0 => None
  | S fuel' =>
      match walk_next st with
      | None => Some []
      | Some (v, st') => (v ::.) <$> drain fuel' st'
      end
  end.

(** [list(walk_up_rel_paths(rel_path))] *)
Definition walk_up_rel_paths (rel_path : Path) : list string :=
  default [] (drain (length (names rel_path) + 3) (Running rel_path)).

(** The chain of a relative path and its ancestors, nearest first:
    ["a/b/c"], ["a/b"], ["a"], ["."]. *)
Definition ancestors (p : Path) : list Path :=
  (fun k => mkPath (anchored p) (take k (names p)))
    <$> rev (seq 0 (S (length (names p)))).

(** The invariant of the paths [pathlib] builds: no name is empty or
    ["."], and no name contains the separator. *)
Definition no_slash (c : ascii) : bool := negb (bool_decide (c = "/"%char)).

(** The string holds no path separator. *)
Definition no_separator (s : string) : bool := Py.all_chars no_slash s.

Definition good_name (n : string) : bool :=
  Path.kept_part n && no_separator n.

Definition path_wf (p : Path) : bool := forallb good_name (names p).

(** ** XML documents as lxml presents them

    An element has its local name (the [local-name()] of the XPath
    queries, which ignore namespaces), its attributes, the text before its
    first child ([.text], [None] when there is none) and its child elements
    in document order. *)

Inductive element :=
| Element (tag : string) (attrib : list (string * string))
          (text : option string) (children : list element).

Module Etree.

Definition tag (e : element) : string :=
  match e with Element t _ _ _ => t end.
Definition attrib (e : element) : list (string * string) :=
  match e with Element _ a _ _ => a end.
Definition text (e : element) : option string :=
  match e with Element _ _ t _ => t end.
Definition children (e : element) : list element :=
  match e with Element _ _ _ c => c end.

Fixpoint assoc (k : string) (l : list (string * string)) : option string :=
  match l with
  | [] => None
  | (k', v) :: rest => if bool_decide (k' = k) then Some v else assoc k rest
  end.

(** [e.get(name)] *)
Definition get (name : string) (e : element) : option string :=
  assoc name (attrib e).

(** [e.xpath("./*[local-name()='t']")] *)
Definition child_elems (t : string) (e : element) : list element :=
  List.filter (fun c => bool_decide (tag c = t)) (children e).

(** The element itself followed by its descendants, in document
    order. *)
Fixpoint self_and_descendants (e : element) : list element :=
  match e with
  | Element _ _ _ ch => e :: flat_map self_and_descendants ch
  end.

(** [e.xpath(".//*")]: the proper descendants of [e]. *)
Definition descendants (e : element) : list element :=
  flat_map self_and_descendants (children e).

(** The elements named [t] met at or below [e] whose parent is named
    [c], in document order; [under_c] tells whether the parent of [e]
    is an element named [c] that the query reaches. *)
Fixpoint select_in (c t : string) (under_c : bool) (e : element)
    : list element :=
  match e with
  | Element tg _ _ ch =>
      (if under_c && bool_decide (tg = t) then [e] else [])
      ++ flat_map (select_in c t (bool_decide (tg = c))) ch
  end.

(** [root.xpath(".//*[local-name()='c']/*[local-name()='t']")]: the
    context element itself is not among the [.//*] candidates. *)
Definition select (c t : string) (root : element) : list element :=
  flat_map (select_in c t false) (children root).

(** [root.xpath(".//*[local-name()='t']/@a")] *)
Definition select_attr (t a : string) (root : element) : list string :=
  omap (get a)
       (List.filter (fun e => bool_decide (tag e = t)) (descendants root)).

(** [root.xpath(".//*[local-name()='c']/*[local-name()='t']/@a")] *)
Definition select_child_attr (c t a : string) (root : element)
    : list string :=
  omap (get a) (select c t root).

End Etree.

(** ** utils_bip.py: parsing a data-model definition *)

(** The line feed, and Python's ["\n\n"]. *)
Definition LF : string := String (ascii_of_nat 10) EmptyString.
Definition LFLF : string := LF +:+ LF.

(** [o or dflt] where [o] is [None] or a string. *)
Definition opt_or (o : option string) (dflt : string) : string :=
  match o with
  | Some s => Py.or_else s dflt
  | None => dflt
  end.

(** [[(sn.text or "").strip() for sn in sql_nodes
      if (sn.text or "").strip()]] *)
Definition sql_texts_of (e : element) : list string :=
  let sql_nodes := Etree.child_elems "sql" e in
  List.filter (fun s => negb (bool_decide (s = "")))
    ((fun sn => Py.strip (opt_or (Etree.text sn) "")) <$> sql_nodes).

(** One pass of either loop of [parse_datamodel_xdm]: [acc] is the list
    being appended to. *)
Definition collect (key dflt : string) (acc : list (string * string))
    (e : element) : list (string * string) :=
  let name := safe_name (opt_or (Etree.get key e) dflt) in
  let sql_texts := sql_texts_of e in
  match sql_texts with
  | [] => acc
  | _ => acc ++ [(name, Py.join LFLF sql_texts)]
  end.

Definition datasets_of (root : element) : list (string * string) :=
  foldl (collect "name" "Dataset") [] (Etree.select "dataSets" "dataSet" root).

Definition valuesets_of (root : element) : list (string * string) :=
  foldl (collect "id" "ValueSet") [] (Etree.select "valueSets" "valueSet" root).

(** ** Files

    The content of a file is what the libraries reading it make of it:
    an XML document, a zip archive with its members in archive order, or
    bytes that are neither.

    The file system is a finite map from paths to directories and files,
    that of a POSIX system.  Paths are taken as they are written: a name
    [..] is not resolved, so the map stands for a file system reached
    through paths without such names (the code sanitizes the names it
    creates, and [zipfile] drops them from member names).  Creating an
    entry fails on a name the file system refuses, see [Fs.accepts];
    failures of the environment (permissions, a full disk) and the limit
    on the length of a whole path are left out. *)

Inductive content :=
| Bytes (data : string)
| Xml (root : element)
| Zip (members : list (string * content)).

Inductive node :=
| Dir
| File (data : content).

Abbreviation fs := (gmap Path node).

Module Fs.

(** The names a file system takes for a new entry.  Creating a directory
    or a file under a name of more than [NAME_MAX] bytes raises [OSError]
    (the name is encoded in UTF-8, where a character above 127 takes two
    bytes), and a name with a NUL character is refused with
    [ValueError]. *)
Definition NAME_MAX : nat := 255.

Fixpoint encoded_length (n : string) : nat :=
  match n with
  | EmptyString => 0
  | String c r => (if (Py.code c <? 128)%N then 1 else 2) + encoded_length r
  end.

Definition accepts (n : string) : bool :=
  (encoded_length n <=? NAME_MAX)
  && Py.all_chars (fun c => negb (bool_decide (c = "000"%char))) n.

(** [p.exists()]; the root and the working directory always exist. *)
Definition exists_ (m : fs) (p : Path) : bool :=
  bool_decide (names p = []) || bool_decide (is_Some (m !! p)).

(** [p.is_dir()] *)
Definition is_dir (m : fs) (p : Path) : bool :=
  bool_decide (names p = [])
  || match m !! p with Some Dir => true | _ => false end.

(** [p.mkdir(parents=True, exist_ok=True)] on the path with the names
    [rev rns]: an existing directory is left alone, a file in the way
    is an error ([None]), and a missing directory is created after its
    parent, which is an error when the file system does not accept its
    name. *)
Fixpoint mkdir_rev (m : fs) (a : bool) (rns : list string) : option fs :=
  match rns with
  | [] => Some m
  | n :: rparent =>
      let p := mkPath a (rev rns) in
      match m !! p with
      | Some Dir => Some m
      | Some (File _) => None
      | None =>
          m' ← mkdir_rev m a rparent;
          if accepts n then Some (<[p := Dir]> m') else None
      end
  end.

Definition mkdir_p (m : fs) (p : Path) : option fs :=
  mkdir_rev m (anchored p) (rev (names p)).

(** Writing a whole file ([write_text], [write_bytes], [open(p, "wb")]
    followed by a copy): the parent must be a directory, the path itself
    must not be one, and the file system must accept the name. *)
Definition write (m : fs) (p : Path) (data : content) : option fs :=
  if is_dir m (Path.parent p) && negb (is_dir m p) && accepts (Path.name p)
  then Some (<[p := File data]> m) else None.

(** Reading a whole file. *)
Definition read (m : fs) (p : Path) : option content :=
  match m !! p with
  | Some (File data) => Some data
  | _ => None
  end.

(** The loop [while target.exists(): target = mk(i); i += 1] with a
    bound on the number of iterations; [None] when the bound is
    reached. *)
Fixpoint while_exists (fuel : nat) (m : fs) (mk : nat -> Path)
    (target : Path) (i : nat) : option Path :=
  if exists_ m target then
    match fuel with
    | 0 => None
    | S fuel' => while_exists fuel' m mk (mk i) (S i)
    end
  else Some target.

End Fs.

(** [ensure_dir] of app.py *)
Definition ensure_dir (m : fs) (p : Path) : option (fs * Path) :=
  m' ← Fs.mkdir_p m p; Some (m', p).

(** [parse_datamodel_xdm]; [None] stands for the exception raised when
    the file cannot be read as XML. *)
Definition parse_datamodel_xdm (m : fs) (xdm_path : Path)
    : option (list (string * string) * list (string * string)) :=
  match Fs.read m xdm_path with
  | Some (Xml root) => Some (datasets_of root, valuesets_of root)
  | _ => None
  end.

(** ** utils_bip.py: unique folders *)

(** [f"{base}_{i}"] *)
Definition numbered (base : string) (i : nat) : string :=
  base +:+ "_" +:+ pretty i.

Definition unique_subdir (m : fs) (parent : Path) (name : string)
    : option (fs * Path) :=
  let base := safe_name name in
  target ← Fs.while_exists (S (size m)) m
              (fun i => parent // numbered base i) (parent // base) 1;
  m' ← Fs.mkdir_p m target;
  Some (m', target).

(** ** utils_bip.py: writing *)

(** One iteration of either loop of [write_sql_otbi]: the file system
    and the list [created] so far, then the file named [fname]. *)
Definition write_one (out_dir : Path) (header : string)
    (st : option (fs * list Path)) (fname sql : string)
    : option (fs * list Path) :=
  '(m, created) ← st;
  let p := out_dir // fname in
  m' ← Fs.write m p (Bytes (header +:+ Py.strip sql +:+ LF));
  Some (m', created ++ [p]).

Definition write_sql_otbi (m : fs) (out_dir : Path)
    (datasets valuesets : list (string * string))
    (header_title : option string) : option (fs * list Path) :=
  m0 ← Fs.mkdir_p m out_dir;
  let header :=
    match header_title with
    | None | Some EmptyString => ""
    | Some t => "-- " +:+ t +:+ LF
    end in
  let st := foldl (fun st '(name, sql) =>
                     write_one out_dir header st (name +:+ ".sql") sql)
                  (Some (m0, [])) datasets in
  foldl (fun st '(vid, sql) =>
           write_one out_dir header st ("lv_" +:+ vid +:+ ".sql") sql)
        st valuesets.

(** *** Vocabulary for the properties of the parser and the writer *)

(** The pair an element contributes to the list built by
    [parse_datamodel_xdm], if any. *)
Definition entry_of (key dflt : string) (e : element)
    : option (string * string) :=
  match sql_texts_of e with
  | [] => None
  | ts => Some (safe_name (opt_or (Etree.get key e) dflt), Py.join LFLF ts)
  end.

(** The text of an element is absent, empty or white space only. *)
Definition blank_text (e : element) : bool :=
  Py.all_chars Py.isspace (default "" (Etree.text e)).

(** The file names and SQL texts [write_sql_otbi] goes through, in the
    order it writes them. *)
Definition sql_files (datasets valuesets : list (string * string))
    : list (string * string) :=
  ((fun '(name, sql) => (name +:+ ".sql", sql)) <$> datasets)
  ++ ((fun '(vid, sql) => ("lv_" +:+ vid +:+ ".sql", sql)) <$> valuesets).

Definition header_of (header_title : option string) : string :=
  match header_title with
  | None | Some EmptyString => ""
  | Some t => "-- " +:+ t +:+ LF
  end.


(** The file system after writing the files of [files] in order. *)
Definition written (out_dir : Path) (header : string) (m : fs)
    (files : list (string * string)) : fs :=
  foldl (fun m '(fname, sql) =>
           <[out_dir // fname := File (Bytes (header +:+ Py.strip sql +:+ LF))]> m)
        m files.

Definition write_all (out_dir : Path) (header : string)
    (st : option (fs * list Path)) (files : list (string * string))
    : option (fs * list Path) :=
  foldl (fun st '(fname, sql) => write_one out_dir header st fname sql)
        st files.


(** ** zipfile

    An archive is the list of its members, name and content, in archive
    order. *)

Module Zipfile.

(** [zf.namelist()] *)
Definition namelist (members : list (string * content)) : list string :=
  fst <$> members.

(** [zf.open(name).read()]: the archive's name table keeps the last
    member of each name; [None] stands for [KeyError]. *)
Fixpoint read (members : list (string * content)) (name : string)
    : option content :=
  match members with
  | [] => None
  | (n, data) :: rest =>
      match read rest name with
      | Some later => Some later
      | None => if bool_decide (n = name) then Some data else None
      end
  end.

(** The path components [extractall] keeps of a member name. *)
Definition member_parts (name : string) : list string :=
  List.filter (fun x => negb (bool_decide (x = "")
                              || bool_decide (x = ".")
                              || bool_decide (x = "..")))
              (Py.split "/" name).

End Zipfile.

(** ** The outcome of a block that may raise

    [Returned] and [Raised] both carry what the block has built when it
    is left; [Unfinished] is a loop cut by its bound. *)

Inductive outcome (S : Type) :=
| Returned (s : S)
| Raised (s : S)
| Unfinished.

Arguments Returned {S} s.
Arguments Raised {S} s.
Arguments Unfinished {S}.

(** [for x in l: body], leaving at the first exception. *)
Fixpoint for_each {S A : Type} (body : S -> A -> outcome S) (s : S)
    (l : list A) : outcome S :=
  match l with
  | [] => Returned s
  | x :: rest =>
      match body s x with
      | Returned s' => for_each body s' rest
      | other => other
      end
  end.

(** ** app.py: locating the report definition *)

(** The key [(s.count("/"), len(s))] of the candidate sort, compared as
    Python compares tuples. *)
Definition key_le (a b : string) : bool :=
  let ca := Py.count_char "/" a in
  let cb := Py.count_char "/" b in
  (ca <? cb) || ((ca =? cb) && (String.length a <=? String.length b)).

(** [list.sort(key=...)] is stable: an element stays in front of the
    later elements with the same key. *)
Fixpoint insert_sorted (x : string) (l : list string) : list string :=
  match l with
  | [] => [x]
  | y :: rest => if key_le x y then x :: l else y :: insert_sorted x rest
  end.

Definition sort_candidates (l : list string) : list string :=
  foldr insert_sorted [] l.

(** The candidates for the report definition file among the member
    names, sorted. *)
Definition definition_candidates (names : list string) : list string :=
  let candidates :=
    List.filter (fun n => Py.endswith (Py.lower n) "report.xdo"
                          || Py.endswith (Py.lower n) "_report.xdo") names in
  let candidates :=
    match candidates with
    | [] => List.filter (fun n => Py.endswith (Py.lower n) ".xdo") names
    | _ => candidates
    end in
  sort_candidates candidates.

(** The body of the [try] of [read_report_datamodel_url]: opening the
    bundle raises unless it is a zip archive, and parsing raises unless
    the chosen member holds an XML document. *)
Definition report_datamodel_url_try (m : fs) (xdo_file : Path)
    : outcome (option string) :=
  match Fs.read m xdo_file with
  | Some (Zip members) =>
      match definition_candidates (Zipfile.namelist members) with
      | [] => Returned None
      | first :: _ =>
          match Zipfile.read members first with
          | Some (Xml root) =>
              Returned (head (Etree.select_attr "dataModel" "url" root))
          | _ => Raised None
          end
      end
  | _ => Raised None
  end.

(** [read_report_datamodel_url]: the [except Exception] clause returns
    [None]. *)
Definition read_report_datamodel_url (m : fs) (xdo_file : Path)
    : option string :=
  match report_datamodel_url_try m xdo_file with
  | Returned r => r
  | Raised _ | Unfinished => None
  end.

(** The preference as the documentation words it: a file named
    [report.xdo], at the top of the archive or in a folder, or one whose
    name ends in [_report.xdo], in any casing. *)
Definition described_preferred (n : string) : bool :=
  bool_decide (Py.lower n = "report.xdo")
  || Py.endswith (Py.lower n) "/report.xdo"
  || Py.endswith (Py.lower n) "_report.xdo".

(** ** app.py: extracting the templates *)

Definition template_exts : list string :=
  [".rtf"; ".xsl"; ".xlsx"; ".xls"; ".xpt"; ".xltx"; ".xlsm"; ".pptx";
   ".etext"; ".html"; ".xhtml"].

(** The state of [extract_templates_from_xdoz]: the file system and the
    list [created]. *)
Definition tstate : Type := fs * list Path.

(** The common part of both passes: choose a free output path for the
    member [src], copy the member there, and record the path;
    [only_if_new] is the test [if out not in created] of pass 2. *)
Definition copy_template (members : list (string * content)) (tpl_dir : Path)
    (only_if_new : bool) (st : tstate) (src : string) : outcome tstate :=
  let '(m, created) := st in
  let out := tpl_dir // Path.name (Path.of_str src) in
  let base := Path.stem out in
  let suf := Path.suffix out in
  match Fs.while_exists (S (size m)) m
          (fun i => tpl_dir // (base +:+ "_" +:+ pretty i +:+ suf)) out 1 with
  | None => Unfinished
  | Some out =>
      match Zipfile.read members src with
      | None => Raised st
      | Some data =>
          match Fs.write m out data with
          | None => Raised st
          | Some m' =>
              if only_if_new && bool_decide (out ∈ created)
              then Returned (m', created)
              else Returned (m', created ++ [out])
          end
      end
  end.

(** Pass 1, one member name. *)
Definition by_extension (members : list (string * content)) (tpl_dir : Path)
    (st : tstate) (n : string) : outcome tstate :=
  if Py.endswith n "/" || Py.startswith n "__MACOSX/" then Returned st
  else if existsb (fun ext => Py.endswith (Py.lower n) ext) template_exts
       then copy_template members tpl_dir false st n
       else Returned st.

(** Pass 2, resolving one reference: the exact member name, else the
    first member with the same lower-cased base name. *)
Definition resolve_ref (names : list string) (ref : string) : option string :=
  if bool_decide (ref ∈ names) then Some ref
  else
    let bn := Py.lower (Path.name (Path.of_str ref)) in
    List.find (fun n => bool_decide (Py.lower (Path.name (Path.of_str n)) = bn))
              names.

(** Pass 2, one reference. *)
Definition by_reference (members : list (string * content)) (tpl_dir : Path)
    (st : tstate) (ref : string) : outcome tstate :=
  match resolve_ref (Zipfile.namelist members) ref with
  | Some (String c r) => copy_template members tpl_dir true st (String c r)
  | Some EmptyString | None => Returned st
  end.

(** The body of the [try] of [extract_templates_from_xdoz]. *)
Definition extract_templates_try (m : fs) (xdo_file tpl_dir : Path)
    : outcome tstate :=
  match Fs.read m xdo_file with
  | Some (Zip members) =>
      let names := Zipfile.namelist members in
      match for_each (by_extension members tpl_dir) (m, []) names with
      | Returned st =>
          match definition_candidates names with
          | [] => Returned st
          | first :: _ =>
              match Zipfile.read members first with
              | Some (Xml root) =>
                  let refs :=
                    Etree.select_child_attr "templates" "template" "url" root in
                  for_each (by_reference members tpl_dir) st refs
              | _ => Raised st
              end
          end
      | other => other
      end
  | _ => Raised (m, [])
  end.

(** [extract_templates_from_xdoz]: whatever was collected when the
    [try] is left is returned.  The outer [None] stands for an exception
    of [ensure_dir], which is outside the [try], or for a loop cut by its
    bound. *)
Definition extract_templates_from_xdoz (m : fs) (xdo_file dest_dir : Path)
    : option tstate :=
  '(m1, tpl_dir) ← ensure_dir m (dest_dir // "report_templates");
  match extract_templates_try m1 xdo_file tpl_dir with
  | Returned st | Raised st => Some st
  | Unfinished => None
  end.

(** ** app.py: matching reports to data models (container bundles) *)

(** Pass 1 registers the root of a model bundle under its scoped key
    [(rel_parent.as_posix(), stem.lower())] and its global key. *)
Definition register_model (rel_parent : Path) (xdmz_name : string)
    (model_root : Path)
    (maps : gmap (string * string) Path * gmap string Path)
    : gmap (string * string) Path * gmap string Path :=
  let stem := Py.lower (Path.stem_of_name xdmz_name) in
  (<[(Path.as_posix rel_parent, stem) := model_root]> maps.1,
   <[stem := model_root]> maps.2).

(** The loop [for scope in walk_up_rel_paths(rel_parent)] of pass 2, left
    by [break] at the first scope registered for the stem. *)
Fixpoint first_scoped (scoped_map : gmap (string * string) Path)
    (dm_stem : string) (scopes : list string) : option Path :=
  match scopes with
  | [] => None
  | scope :: rest =>
      match scoped_map !! (scope, dm_stem) with
      | Some model_root => Some model_root
      | None => first_scoped scoped_map dm_stem rest
      end
  end.

(** [Path(dm_url).stem.lower()] *)
Definition stem_of_url (dm_url : string) : string :=
  Py.lower (Path.stem (Path.of_str dm_url)).

(** Steps 2.1 and 2.2: the value of [target_model_root] before the orphan
    fallback; [None] is Python's [None]. *)
Definition match_report (scoped_map : gmap (string * string) Path)
    (global_map : gmap string Path) (rel_parent : Path)
    (dm_url : option string) : option Path :=
  match dm_url with
  | Some (String c r) =>
      let dm_stem := stem_of_url (String c r) in
      match first_scoped scoped_map dm_stem (walk_up_rel_paths rel_parent) with
      | Some model_root => Some model_root
      | None => global_map !! dm_stem
      end
  | Some EmptyString | None => None
  end.

(** Step 2.3 included: the chosen root, with the file system in which
    the orphan folder has been created if it was needed. *)
Definition choose_target (m : fs) (otbi_root : Path)
    (scoped_map : gmap (string * string) Path)
    (global_map : gmap string Path) (rel_parent : Path)
    (dm_url : option string) : option (fs * Path) :=
  match match_report scoped_map global_map rel_parent dm_url with
  | Some model_root => Some (m, model_root)
  | None => ensure_dir m (otbi_root // "_Orphan")
  end.

(** One iteration of pass 2 for the report bundle [xdoz_file] found
    under the extraction folder [src]; [None] stands for an exception
    leaving the loop. *)
Definition process_xdoz (src out_root : Path)
    (scoped_map : gmap (string * string) Path)
    (global_map : gmap string Path)
    (st : fs * list Path) (xdoz_file : Path) : option (fs * list Path) :=
  let '(m, created_paths) := st in
  rel ← Path.relative_to xdoz_file src;
  let rel_parent := Path.parent rel in
  '(m, otbi_root) ← ensure_dir m (Path.join out_root (safe_path_from_rel rel_parent));
  let dm_url := read_report_datamodel_url m xdoz_file in
  '(m, target_model_root) ←
    choose_target m otbi_root scoped_map global_map rel_parent dm_url;
  '(m, catalog_dir) ← ensure_dir m (target_model_root // "Catalog");
  dest ← Fs.while_exists (S (size m)) m
            (fun i => catalog_dir // (Path.stem xdoz_file +:+ "_" +:+ pretty i
                                      +:+ Path.suffix xdoz_file))
            (catalog_dir // Path.name xdoz_file) 1;
  data ← Fs.read m xdoz_file;
  m ← Fs.write m dest data;
  '(m, templates) ← extract_templates_from_xdoz m xdoz_file target_model_root;
  Some (m, created_paths ++ [dest] ++ templates).

(** Where an unmatched report of the container folder [rel_parent]
    goes. *)
Definition orphan_dir (out_root rel_parent : Path) : Path :=
  Path.join out_root (safe_path_from_rel rel_parent) // "_Orphan".

(** ** utils_bip.py: packaging and extraction *)

(** The files [os.walk(folder)] meets, each with its path relative to
    [folder]: in a file system where every entry lies in a directory,
    they are the files whose path extends the folder's. *)
Definition walk_files (m : fs) (folder : Path) : list (Path * content) :=
  omap (fun '(p, nd) =>
          match nd with
          | File data =>
              rel ← Path.relative_to p folder;
              if bool_decide (names rel = []) then None else Some (rel, data)
          | Dir => None
          end)
       (map_to_list m).

(** [zip_folder]: one member per file, named by its relative path. *)
Definition zip_folder (m : fs) (folder : Path) : content :=
  Zip ((fun '(rel, data) => (Path.as_posix rel, data)) <$> walk_files m folder).

(** [ZipFile.extractall], one member: the directories above the target
    are created, then the member is written, or created when its name
    ends with a separator. *)
Definition extract_member (dest_dir : Path) (st : option fs)
    (member : string * content) : option fs :=
  m ← st;
  let '(name, data) := member in
  let target :=
    mkPath (anchored dest_dir) (names dest_dir ++ Zipfile.member_parts name) in
  m1 ← Fs.mkdir_p m (Path.parent target);
  if Py.endswith name "/" then Fs.mkdir_p m1 target
  else Fs.write m1 target data.

(** [extract_ziplike]; [None] stands for an exception ([BadZipFile]
    among them). *)
Definition extract_ziplike (m : fs) (file_obj : content) (dest_dir : Path)
    : option fs :=
  m0 ← Fs.mkdir_p m dest_dir;
  match file_obj with
  | Zip members => foldl (extract_member dest_dir) (Some m0) members
  | _ => None
  end.

(** Every entry of the file system lies in a directory, and every name
    is one a file system accepts. *)
Definition file_name (n : string) : bool :=
  good_name n && negb (bool_decide (n = "..")) && Fs.accepts n.

Definition fs_wf (m : fs) : Prop :=
  map_Forall (fun p _ => forallb file_name (names p) = true
                         /\ Fs.is_dir m (Path.parent p) = true) m.

(** No entry of the file system lies strictly below [dest]. *)
Definition strictly_below (p dest : Path) : bool :=
  match Path.relative_to p dest with
  | Some rel => negb (bool_decide (names rel = []))
  | None => false
  end.

Definition nothing_below (m : fs) (dest : Path) : Prop :=
  map_Forall (fun p _ => strictly_below p dest = false) m.

(** The file at [base/rel], if there is one. *)
Definition file_at (m : fs) (base : Path) (rel : list string)
    : option content :=
  Fs.read m (mkPath (anchored base) (names base ++ rel)).

(** The candidates as the documentation words them, before and after
    the sort. *)
Definition described_pool (names : list string) : list string :=
  match List.filter described_preferred names with
  | [] => List.filter (fun n => Py.endswith (Py.lower n) ".xdo") names
  | candidates => candidates
  end.

Definition described_candidates (names : list string) : list string :=
  sort_candidates (described_pool names).

(** The [dataModel] elements below the root, in document order. *)
Definition datamodel_elements (root : element) : list element :=
  List.filter (fun e => bool_decide (Etree.tag e = "dataModel"))
              (Etree.descendants root).

(** The reference as the specification words it: the [url] attribute of
    the first [dataModel] element. *)
Definition described_url (root : element) : option string :=
  e ← head (datamodel_elements root); Etree.get "url" e.

(** The first element of least key. *)
Definition first_min (l : list string) : option string :=
  foldr (fun x best =>
           match best with
           | None => Some x
           | Some y => if key_le x y then Some x else Some y
           end) None l.

(** What holds of the file system while an archive is extracted below
    [dest], [allowed] telling the relative names and content of the files
    the archive may bring: a file below [dest] is an allowed one and a
    directory below [dest] lies above an allowed one. *)
Definition extraction_inv (dest : Path)
    (allowed : list string -> content -> Prop) (mc : fs) : Prop :=
  Fs.is_dir mc dest = true
  /\ forall q, q <> [] ->
       match mc !! mkPath (anchored dest) (names dest ++ q) with
       | Some (File d) => allowed q d
       | Some Dir => exists r d, allowed r d /\ q `prefix_of` r /\ q <> r
       | None => True
       end.

(** The sanitizer as the specification words it: runs of characters
    outside [[\w\-.]] replaced by one underscore, repeated underscores
    collapsed, leading and trailing dots and underscores stripped, and
    ["unnamed"] for an empty result. *)
Definition sanitize_body (x : string) : string :=
  Py.strip_chars "._"
    (Py.re_sub_plus is_underscore "_" (Py.re_sub_plus unsafe_char "_" x)).

Definition described_sanitize (x : string) : string :=
  Py.or_else (sanitize_body x) "unnamed".

(** Calling [unique_subdir] once for each name of a list, in order and
    under the same parent, as pass 1 does for the model bundles of one
    folder: the file system after the calls and the folders returned. *)
Definition unique_subdirs (m : fs) (parent : Path) (names : list string)
    : option (fs * list Path) :=
  foldl (fun st name =>
           '(m, dirs) ← st;
           '(m', d) ← unique_subdir m parent name;
           Some (m', dirs ++ [d]))
        (Some (m, [])) names.

(** The member names pass 1 of [extract_templates_from_xdoz] copies:
    neither a directory entry nor below [__MACOSX/], and with one of the
    template extensions, in any letter case. *)
Definition template_member (n : string) : bool :=
  negb (Py.endswith n "/" || Py.startswith n "__MACOSX/")
  && existsb (fun ext => Py.endswith (Py.lower n) ext) template_exts.

(** The member pass 2 copies for a reference: the one the reference
    resolves to, unless its name is empty ([if src:]). *)
Definition referenced_member (names : list string) (ref : string)
    : option string :=
  match resolve_ref names ref with
  | Some (String c r) => Some (String c r)
  | Some EmptyString | None => None
  end.

(** The references of the report definition of an archive, as pass 2
    reads them; [None] when reading them raises. *)
Definition template_refs (members : list (string * content))
    : option (list string) :=
  match definition_candidates (Zipfile.namelist members) with
  | [] => Some []
  | first :: _ =>
      match Zipfile.read members first with
      | Some (Xml root) =>
          Some (Etree.select_child_attr "templates" "template" "url" root)
      | _ => None
      end
  end.

(** What holds of the state of the template extraction from the archive
    [members] into [tpl_dir], started in the file system [m1]: the file
    system has only grown, by one entry for each path recorded, the
    folder is there, and the paths recorded so far are pairwise distinct
    new files of the folder, each holding the content of a member;
    nothing else has changed. *)
Definition copied (members : list (string * content)) (tpl_dir : Path)
    (m1 : fs) (st : tstate) : Prop :=
  m1 ⊆ st.1
  /\ Fs.is_dir st.1 tpl_dir = true
  /\ NoDup st.2
  /\ Forall (fun out =>
               Path.parent out = tpl_dir /\ m1 !! out = None
               /\ exists src data,
                    src ∈ Zipfile.namelist members
                    /\ Zipfile.read members src = Some data
                    /\ st.1 !! out = Some (File data)) st.2
  /\ (forall p, p ∉ st.2 -> st.1 !! p = m1 !! p)
  /\ size st.1 = size m1 + length st.2.

(** The file system accepts the names the template extraction may give
    to the copy of the member [src] in [tpl_dir]: the base name of the
    member, and that name with one of the numbers up to [n] put before
    its suffix. *)
Definition template_names_accepted (tpl_dir : Path) (n : nat) (src : string)
    : Prop :=
  let out := tpl_dir // Path.name (Path.of_str src) in
  Fs.accepts (Path.name out) = true
  /\ forall i : nat,
       i <= n ->
       Fs.accepts (Path.stem out +:+ "_" +:+ pretty i +:+ Path.suffix out)
       = true.

(** ** utils_bip.py: searching a folder *)

(** [p.as_posix() <= q.as_posix()], the order of the sort key of
    [find_by_ext]: Python compares strings code point by code point. *)
Definition posix_le (p q : Path) : bool :=
  String.leb (Path.as_posix p) (Path.as_posix q).

(** [results.sort(key=lambda p: p.as_posix())]; the sort is stable. *)
Fixpoint insert_by_posix (p : Path) (l : list Path) : list Path :=
  match l with
  | [] => [p]
  | q :: rest => if posix_le p q then p :: l else q :: insert_by_posix p rest
  end.

Definition sort_by_posix (l : list Path) : list Path :=
  foldr insert_by_posix [] l.

(** [f.lower().endswith(loexts)] for a tuple of suffixes. *)
Definition ends_with_any (loexts : list string) (f : string) : bool :=
  existsb (fun e => Py.endswith (Py.lower f) e) loexts.

(** The body of [find_by_ext] on the files a walk of [base_dir] has met,
    each given by its path relative to [base_dir], in the order the walk
    met them. *)
Definition find_by_ext_in (walk : list (Path * content)) (base_dir : Path)
    (exts : list string) : list Path :=
  let loexts := Py.lower <$> exts in
  let results :=
    omap (fun '(rel, _) =>
            if ends_with_any loexts (Path.name rel)
            then Some (Path.join base_dir rel) else None) walk in
  sort_by_posix results.

Definition find_by_ext (m : fs) (base_dir : Path) (exts : list string)
    : list Path :=
  find_by_ext_in (walk_files m base_dir) base_dir exts.

(** [find_datamodel_files] *)
Definition find_datamodel_files_in (walk : list (Path * content))
    (base_dir : Path) : list Path :=
  let out :=
    omap (fun '(rel, _) =>
            if Py.endswith (Py.lower (Path.name rel)) "_datamodel.xdm"
            then Some (Path.join base_dir rel) else None) walk in
  sort_by_posix out.

Definition find_datamodel_files (m : fs) (base_dir : Path) : list Path :=
  find_datamodel_files_in (walk_files m base_dir) base_dir.

(** ** app.py: pass 1 of a container, one model bundle *)

(** One turn of the loop [for dm in dm_files]: a definition that cannot
    be parsed is skipped ([continue]); [None] stands for an exception of
    [write_sql_otbi], which is not caught there. *)
Definition write_models (model_root : Path) (st : option (fs * list Path))
    (dm : Path) : option (fs * list Path) :=
  '(m, created_paths) ← st;
  match parse_datamodel_xdm m dm with
  | None => Some (m, created_paths)
  | Some (datasets, valuesets) =>
      '(m', created) ← write_sql_otbi m model_root datasets valuesets (Some "");
      Some (m', created_paths ++ created)
  end.

(** [with zipfile.ZipFile(f) as zf: zf.extractall(dest)]; [None] stands
    for an exception. *)
Definition extractall (m : fs) (f dest : Path) : option fs :=
  match Fs.read m f with
  | Some (Zip members) => foldl (extract_member dest) (Some m) members
  | _ => None
  end.

(** One iteration of pass 1 for the model bundle [xdmz_file] found under
    the extraction folder [src], [tmp] being the temporary folder;
    [None] stands for an exception leaving the loop. *)
Definition process_xdmz (tmp src out_root : Path)
    (st : fs * (gmap (string * string) Path * gmap string Path) * list Path)
    (xdmz_file : Path)
    : option (fs * (gmap (string * string) Path * gmap string Path)
              * list Path) :=
  let '(m, maps, created_paths) := st in
  '(m, sub_tmp) ← ensure_dir m (tmp // ("__xdmz_" +:+ Path.stem xdmz_file));
  m ← extractall m xdmz_file sub_tmp;
  let dm_files := find_datamodel_files m sub_tmp in
  rel ← Path.relative_to xdmz_file src;
  let rel_parent := Path.parent rel in
  '(m, otbi_root) ←
    ensure_dir m (Path.join out_root (safe_path_from_rel rel_parent));
  '(m, model_root) ← unique_subdir m otbi_root (Path.stem xdmz_file);
  '(m, catalog_dir) ← ensure_dir m (model_root // "Catalog");
  data ← Fs.read m xdmz_file;
  m ← Fs.write m (catalog_dir // Path.name xdmz_file) data;
  let maps :=
    register_model rel_parent (Path.name xdmz_file) model_root maps in
  '(m, created_paths) ←
    foldl (write_models model_root) (Some (m, created_paths)) dm_files;
  Some (m, maps, created_paths).

(** The loop of pass 2 over the report bundles found in the container;
    [None] stands for an exception leaving the loop. *)
Definition pass_two (src out_root : Path)
    (scoped_map : gmap (string * string) Path)
    (global_map : gmap string Path)
    (st : fs * list Path) (xdoz_list : list Path) : option (fs * list Path) :=
  foldl (fun st xdoz_file =>
           st ≫= fun st =>
             process_xdoz src out_root scoped_map global_map st xdoz_file)
        (Some st) xdoz_list.

(** ** launch.py: the self-installing launcher

    The launcher acts on the outside world only: it tests paths, builds a
    virtual environment and runs commands.  The world is a parameter:
    [path_exists] is [Path.exists], [create_venv] is
    [venv.EnvBuilder(with_pip=True).create] ([None] when it raises),
    [check_call] gives the return code [subprocess] reports for a command
    (negative when the command was ended by a signal; [None] when the
    call raises something else, as it does when the command cannot be
    started) with the world it leaves, and [path_str] is [str] on paths.
    A run threads the world and the list of the commands handed to
    [subprocess.check_call] so far.  What the launcher writes to its log
    is left out. *)

Module Launch.

Inductive error :=
| CalledProcessError (returncode : Z)
| OtherError.

Section system.
Variable world : Type.
Variable path_exists : world -> Path -> bool.
Variable create_venv : Path -> world -> option world.
Variable check_call : list string -> world -> option Z * world.
Variable path_str : Path -> string.

Definition state : Type := world * list (list string).

(** A step either returns or raises, and leaves a state in both
    cases. *)
Definition step (A : Type) : Type := state -> state * (error + A).

Definition ret {A} (x : A) : step A := fun st => (st, inr x).









End system.

End Launch.

(* ================================================================== *)
(** * Properties *)
(* ================================================================== *)

(** ** Strings *)

Module PyFacts.
Import Py.

Lemma last_char_None s : last_char s = None -> s = "".
Proof. destruct s as [|c r]; [done|]. simpl. by destruct (last_char r). Qed.

Lemma lstrip_fixed p s : fails p (head_char s) -> lstrip_with p s = s.
Proof.
  destruct s as [|c r]; [done|]. intros H. simpl. by rewrite (H c eq_refl).
Qed.

Lemma rstrip_fixed p s : fails p (last_char s) -> rstrip_with p s = s.
Proof.
  induction s as [|c r IH]; [done|]. simpl. intros H.
  destruct (last_char r) as [d|] eqn:E.
  - rewrite IH by done. destruct r; [done|]. done.
  - apply last_char_None in E as ->. simpl. by rewrite (H c eq_refl).
Qed.

Lemma strip_with_fixed p s :
  fails p (head_char s) -> fails p (last_char s) -> strip_with p s = s.
Proof.
  intros Hh Hl. unfold strip_with. rewrite lstrip_fixed by done.
  by apply rstrip_fixed.
Qed.

Lemma sub_runs_fixed p rep s :
  all_chars (fun c => negb (p c)) s = true -> sub_runs p rep false s = s.
Proof.
  induction s as [|c r IH]; [done|]. simpl.
  intros [Hc Hr]%andb_true_iff. apply negb_true_iff in Hc. rewrite Hc.
  by rewrite IH.
Qed.

Lemma sub_runs_all q p (rep : ascii) b s :
  q rep = true ->
  all_chars (fun c => q c || p c) s = true ->
  all_chars q (sub_runs p (String rep "") b s) = true.
Proof.
  intros Hrep. revert b. induction s as [|c r IH]; [done|]. simpl.
  intros b [Hc Hr]%andb_true_iff. destruct (p c) eqn:Hp.
  - destruct b; simpl; [by apply IH|]. rewrite Hrep. by apply IH.
  - simpl. rewrite orb_false_r in Hc. rewrite Hc. by apply IH.
Qed.

Lemma all_chars_true s : all_chars (fun _ => true) s = true.
Proof. by induction s. Qed.

Lemma all_chars_impl (q q' : ascii -> bool) s :
  (forall c, q c = true -> q' c = true) ->
  all_chars q s = true -> all_chars q' s = true.
Proof.
  intros H. induction s as [|c r IH]; [done|]. simpl.
  intros [Hc Hr]%andb_true_iff. rewrite (H _ Hc). by apply IH.
Qed.

Lemma lstrip_all q p s :
  all_chars q s = true -> all_chars q (lstrip_with p s) = true.
Proof.
  induction s as [|c r IH]; [done|]. simpl.
  intros [Hc Hr]%andb_true_iff. destruct (p c); [by apply IH|].
  simpl. by rewrite Hc.
Qed.

Lemma rstrip_all q p s :
  all_chars q s = true -> all_chars q (rstrip_with p s) = true.
Proof.
  induction s as [|c r IH]; [done|]. simpl.
  intros [Hc Hr]%andb_true_iff. specialize (IH Hr).
  destruct (rstrip_with p r) as [|d t].
  - destruct (p c); [done|]. simpl. by rewrite Hc.
  - change (q c && all_chars q (String d t) = true). by rewrite Hc.
Qed.

Lemma lstrip_head p s : fails p (head_char (lstrip_with p s)).
Proof.
  induction s as [|c r IH]; [by intros ?|]. simpl.
  destruct (p c) eqn:E; [done|]. intros d [= <-]. done.
Qed.

Lemma rstrip_last p s : fails p (last_char (rstrip_with p s)).
Proof.
  induction s as [|c r IH]; [by intros ?|]. simpl.
  destruct (rstrip_with p r) as [|d t] eqn:E.
  - destruct (p c) eqn:Hc; [by intros ?|]. intros e [= <-]. done.
  - intros e He. apply IH. simpl in *.
    destruct (last_char t); [done|]. done.
Qed.

Lemma rstrip_head p s :
  fails p (head_char s) -> fails p (head_char (rstrip_with p s)).
Proof.
  destruct s as [|c r]; [done|]. simpl. intros H.
  destruct (rstrip_with p r).
  - destruct (p c); [by intros ?|done].
  - done.
Qed.

Lemma lstrip_no_adjacent p q s :
  no_adjacent q s = true -> no_adjacent q (lstrip_with p s) = true.
Proof.
  induction s as [|c r IH]; [done|]. intros H. simpl.
  destruct (p c); [|done]. apply IH. simpl in H.
  by apply andb_true_iff in H as [_ ?].
Qed.

Lemma rstrip_head_char p s c :
  head_char (rstrip_with p s) = Some c -> head_char s = Some c.
Proof.
  destruct s as [|d r]; [done|]. simpl.
  destruct (rstrip_with p r); [destruct (p d)|]; naive_solver.
Qed.

Lemma rstrip_no_adjacent p q s :
  no_adjacent q s = true -> no_adjacent q (rstrip_with p s) = true.
Proof.
  induction s as [|c r IH]; [done|]. simpl.
  intros [Hc Hr]%andb_true_iff. specialize (IH Hr).
  destruct (rstrip_with p r) as [|d t] eqn:E.
  - destruct (p c); [done|]. simpl. by rewrite andb_false_r.
  - change (negb (q c && q d) && no_adjacent q (String d t) = true).
    rewrite IH, andb_true_r.
    assert (head_char r = Some d) as Hd.
    { apply (rstrip_head_char p). by rewrite E. }
    by rewrite Hd in Hc.
Qed.

(** After [re.sub(p+, rep)] with [rep] a character of the class, no two
    adjacent characters are in the class; after a replaced run the
    output does not begin with one. *)
Lemma sub_runs_no_adjacent p (rep : ascii) b s :
  p rep = true ->
  no_adjacent p (sub_runs p (String rep "") b s) = true
  /\ (b = true -> fails p (head_char (sub_runs p (String rep "") b s))).
Proof.
  intros Hrep. revert b. induction s as [|c r IH]; [by split; [|intros ??]|].
  intros b. simpl. destruct (p c) eqn:Hc.
  - destruct b.
    + apply IH.
    + split; [|done]. destruct (IH true) as [H1 H2].
      change (negb (p rep &&
        from_option p false (head_char (sub_runs p (String rep "") true r)))
        && no_adjacent p (sub_runs p (String rep "") true r) = true).
      rewrite H1, andb_true_r.
      destruct (head_char _) as [d|] eqn:E; simpl.
      * rewrite (H2 eq_refl d eq_refl). by rewrite andb_false_r.
      * by rewrite andb_false_r.
  - split.
    + simpl. rewrite Hc. simpl. apply IH.
    + intros _ d [= <-]. done.
Qed.

(** *** Concatenation, reversal, prefixes and suffixes *)

Lemma append_cons c (a b : string) : String c a +:+ b = String c (a +:+ b).
Proof. reflexivity. Qed.

Lemma append_assoc (a b c : string) : (a +:+ b) +:+ c = a +:+ b +:+ c.
Proof.
  induction a as [|x a IH]; [done|]. by rewrite !append_cons, IH.
Qed.

Lemma length_append (a b : string) :
  String.length (a +:+ b) = String.length a + String.length b.
Proof.
  induction a as [|x a IH]; [done|]. rewrite append_cons. simpl.
  by rewrite IH.
Qed.

Lemma append_empty_r (x : string) : x +:+ "" = x.
Proof.
  induction x as [|c x IH]; [done|]. by rewrite append_cons, IH.
Qed.

Lemma rev_app_append a b s :
  String.rev_app a b +:+ s = String.rev_app a (b +:+ s).
Proof. revert b. induction a as [|c a IH]; [done|]. intros b. apply IH. Qed.

Lemma string_rev_append (x y : string) :
  String.rev (x +:+ y) = String.rev y +:+ String.rev x.
Proof.
  assert (forall z, String.rev_app (x +:+ y) z
                    = String.rev_app y (String.rev_app x z)) as Hz.
  { induction x as [|c x IH]; intros z; [done|].
    rewrite append_cons. simpl. apply IH. }
  unfold String.rev at 1. rewrite Hz.
  unfold String.rev. by rewrite rev_app_append.
Qed.

Lemma string_rev_involutive (x : string) : String.rev (String.rev x) = x.
Proof.
  induction x as [|c x IH]; [done|].
  change (String c x) with (String c "" +:+ x) at 1.
  rewrite !string_rev_append, IH. done.
Qed.

Lemma startswith_iff s pre :
  startswith s pre = true <-> exists u, s = pre +:+ u.
Proof.
  revert s. induction pre as [|a pre IH]; intros s.
  - destruct s; simpl; split; eauto.
  - destruct s as [|b s]; simpl.
    + split; [done|]. intros [u Hu]. by rewrite append_cons in Hu.
    + rewrite andb_true_iff, bool_decide_eq_true, IH. split.
      * intros [-> [u ->]]. exists u. by rewrite append_cons.
      * intros [u Hu]. rewrite append_cons in Hu.
        injection Hu as -> ->. eauto.
Qed.

Lemma endswith_iff s suf :
  endswith s suf = true <-> exists u, s = u +:+ suf.
Proof.
  unfold endswith. rewrite startswith_iff. split.
  - intros [u Hu]. exists (String.rev u).
    apply (f_equal String.rev) in Hu.
    by rewrite string_rev_involutive, string_rev_append, string_rev_involutive in Hu.
  - intros [u ->]. exists (String.rev u). apply string_rev_append.
Qed.

Lemma all_chars_append q a b :
  all_chars q (a +:+ b) = all_chars q a && all_chars q b.
Proof.
  induction a as [|c a IH]; [done|]. rewrite append_cons. simpl.
  by rewrite IH, andb_assoc.
Qed.

End PyFacts.

(** ** Name sanitizer *)

Example safe_name_ex1 : safe_name "  my report (v2).xdm " = "my_report_v2_.xdm".
Proof. vm_compute. reflexivity. Qed.

Example safe_name_ex2 : safe_name ".." = "unnamed".
Proof. vm_compute. reflexivity. Qed.

Example safe_name_ex3 : safe_name "a/../b" = "a_.._b".
Proof. vm_compute. reflexivity. Qed.

Module SafeName.
Import Py PyFacts.

Lemma fails_from_option p o :
  from_option (fun c => negb (p c)) true o = true <-> fails p o.
Proof.
  destruct o as [c|]; simpl; split.
  - intros H d [= <-]. by apply negb_true_iff.
  - intros H. apply negb_true_iff. by apply H.
  - by intros _ ?.
  - done.
Qed.

Lemma all_chars_head q s c :
  all_chars q s = true -> head_char s = Some c -> q c = true.
Proof.
  destruct s; [done|]. simpl. intros [? _]%andb_true_iff [= <-]. done.
Qed.

Lemma all_chars_last q s c :
  all_chars q s = true -> last_char s = Some c -> q c = true.
Proof.
  induction s as [|d r IH]; [done|]. simpl. intros [Hd Hr]%andb_true_iff.
  destruct (last_char r); [by apply IH|]. by intros [= <-].
Qed.

(** A run of one replaced by itself: the substitution changes nothing
    when the class members are isolated. *)
Lemma sub_runs_isolated p (rep : ascii) b s :
  (forall c, p c = true -> c = rep) ->
  (b = true -> fails p (head_char s)) ->
  no_adjacent p s = true ->
  sub_runs p (String rep "") b s = s.
Proof.
  intros Hp. revert b. induction s as [|c r IH]; [done|]. simpl.
  intros b Hb [Hc Hr]%andb_true_iff. destruct (p c) eqn:E.
  - destruct b; [by rewrite (Hb eq_refl c eq_refl) in E|].
    rewrite (Hp c E). change (String rep (sub_runs p (String rep "") true r)
                              = String rep r). f_equal.
    apply IH; [|done]. intros _ d Hd. rewrite Hd in Hc. simpl in Hc.
    by apply negb_true_iff in Hc.
  - f_equal. by apply IH.
Qed.

Lemma space_is_unsafe c : isspace c = true -> unsafe_char c = true.
Proof. destruct c as [[] [] [] [] [] [] [] []]; vm_compute; done. Qed.

Lemma underscore_is_safe : unsafe_char "_" = false.
Proof. reflexivity. Qed.

Lemma is_clean_fixed s : is_clean s = true -> safe_name s = s.
Proof.
  unfold is_clean. rewrite !andb_true_iff, !fails_from_option.
  intros [[[[Hne Hall] Hadj] Hhd] Hlt].
  apply negb_true_iff, bool_decide_eq_false in Hne.
  unfold safe_name.
  assert (or_else s "" = s) as -> by by destruct s.
  assert (strip s = s) as ->.
  { apply strip_with_fixed; intros c Hc.
    - pose proof (all_chars_head _ _ _ Hall Hc) as Hs.
      destruct (isspace c) eqn:E; [|done]. simpl in Hs.
      by rewrite (space_is_unsafe _ E) in Hs.
    - pose proof (all_chars_last _ _ _ Hall Hc) as Hs.
      destruct (isspace c) eqn:E; [|done]. simpl in Hs.
      by rewrite (space_is_unsafe _ E) in Hs. }
  unfold re_sub_plus. rewrite (sub_runs_fixed unsafe_char) by done.
  rewrite sub_runs_isolated; [| |done|done].
  2:{ intros c Hc. by apply bool_decide_eq_true in Hc. }
  unfold strip_chars. rewrite strip_with_fixed by done.
  by destruct s.
Qed.

Lemma safe_name_is_clean x : is_clean (safe_name x) = true.
Proof.
  unfold safe_name.
  set (s1 := strip (or_else x "")).
  set (s2 := re_sub_plus unsafe_char "_" s1).
  set (s3 := re_sub_plus is_underscore "_" s2).
  set (s4 := strip_chars "._" s3).
  assert (all_chars (fun c => negb (unsafe_char c)) s2 = true) as H2.
  { apply sub_runs_all; [done|].
    apply all_chars_impl with (q := fun _ => true);
      [|apply all_chars_true].
    intros c _. by destruct (unsafe_char c). }
  assert (all_chars (fun c => negb (unsafe_char c)) s3 = true) as H3.
  { apply sub_runs_all; [done|].
    eapply all_chars_impl; [|exact H2]. intros c ->. done. }
  assert (no_adjacent is_underscore s3 = true) as H3'.
  { by apply (sub_runs_no_adjacent is_underscore "_" false s2). }
  destruct s4 as [|c r] eqn:E4; [done|]. simpl or_else. rewrite <- E4.
  unfold is_clean. rewrite !andb_true_iff, !fails_from_option.
  repeat split.
  - rewrite E4. done.
  - apply rstrip_all, lstrip_all, H3.
  - apply rstrip_no_adjacent, lstrip_no_adjacent, H3'.
  - apply rstrip_head, lstrip_head.
  - apply rstrip_last.
Qed.

Lemma is_clean_nonempty s : is_clean s = true -> s <> "".
Proof.
  unfold is_clean. rewrite !andb_true_iff. intros [[[[Hne _] _] _] _].
  by apply negb_true_iff, bool_decide_eq_false in Hne.
Qed.

End SafeName.

(** The white-space stripping that [safe_name] starts with changes
    nothing: white space is replaced by underscores, which the final
    stripping removes at both ends. *)
Module SanitizeRefines.
Import Py PyFacts.

Lemma sub_runs_snoc p (rep : string) b x w :
  p w = true ->
  exists e, (e = "" \/ e = rep)
            /\ sub_runs p rep b (x +:+ String w "")
               = sub_runs p rep b x +:+ e.
Proof.
  intros Hw. revert b. induction x as [|c x IH]; intros b.
  - change ("" +:+ String w "") with (String w ""). simpl. rewrite Hw.
    destruct b.
    + exists "". auto.
    + exists rep. split; [auto|]. by rewrite append_empty_r.
  - rewrite append_cons. simpl. destruct (p c).
    + destruct b.
      * apply IH.
      * destruct (IH true) as (e & He & ->). exists e. split; [done|].
        by rewrite append_assoc.
    + destruct (IH false) as (e & He & ->). exists e. split; [done|].
      by rewrite append_cons.
Qed.

Lemma rstrip_snoc p u c :
  p c = true -> rstrip_with p (u +:+ String c "") = rstrip_with p u.
Proof.
  intros Hc. induction u as [|d u IH].
  - change ("" +:+ String c "") with (String c ""). simpl. by rewrite Hc.
  - rewrite append_cons. simpl. by rewrite IH.
Qed.

Lemma lstrip_snoc p z c :
  p c = true ->
  lstrip_with p (z +:+ String c "")
  = if all_chars p z then "" else lstrip_with p z +:+ String c "".
Proof.
  intros Hc. induction z as [|d z IH].
  - change ("" +:+ String c "") with (String c ""). simpl. by rewrite Hc.
  - rewrite append_cons. simpl. destruct (p d); [done|]. by simpl.
Qed.

Lemma lstrip_all_empty p z : all_chars p z = true -> lstrip_with p z = "".
Proof.
  induction z as [|d z IH]; [done|]. simpl.
  intros [-> Hz]%andb_true_iff. by apply IH.
Qed.

Lemma strip_snoc p z c :
  p c = true -> strip_with p (z +:+ String c "") = strip_with p z.
Proof.
  intros Hc. unfold strip_with. rewrite lstrip_snoc by done.
  destruct (all_chars p z) eqn:E.
  - by rewrite lstrip_all_empty.
  - by apply rstrip_snoc.
Qed.

Lemma body_snoc x w :
  unsafe_char w = true -> sanitize_body (x +:+ String w "") = sanitize_body x.
Proof.
  intros Hw. unfold sanitize_body, re_sub_plus, strip_chars.
  destruct (sub_runs_snoc unsafe_char "_" false x w Hw) as (e & [->| ->] & ->).
  - by rewrite append_empty_r.
  - destruct (sub_runs_snoc is_underscore "_" false
                (sub_runs unsafe_char "_" false x) "_" eq_refl)
      as (e & [->| ->] & ->).
    + by rewrite append_empty_r.
    + by apply strip_snoc.
Qed.

Lemma lstrip_collapse_sub s : forall b b',
  lstrip_with dot_or_underscore
    (sub_runs is_underscore "_" b (sub_runs unsafe_char "_" b' s))
  = lstrip_with dot_or_underscore
      (sub_runs is_underscore "_" true (sub_runs unsafe_char "_" true s)).
Proof.
  induction s as [|c s IH]; intros b b'; [done|]. simpl.
  destruct (unsafe_char c) eqn:Hc.
  - destruct b'; [apply IH|].
    change ("_" +:+ sub_runs unsafe_char "_" true s)
      with (String "_" (sub_runs unsafe_char "_" true s)).
    simpl. destruct b; [apply IH|].
    change ("_" +:+ ?z) with (String "_"%char z). simpl. apply IH.
  - simpl. destruct (is_underscore c) eqn:Hu.
    + apply bool_decide_eq_true in Hu. subst c.
      destruct b; simpl; reflexivity.
    + done.
Qed.

Lemma body_cons w x :
  unsafe_char w = true -> sanitize_body (String w x) = sanitize_body x.
Proof.
  intros Hw. unfold sanitize_body, re_sub_plus, strip_chars, strip_with.
  fold dot_or_underscore. f_equal. simpl. rewrite Hw.
  change ("_" +:+ ?z) with (String "_"%char z). simpl.
  change ("_" +:+ ?z) with (String "_"%char z). simpl.
  rewrite lstrip_collapse_sub. symmetry. apply lstrip_collapse_sub.
Qed.

Lemma body_lstrip x :
  sanitize_body (lstrip_with isspace x) = sanitize_body x.
Proof.
  induction x as [|c x IH]; [done|]. simpl.
  destruct (isspace c) eqn:E; [|done].
  rewrite IH. symmetry. by apply body_cons, SafeName.space_is_unsafe.
Qed.

Lemma rstrip_decomp p x :
  exists post, x = rstrip_with p x +:+ post /\ all_chars p post = true.
Proof.
  induction x as [|c x (post & Hx & Hp)]; [by exists ""|]. simpl.
  destruct (rstrip_with p x) as [|d r] eqn:E.
  - change ("" +:+ post) with post in Hx. subst x.
    destruct (p c) eqn:Hc.
    + exists (String c post). split; [done|]. simpl. by rewrite Hc.
    + exists post. done.
  - exists post. split; [|done]. rewrite append_cons. by rewrite <- Hx.
Qed.

Lemma body_append_spaces post : forall x,
  all_chars isspace post = true ->
  sanitize_body (x +:+ post) = sanitize_body x.
Proof.
  induction post as [|c post IH]; intros x Hp.
  - by rewrite append_empty_r.
  - simpl in Hp. apply andb_true_iff in Hp as [Hc Hp].
    change (String c post) with (String c "" +:+ post).
    rewrite <- append_assoc, IH by done.
    by apply body_snoc, SafeName.space_is_unsafe.
Qed.

Lemma body_strip x : sanitize_body (strip x) = sanitize_body x.
Proof.
  unfold strip, strip_with.
  destruct (rstrip_decomp isspace (lstrip_with isspace x)) as (post & Hx & Hp).
  rewrite <- (body_lstrip x). rewrite Hx at 2.
  by rewrite body_append_spaces.
Qed.

Lemma safe_name_described x : safe_name x = described_sanitize x.
Proof.
  unfold safe_name, described_sanitize.
  assert (or_else x "" = x) as -> by by destruct x.
  fold (sanitize_body (strip x)) (sanitize_body x). by rewrite body_strip.
Qed.

End SanitizeRefines.

(** C5. The name sanitizer is idempotent and its result is never empty:
    for every string [x], [safe_name (safe_name x) = safe_name x] and
    [safe_name x] is not the empty string.  It computes what the
    description says: each run of characters outside [[\w\-.]] replaced
    by one underscore, repeated underscores collapsed, leading and
    trailing underscores and dots stripped, and ["unnamed"] when nothing
    is left; so its result is made of characters of [[\w\-.]] only, has
    no repeated underscore and neither begins nor ends with a dot or an
    underscore. *)
Theorem safe_name_idempotent_nonempty (x : string) :
  safe_name (safe_name x) = safe_name x
  /\ safe_name x <> ""
  /\ safe_name x = described_sanitize x
  /\ (sanitize_body x = "" -> safe_name x = "unnamed")
  /\ is_clean (safe_name x) = true.
Proof.
  pose proof (SafeName.safe_name_is_clean x) as H. split_and!.
  - by apply SafeName.is_clean_fixed.
  - by apply SafeName.is_clean_nonempty.
  - apply SanitizeRefines.safe_name_described.
  - intros E. rewrite SanitizeRefines.safe_name_described.
    unfold described_sanitize. by rewrite E.
  - done.
Qed.

(** ** Paths *)

Module PathFacts.
Import Py PyFacts.

Lemma split_go_no_sep sep cur s :
  all_chars (fun c => negb (bool_decide (c = sep))) s = true ->
  split_go sep cur s = [String.rev cur +:+ s].
Proof.
  revert cur. induction s as [|c r IH]; intros cur.
  - intros _. simpl. f_equal. unfold String.rev.
    rewrite rev_app_append. done.
  - simpl. intros [Hc Hr]%andb_true_iff. apply negb_true_iff in Hc.
    rewrite Hc, IH by done. f_equal. unfold String.rev. simpl.
    by rewrite !rev_app_append.
Qed.

Lemma split_no_sep sep s :
  all_chars (fun c => negb (bool_decide (c = sep))) s = true ->
  split sep s = [s].
Proof. intros H. unfold split. by rewrite split_go_no_sep. Qed.

(** A good name is a path of its own. *)
Lemma of_str_good n : good_name n = true -> Path.of_str n = mkPath false [n].
Proof.
  unfold good_name. intros [Hk Hs]%andb_true_iff. unfold Path.of_str.
  rewrite split_no_sep by done. simpl. rewrite Hk. f_equal.
  destruct n as [|c r]; [done|]. simpl in *.
  apply andb_true_iff in Hs as [Hc _]. apply negb_true_iff in Hc.
  apply bool_decide_eq_false in Hc. simpl.
  rewrite bool_decide_eq_false_2; [done|]. congruence.
Qed.

Lemma good_name_facts n :
  good_name n = true ->
  n <> "." /\ n <> "" /\ count_char "/" n = 0 /\ startswith n "/" = false.
Proof.
  unfold good_name, Path.kept_part. rewrite !andb_true_iff.
  intros [[H1 H2] H3]. apply negb_true_iff, bool_decide_eq_false in H1, H2.
  split; [done|]. split; [done|].
  assert (count_char "/" n = 0) as Hc.
  { clear H1 H2. induction n as [|c r IH]; [done|]. simpl in *.
    apply andb_true_iff in H3 as [Hc Hr]. apply negb_true_iff in Hc.
    rewrite Hc. by apply IH. }
  split; [done|]. destruct n as [|c r]; [done|]. simpl in *.
  apply andb_true_iff in H3 as [Hc' _].
  apply negb_true_iff, bool_decide_eq_false in Hc'.
  rewrite bool_decide_eq_false_2; [done|]. congruence.
Qed.

Lemma div_good p n : good_name n = true -> p // n = mkPath (anchored p) (names p ++ [n]).
Proof. intros H. unfold Path.div. by rewrite of_str_good. Qed.

Lemma of_parts_good_from p l :
  forallb good_name l = true ->
  foldl Path.div p l = mkPath (anchored p) (names p ++ l).
Proof.
  revert p. induction l as [|n l IH]; intros p.
  - intros _. simpl. rewrite app_nil_r. by destruct p.
  - simpl. intros [Hn Hl]%andb_true_iff. rewrite div_good by done.
    rewrite IH by done. simpl. by rewrite <- app_assoc.
Qed.

Lemma of_parts_good l :
  forallb good_name l = true -> Path.of_parts l = mkPath false l.
Proof. intros H. unfold Path.of_parts. by rewrite of_parts_good_from. Qed.

Lemma slash_is_unsafe c : negb (unsafe_char c) = true ->
  negb (bool_decide (c = "/"%char)) = true.
Proof.
  intros H. apply negb_true_iff, bool_decide_eq_false. intros ->. done.
Qed.

(** What the sanitizer returns is a good name, different from [".."]. *)
Lemma clean_good s : is_clean s = true -> good_name s = true /\ s <> "..".
Proof.
  unfold is_clean. rewrite !andb_true_iff.
  intros [[[[Hne Hall] _] Hhd] _]. unfold good_name, Path.kept_part.
  destruct s as [|c r]; [done|]. simpl in Hhd.
  apply negb_true_iff in Hhd. unfold dot_or_underscore in Hhd. simpl in Hhd.
  apply orb_false_iff in Hhd as [Hdot _].
  apply bool_decide_eq_false in Hdot.
  split; [|congruence]. rewrite !andb_true_iff. repeat split.
  - apply negb_true_iff, bool_decide_eq_false. congruence.
  - eapply all_chars_impl; [|exact Hall]. apply slash_is_unsafe.
Qed.

Lemma safe_name_good x : good_name (safe_name x) = true /\ safe_name x <> "..".
Proof. apply clean_good, SafeName.safe_name_is_clean. Qed.

Lemma safe_parts_from acc l :
  foldl (fun parts part =>
           if bool_decide (part = ".") || bool_decide (part = "")
           then parts else parts ++ [safe_name part]) acc l
  = acc ++ (safe_name <$>
              List.filter (fun part => negb (bool_decide (part = ".")
                                             || bool_decide (part = ""))) l).
Proof.
  revert acc. induction l as [|x l IH]; intros acc; simpl.
  - by rewrite app_nil_r.
  - rewrite IH. destruct (bool_decide (x = ".") || bool_decide (x = ""));
      simpl; [done|]. by rewrite <- app_assoc.
Qed.

Lemma safe_parts_spec p :
  safe_parts p = safe_name <$>
    List.filter (fun part => negb (bool_decide (part = ".")
                                   || bool_decide (part = ""))) (Path.parts p).
Proof. unfold safe_parts. by rewrite safe_parts_from. Qed.

Lemma safe_parts_good p : forallb good_name (safe_parts p) = true.
Proof.
  rewrite safe_parts_spec. apply forallb_forall. intros n Hn.
  apply in_map_iff in Hn as (x & <- & _). apply safe_name_good.
Qed.

Lemma safe_path_from_rel_names p :
  safe_path_from_rel p = mkPath false (safe_parts p).
Proof.
  unfold safe_path_from_rel. pose proof (safe_parts_good p) as H.
  destruct (safe_parts p) as [|n l] eqn:E; [done|].
  by rewrite of_parts_good.
Qed.

Lemma strip_prefix_app pre l : Path.strip_prefix pre (pre ++ l) = Some l.
Proof.
  induction pre as [|a pre IH]; [done|]. simpl.
  by rewrite bool_decide_eq_true_2.
Qed.

End PathFacts.

Example safe_path_from_rel_ex :
  safe_path_from_rel (Path.of_str "Sales 2024/../Q1") =
  Path.of_str "Sales_2024/unnamed/Q1".
Proof. vm_compute. reflexivity. Qed.

(** C9. For every input path, [safe_path_from_rel] returns a relative
    path whose names are the sanitized non-empty, non-["."] parts of the
    input, in order; none of them is [".."], ["."] or empty and none
    contains a separator (so none is absolute); [safe_name] maps [".."] to
    ["unnamed"]; and joining any output root with the result stays below
    that root: the root's names are a prefix of the joined path, which is
    the root followed by those names. *)
Theorem safe_path_from_rel_confined (rel_dir : Path) :
  let r := safe_path_from_rel rel_dir in
  anchored r = false
  /\ names r = safe_name <$>
       List.filter (fun part => negb (bool_decide (part = ".")
                                      || bool_decide (part = "")))
                   (Path.parts rel_dir)
  /\ Forall (fun n => n <> ".." /\ n <> "." /\ n <> ""
                      /\ Py.count_char "/" n = 0
                      /\ Py.startswith n "/" = false) (names r)
  /\ safe_name ".." = "unnamed"
  /\ forall out_root : Path,
       Path.join out_root r = mkPath (anchored out_root) (names out_root ++ names r)
       /\ Path.relative_to (Path.join out_root r) out_root = Some r
       /\ ".." ∉ names r.
Proof.
  intros r. subst r. rewrite PathFacts.safe_path_from_rel_names. simpl.
  pose proof (PathFacts.safe_parts_spec rel_dir) as Hspec.
  assert (Forall (fun n => good_name n = true /\ n <> "..")
                 (safe_parts rel_dir)) as Hgood.
  { rewrite Hspec. apply Forall_forall. intros n Hn.
    apply list_elem_of_fmap in Hn as (x & -> & _).
    apply PathFacts.safe_name_good. }
  split; [done|]. split; [done|]. split.
  { eapply Forall_impl; [exact Hgood|]. intros n [Hg Hne].
    pose proof (PathFacts.good_name_facts n Hg) as (? & ? & ? & ?). done. }
  split; [by vm_compute|]. intros out_root. split; [done|]. split.
  - unfold Path.relative_to, Path.join. simpl.
    rewrite bool_decide_eq_true_2 by done.
    by rewrite PathFacts.strip_prefix_app.
  - intros Hin. rewrite Forall_forall in Hgood.
    by destruct (Hgood _ Hin) as [_ ?].
Qed.

(** ** The ancestor walk *)

Module WalkFacts.
Import Py PyFacts PathFacts.

Lemma join_snoc sep ns x :
  ns <> [] -> join sep (ns ++ [x]) = join sep ns +:+ sep +:+ x.
Proof.
  induction ns as [|n ns IH]; [done|]. intros _.
  destruct ns as [|m ns]; [done|].
  change (n +:+ sep +:+ join sep ((m :: ns) ++ [x])
          = (n +:+ sep +:+ join sep (m :: ns)) +:+ sep +:+ x).
  rewrite IH by done. by rewrite !append_assoc.
Qed.

Lemma of_str_dot : Path.of_str "." = mkPath false [].
Proof. reflexivity. Qed.

Lemma walk_next_snoc a ns x :
  walk_next (Running (mkPath a (ns ++ [x])))
  = Some (Path.as_posix (mkPath a (ns ++ [x])), Running (mkPath a ns)).
Proof.
  unfold walk_next. f_equal. f_equal.
  rewrite bool_decide_eq_false_2.
  2:{ rewrite of_str_dot. intros [= _ H]. by destruct ns. }
  unfold Path.parent. simpl. rewrite removelast_last.
  rewrite bool_decide_eq_true_2; [done|].
  intros [= H]. apply (f_equal length) in H. rewrite length_app in H.
  simpl in H. lia.
Qed.

Lemma walk_next_dot :
  walk_next (Running (mkPath false [])) = Some (".", Finished).
Proof. reflexivity. Qed.

Lemma walk_next_root :
  walk_next (Running (mkPath true [])) = Some ("/", Running (mkPath false [])).
Proof. reflexivity. Qed.

Lemma ancestors_nil a : ancestors (mkPath a []) = [mkPath a []].
Proof. reflexivity. Qed.

Lemma ancestors_snoc a ns x :
  ancestors (mkPath a (ns ++ [x]))
  = mkPath a (ns ++ [x]) :: ancestors (mkPath a ns).
Proof.
  unfold ancestors. simpl names. simpl anchored.
  rewrite length_app. simpl length.
  replace (S (length ns + 1)) with (S (S (length ns))) by lia.
  rewrite (seq_S (S (length ns))), rev_app_distr. simpl rev at 1.
  simpl app. rewrite fmap_cons. f_equal.
  - f_equal. rewrite take_ge; [done|]. rewrite length_app. simpl. lia.
  - apply list_fmap_ext. intros i k Hk.
    apply list_elem_of_lookup_2 in Hk.
    rewrite list_elem_of_In, <- in_rev, in_seq in Hk.
    f_equal. rewrite take_app_le by lia. done.
Qed.

Lemma drain_S fuel st :
  drain (S fuel) st
  = match walk_next st with
    | None => Some []
    | Some (v, st') => (v ::.) <$> drain fuel st'
    end.
Proof. reflexivity. Qed.

(** Draining finishes as soon as the bound exceeds the depth by two. *)
Lemma drain_relative ns fuel :
  length ns + 2 <= fuel ->
  drain fuel (Running (mkPath false ns))
  = Some (Path.as_posix <$> ancestors (mkPath false ns)).
Proof.
  revert fuel. induction ns as [|x ns IH] using rev_ind; intros fuel Hf.
  - destruct fuel as [|[|fuel]]; simpl in Hf; try lia. reflexivity.
  - rewrite length_app in Hf. simpl in Hf.
    destruct fuel as [|fuel]; [lia|].
    rewrite drain_S, walk_next_snoc, IH by lia. by rewrite ancestors_snoc.
Qed.

Lemma yields_relative ns :
  yields (Running (mkPath false ns))
         (Path.as_posix <$> ancestors (mkPath false ns)).
Proof.
  induction ns as [|x ns IH] using rev_ind.
  - eapply yields_more; [apply walk_next_dot|]. constructor.
  - rewrite ancestors_snoc, fmap_cons.
    eapply yields_more; [apply walk_next_snoc|]. done.
Qed.

(** The walk also ends from an anchored path: after the root it yields
    ["."] once and stops. *)
Lemma yields_anchored ns :
  exists vs, yields (Running (mkPath true ns)) vs.
Proof.
  induction ns as [|x ns [vs IH]] using rev_ind.
  - exists ["/"; "."]. eapply yields_more; [apply walk_next_root|].
    eapply yields_more; [apply walk_next_dot|]. constructor.
  - eexists. eapply yields_more; [apply walk_next_snoc|]. exact IH.
Qed.

Lemma drain_anchored ns fuel :
  length ns + 3 <= fuel ->
  is_Some (drain fuel (Running (mkPath true ns))).
Proof.
  revert fuel. induction ns as [|x ns IH] using rev_ind; intros fuel Hf.
  - destruct fuel as [|fuel]; [simpl in Hf; lia|].
    rewrite drain_S, walk_next_root, (drain_relative []) by (simpl in *; lia).
    by eexists.
  - rewrite length_app in Hf. simpl in Hf.
    destruct fuel as [|fuel]; [lia|].
    rewrite drain_S, walk_next_snoc.
    destruct (IH fuel) as [vs ->]; [lia|]. by eexists.
Qed.

(** The bound of [walk_up_rel_paths] is never reached. *)
Lemma walk_up_rel_paths_total p :
  drain (length (names p) + 3) (Running p) = Some (walk_up_rel_paths p).
Proof.
  unfold walk_up_rel_paths. destruct p as [[|] ns]; simpl names.
  - by destruct (drain_anchored ns (length ns + 3)) as [vs ->].
  - by rewrite drain_relative by lia.
Qed.

Lemma yields_functional st vs1 vs2 :
  yields st vs1 -> yields st vs2 -> vs1 = vs2.
Proof.
  intros H. revert vs2. induction H as [|st v st' vs Hn _ IH]; intros vs2 H2.
  - by inversion H2.
  - inversion H2 as [|? v2 st2 vs2' Hn2 H2']; simplify_eq.
    f_equal. by apply IH.
Qed.

Lemma walk_up_rel_paths_eq p :
  anchored p = false ->
  walk_up_rel_paths p = Path.as_posix <$> ancestors p.
Proof.
  destruct p as [a ns]. simpl. intros ->. unfold walk_up_rel_paths.
  simpl names. by rewrite drain_relative by lia.
Qed.

Lemma as_posix_relative_snoc ns x :
  Path.as_posix (mkPath false (ns ++ [x]))
  = match ns with
    | [] => x
    | _ => Path.as_posix (mkPath false ns) +:+ "/" +:+ x
    end.
Proof.
  unfold Path.as_posix. simpl. destruct ns as [|n ns]; [done|].
  rewrite join_snoc by done. done.
Qed.

Lemma good_name_length n : good_name n = true -> 1 <= String.length n.
Proof.
  intros H. destruct (good_name_facts n H) as (_ & Hne & _).
  destruct n; [done|]. simpl. lia.
Qed.

Lemma ancestors_length_bound ns s :
  forallb good_name ns = true ->
  s ∈ Path.as_posix <$> ancestors (mkPath false ns) ->
  String.length s <= String.length (Path.as_posix (mkPath false ns)).
Proof.
  revert s. induction ns as [|x ns IH] using rev_ind; intros s Hwf Hs.
  - apply list_elem_of_singleton in Hs as ->. done.
  - rewrite forallb_app in Hwf. apply andb_true_iff in Hwf as [Hns Hx].
    simpl in Hx. rewrite andb_true_r in Hx.
    rewrite ancestors_snoc, fmap_cons in Hs.
    apply elem_of_cons in Hs as [->|Hs]; [done|].
    specialize (IH s Hns Hs). rewrite as_posix_relative_snoc.
    pose proof (good_name_length x Hx).
    destruct ns as [|n ns]; [simpl in *; lia|].
    rewrite !length_append. lia.
Qed.

Lemma ancestors_NoDup ns :
  forallb good_name ns = true ->
  NoDup (Path.as_posix <$> ancestors (mkPath false ns)).
Proof.
  induction ns as [|x ns IH] using rev_ind; intros Hwf.
  - apply NoDup_singleton.
  - rewrite forallb_app in Hwf. apply andb_true_iff in Hwf as [Hns Hx].
    simpl in Hx. rewrite andb_true_r in Hx.
    rewrite ancestors_snoc, fmap_cons. apply NoDup_cons. split; [|auto].
    intros Hin. rewrite as_posix_relative_snoc in Hin.
    destruct ns as [|n ns].
    + apply list_elem_of_singleton in Hin.
      by destruct (good_name_facts x Hx) as [? _].
    + apply ancestors_length_bound in Hin; [|done].
      rewrite !length_append in Hin. simpl in Hin. lia.
Qed.

Lemma ancestors_last ns :
  last (Path.as_posix <$> ancestors (mkPath false ns)) = Some ".".
Proof.
  induction ns as [|x ns IH] using rev_ind; [done|].
  by rewrite ancestors_snoc, fmap_cons, last_cons, IH.
Qed.

Lemma ancestors_head a ns :
  head (ancestors (mkPath a ns)) = Some (mkPath a ns).
Proof.
  destruct ns as [|x ns _] using rev_ind; [done|].
  by rewrite ancestors_snoc.
Qed.

Lemma ancestors_length p : length (ancestors p) = S (length (names p)).
Proof. unfold ancestors. by rewrite length_fmap, length_rev, length_seq. Qed.

End WalkFacts.

Example walk_up_rel_paths_ex :
  walk_up_rel_paths (Path.of_str "a/b/c") = ["a/b/c"; "a/b"; "a"; "."].
Proof. vm_compute. reflexivity. Qed.

(** C10. For every relative path the generator [walk_up_rel_paths]
    finishes after finitely many values: resumed from its start it yields
    exactly the list [walk_up_rel_paths p] and then stops.  That list is
    the path followed by each of its ancestors, nearest first, one value
    per ancestor with no value repeated, it has one more element than the
    path has names, it begins with the path itself and ends with ["."]. *)
Theorem walk_up_rel_paths_finite (p : Path) :
  anchored p = false ->
  path_wf p = true ->
  yields (Running p) (walk_up_rel_paths p)
  /\ (forall vs, yields (Running p) vs -> vs = walk_up_rel_paths p)
  /\ walk_up_rel_paths p = Path.as_posix <$> ancestors p
  /\ NoDup (walk_up_rel_paths p)
  /\ length (walk_up_rel_paths p) = S (length (names p))
  /\ head (walk_up_rel_paths p) = Some (Path.as_posix p)
  /\ last (walk_up_rel_paths p) = Some ".".
Proof.
  intros Ha Hwf. pose proof (WalkFacts.walk_up_rel_paths_eq p Ha) as E.
  destruct p as [a ns]. simpl in Ha. subst a. rewrite E.
  pose proof (WalkFacts.yields_relative ns) as Hy.
  split; [done|]. split.
  { intros vs Hvs. eapply WalkFacts.yields_functional; eauto. }
  split; [done|]. split; [by apply WalkFacts.ancestors_NoDup|].
  rewrite length_fmap, WalkFacts.ancestors_length. split; [done|].
  split; [|apply WalkFacts.ancestors_last].
  pose proof (WalkFacts.ancestors_head false ns) as Hh.
  destruct (ancestors _) as [|q qs]; simplify_eq/=. done.
Qed.

Lemma walk_up_rel_paths_finite_witness :
  walk_up_rel_paths (Path.of_str "a/b") = ["a/b"; "a"; "."]
  /\ last (walk_up_rel_paths (Path.of_str "a/b")) = Some ".".
Proof.
  pose proof (walk_up_rel_paths_finite (Path.of_str "a/b") eq_refl eq_refl)
    as (_ & _ & _ & _ & _ & _ & H).
  split; [reflexivity | exact H].
Defined.

(** ** Files and unique folders *)

Module FsFacts.
Import Py PyFacts PathFacts WalkFacts.

Lemma pretty_N_char_no_slash x : no_slash (pretty_N_char x) = true.
Proof. unfold pretty_N_char. by repeat case_match. Qed.

Lemma pretty_N_go_no_slash x s :
  all_chars no_slash s = true -> all_chars no_slash (pretty_N_go x s) = true.
Proof.
  revert s. induction (N.lt_wf_0 x) as [x _ IH]; intros s Hs.
  destruct (decide (x = 0)%N) as [->|].
  - by rewrite pretty_N_go_0.
  - rewrite pretty_N_go_step by lia. apply IH.
    + apply N.div_lt; lia.
    + simpl. by rewrite pretty_N_char_no_slash.
Qed.

Lemma pretty_nat_no_slash (i : nat) : all_chars no_slash (pretty i) = true.
Proof.
  unfold pretty, pretty_nat, pretty, pretty_N. case_decide; [done|].
  by apply pretty_N_go_no_slash.
Qed.

(** A numbered variant of a good name is a good name. *)
Lemma numbered_good base i :
  good_name base = true -> good_name (numbered base i) = true.
Proof.
  unfold good_name, Path.kept_part, numbered.
  rewrite !andb_true_iff. intros [[H1 H2] H3].
  apply negb_true_iff, bool_decide_eq_false in H1, H2.
  destruct base as [|c r]; [done|]. split; [split|].
  - apply negb_true_iff, bool_decide_eq_false. rewrite append_cons.
    discriminate.
  - apply negb_true_iff, bool_decide_eq_false. rewrite append_cons.
    intros [= -> E]. destruct r; [done|]. rewrite append_cons in E.
    discriminate.
  - unfold no_separator in *. rewrite !all_chars_append, H3.
    by rewrite pretty_nat_no_slash.
Qed.

Lemma numbered_inj base : Inj (=) (=) (numbered base).
Proof.
  intros i j H. unfold numbered in H.
  apply String.app_inj, String.app_inj in H. by apply pretty_nat_inj in H.
Qed.

Lemma numbered_ne base i : numbered base i <> base.
Proof.
  unfold numbered. intros H. apply (f_equal String.length) in H.
  rewrite !length_append in H. simpl in H. lia.
Qed.

(** *** The renaming loop *)

Lemma while_exists_free fuel m mk t i r :
  Fs.while_exists fuel m mk t i = Some r -> Fs.exists_ m r = false.
Proof.
  revert t i. induction fuel as [|fuel IH]; intros t i; simpl;
    destruct (Fs.exists_ m t) eqn:E; try done; try by intros [= <-].
  apply IH.
Qed.

Lemma while_exists_first fuel m mk t i :
  Fs.exists_ m t = false -> Fs.while_exists fuel m mk t i = Some t.
Proof. intros E. destruct fuel; simpl; by rewrite E. Qed.

Lemma while_exists_next fuel m mk t i :
  Fs.exists_ m t = true ->
  Fs.while_exists (S fuel) m mk t i = Fs.while_exists fuel m mk (mk i) (S i).
Proof. intros E. simpl. by rewrite E. Qed.

(** The result is the first candidate or one of the numbered ones. *)
Lemma while_exists_shape fuel m mk t i r :
  Fs.while_exists fuel m mk t i = Some r ->
  r = t \/ exists k, i <= k /\ r = mk k.
Proof.
  revert t i. induction fuel as [|fuel IH]; intros t i; simpl;
    destruct (Fs.exists_ m t) eqn:E; try done;
    try (intros [= <-]; by left).
  intros H. apply IH in H as [->|(k & Hk & ->)]; right.
  - exists i. done.
  - exists k. split; [lia|done].
Qed.

(** A numbered result has a number below the bound. *)
Lemma while_exists_bounded fuel m mk t i r :
  Fs.while_exists fuel m mk t i = Some r ->
  r = t \/ exists k, i <= k < i + fuel /\ r = mk k.
Proof.
  revert t i. induction fuel as [|fuel IH]; intros t i; simpl;
    destruct (Fs.exists_ m t) eqn:E; try done;
    try (intros [= <-]; by left).
  intros H. apply IH in H as [->|(k & Hk & ->)]; right.
  - exists i. split; [lia|done].
  - exists k. split; [lia|done].
Qed.

(** When the bound is reached, every numbered candidate tried is
    taken. *)
Lemma while_exists_None fuel m mk t i :
  Fs.while_exists fuel m mk t i = None ->
  forall k, i <= k < i + fuel -> Fs.exists_ m (mk k) = true.
Proof.
  revert t i. induction fuel as [|fuel IH]; intros t i; simpl;
    destruct (Fs.exists_ m t) eqn:E; try done.
  - intros _ k Hk. lia.
  - intros H k Hk. destruct (decide (k = i)) as [->|Hne].
    + destruct fuel; simpl in H; destruct (Fs.exists_ m (mk i)); done.
    + eapply IH; [exact H|lia].
Qed.

(** The loop ends: a finite directory cannot hold all the candidates. *)
Lemma while_exists_total (m : fs) mk t i :
  Inj (=) (=) mk -> (forall k, names (mk k) <> []) ->
  is_Some (Fs.while_exists (S (size m)) m mk t i).
Proof.
  intros Hinj Hne.
  destruct (Fs.while_exists (S (size m)) m mk t i) eqn:E; [by eexists|].
  exfalso. pose proof (while_exists_None _ _ _ _ _ E) as Hall.
  set (cands := mk <$> seq i (S (size m))).
  assert (NoDup cands) as Hnd.
  { apply NoDup_fmap_2; [done|]. apply NoDup_seq. }
  assert (forall p, p ∈ cands -> p ∈ dom m) as Hsub.
  { intros p (k & -> & Hk)%list_elem_of_fmap. apply elem_of_seq in Hk.
    specialize (Hall k Hk). unfold Fs.exists_ in Hall.
    apply orb_true_iff in Hall as [H|H].
    - apply bool_decide_eq_true in H. by destruct (Hne k).
    - apply bool_decide_eq_true in H. by apply elem_of_dom. }
  assert (length cands <= size (dom m)) as Hle.
  { rewrite <- (size_list_to_set (C := gset Path) cands) by done.
    apply subseteq_size. intros p Hp. apply elem_of_list_to_set in Hp.
    by apply Hsub. }
  unfold cands in Hle. rewrite length_fmap, length_seq, size_dom in Hle.
  lia.
Qed.

(** *** Creating directories *)

Lemma mkdir_rev_dir m a rns :
  Fs.is_dir m (mkPath a (rev rns)) = true -> Fs.mkdir_rev m a rns = Some m.
Proof.
  destruct rns as [|n r]; [done|]. unfold Fs.is_dir. cbn [Fs.mkdir_rev].
  intros [H|H]%orb_true_iff.
  - apply bool_decide_eq_true in H. simpl in H.
    by destruct (rev r).
  - destruct (m !! _) as [[|]|]; done.
Qed.

Lemma mkdir_p_dir m p : Fs.is_dir m p = true -> Fs.mkdir_p m p = Some m.
Proof.
  intros H. unfold Fs.mkdir_p. apply mkdir_rev_dir.
  rewrite rev_involutive. by destruct p.
Qed.

Lemma mkdir_p_child m p n :
  Fs.is_dir m p = true ->
  m !! mkPath (anchored p) (names p ++ [n]) = None ->
  Fs.mkdir_p m (mkPath (anchored p) (names p ++ [n]))
  = if Fs.accepts n
    then Some (<[mkPath (anchored p) (names p ++ [n]) := Dir]> m) else None.
Proof.
  intros Hd Hn. unfold Fs.mkdir_p. simpl. rewrite rev_app_distr. simpl.
  rewrite rev_involutive, Hn, mkdir_rev_dir; [done|].
  rewrite rev_involutive. by destruct p.
Qed.

(** Creating directories only adds directories at paths that were
    free. *)
Lemma mkdir_rev_subseteq m a rns m0 :
  Fs.mkdir_rev m a rns = Some m0 -> m ⊆ m0.
Proof.
  revert m0. induction rns as [|n r IH]; intros m0; [by intros [= <-]|].
  cbn [Fs.mkdir_rev]. destruct (m !! _) as [[|]|] eqn:E; try done.
  - by intros [= <-].
  - destruct (Fs.mkdir_rev m a r) as [m'|] eqn:Em; [|done]. simpl.
    destruct (Fs.accepts n); [|done]. intros [= <-].
    etrans; [by apply IH|]. apply insert_subseteq.
    destruct (m' !! _) as [nd|] eqn:E'; [|done].
    (* an entry of [m'] at this path would be one of [m] or a directory
       created on the way, which lies strictly above it *)
    exfalso. clear IH.
    assert (forall m1 l, Fs.mkdir_rev m a l = Some m1 ->
              forall q, m1 !! q <> m !! q ->
                exists k, q = mkPath a (rev (drop k l)) /\ k < length l) as Hnew.
    { clear. intros m1 l. revert m1.
      induction l as [|x l IH]; intros m1; [by intros [= <-]|].
      cbn [Fs.mkdir_rev]. destruct (m !! _) as [[|]|] eqn:E; try done.
      - by intros [= <-].
      - destruct (Fs.mkdir_rev m a l) as [m2|]; [|done]. simpl.
        destruct (Fs.accepts x); [|done]. intros [= <-] q Hq.
        destruct (decide (q = mkPath a (rev (x :: l)))) as [->|Hne].
        + exists 0. split; [done|simpl; lia].
        + rewrite lookup_insert_ne in Hq by done.
          destruct (IH m2 eq_refl q Hq) as (k & -> & Hk).
          exists (S k). split; [done|simpl; lia]. }
    destruct (Hnew m' r Em (mkPath a (rev (n :: r)))) as (k & Hk & Hlt).
    { simpl. rewrite E'. simpl in E. rewrite E. done. }
    injection Hk as Hk. apply (f_equal length) in Hk.
    rewrite length_app, !length_rev, length_drop in Hk. simpl in Hk. lia.
Qed.

Lemma mkdir_p_subseteq m p m0 : Fs.mkdir_p m p = Some m0 -> m ⊆ m0.
Proof. apply mkdir_rev_subseteq. Qed.

(** *** Names the file system accepts *)

Lemma encoded_length_append a b :
  Fs.encoded_length (a +:+ b) = Fs.encoded_length a + Fs.encoded_length b.
Proof.
  induction a as [|c a IH]; [done|]. rewrite append_cons. simpl.
  rewrite IH. lia.
Qed.

Lemma accepts_append a b :
  Fs.accepts (a +:+ b) = true -> Fs.accepts a = true /\ Fs.accepts b = true.
Proof.
  unfold Fs.accepts. rewrite encoded_length_append, all_chars_append.
  rewrite !andb_true_iff, !Nat.leb_le. intros [H1 [H2 H3]].
  repeat split; try done; lia.
Qed.

Lemma exists_insert m p q x :
  Fs.exists_ (<[p := x]> m) q = bool_decide (p = q) || Fs.exists_ m q.
Proof.
  unfold Fs.exists_. destruct (decide (p = q)) as [->|Hne].
  - rewrite lookup_insert_eq, (bool_decide_eq_true_2 (q = q)) by done.
    rewrite (bool_decide_eq_true_2 (is_Some (Some x))) by by eexists.
    by rewrite orb_true_r.
  - rewrite lookup_insert_ne by done.
    by rewrite (bool_decide_eq_false_2 (p = q)) by done.
Qed.

Lemma is_dir_insert_Dir m p q :
  Fs.is_dir (<[p := Dir]> m) q = bool_decide (p = q) || Fs.is_dir m q.
Proof.
  unfold Fs.is_dir. destruct (decide (p = q)) as [->|Hne].
  - rewrite lookup_insert_eq, (bool_decide_eq_true_2 (q = q)) by done.
    by rewrite orb_true_r.
  - rewrite lookup_insert_ne by done.
    by rewrite (bool_decide_eq_false_2 (p = q)) by done.
Qed.

Lemma exists_false_lookup m p : Fs.exists_ m p = false -> m !! p = None.
Proof.
  unfold Fs.exists_. intros [_ H]%orb_false_iff.
  apply bool_decide_eq_false in H. by apply eq_None_not_Some.
Qed.

End FsFacts.

Module UniqueSubdir.
Import Py PyFacts PathFacts WalkFacts FsFacts.

Section candidates.
Variable parent : Path.
Variable base : string.
Hypothesis base_good : good_name base = true.

Let mk (i : nat) : Path := parent // numbered base i.

Lemma first_eq :
  parent // base = mkPath (anchored parent) (names parent ++ [base]).
Proof. by apply div_good. Qed.

Lemma mk_eq i :
  mk i = mkPath (anchored parent) (names parent ++ [numbered base i]).
Proof. apply div_good. by apply numbered_good. Qed.

Lemma mk_inj : Inj (=) (=) mk.
Proof.
  intros i j H. rewrite !mk_eq in H. injection H as H.
  apply app_inv_head in H. injection H as H. by apply numbered_inj in H.
Qed.

Lemma mk_names i : names (mk i) <> [].
Proof. rewrite mk_eq. simpl. by destruct (names parent). Qed.

Lemma mk_ne_first i : mk i <> parent // base.
Proof.
  rewrite mk_eq, first_eq. intros [= H]. apply app_inv_head in H.
  injection H as H. by apply numbered_ne in H.
Qed.

Lemma first_name : Path.name (parent // base) = base.
Proof. rewrite first_eq. unfold Path.name. simpl. by rewrite last_last. Qed.

Lemma mk_name i : Path.name (mk i) = numbered base i.
Proof. rewrite mk_eq. unfold Path.name. simpl. by rewrite last_last. Qed.

(** The folder chosen by the loop is a child of [parent] that is not
    there yet; creating it adds just that folder, and fails when the file
    system does not accept its name. *)
Lemma choose_and_create (m : fs) :
  Fs.is_dir m parent = true ->
  exists t,
    Fs.while_exists (S (size m)) m mk (parent // base) 1 = Some t
    /\ Fs.exists_ m t = false
    /\ Fs.mkdir_p m t
       = (if Fs.accepts (Path.name t) then Some (<[t := Dir]> m) else None)
    /\ (t = parent // base \/ exists k, 1 <= k <= S (size m) /\ t = mk k).
Proof.
  intros Hd.
  destruct (while_exists_total m mk (parent // base) 1 mk_inj mk_names)
    as [t Ht].
  exists t. split; [done|].
  pose proof (while_exists_free _ _ _ _ _ _ Ht) as Hfree.
  pose proof (while_exists_bounded _ _ _ _ _ _ Ht) as Hshape.
  split; [done|]. split.
  - assert (exists n, t = mkPath (anchored parent) (names parent ++ [n]))
      as [n ->].
    { destruct Hshape as [->|(k & _ & ->)]; eexists.
      - apply first_eq.
      - apply mk_eq. }
    rewrite mkdir_p_child; [|done|by apply exists_false_lookup].
    unfold Path.name. simpl. by rewrite last_last.
  - destruct Hshape as [->|(k & Hk & ->)]; [by left|right].
    exists k. split; [lia|done].
Qed.

End candidates.

(** [unique_subdir] under a directory: the folder it goes for is the
    first free candidate, and the call creates it, or raises when the
    file system does not accept its name. *)
Lemma unique_subdir_spec (m : fs) parent name :
  Fs.is_dir m parent = true ->
  exists t,
    unique_subdir m parent name
    = (if Fs.accepts (Path.name t) then Some (<[t := Dir]> m, t) else None)
    /\ Fs.exists_ m t = false
    /\ (exists i, i <= S (size m)
                  /\ Path.name t = (if i is 0 then safe_name name
                                    else numbered (safe_name name) i))
    /\ (Fs.exists_ m (parent // safe_name name) = false ->
        t = parent // safe_name name)
    /\ (Fs.exists_ m (parent // safe_name name) = true ->
        Fs.exists_ m (parent // numbered (safe_name name) 1) = false ->
        t = parent // numbered (safe_name name) 1).
Proof.
  intros Hd. destruct (safe_name_good name) as [Hg _].
  destruct (choose_and_create parent _ Hg m Hd)
    as (t & Ht & Hfree & Hmk & Hshape).
  exists t. unfold unique_subdir. rewrite Ht. simpl. rewrite Hmk. simpl.
  split; [by destruct (Fs.accepts _)|]. split; [done|]. split; [|split].
  - destruct Hshape as [->|(k & Hk & ->)].
    + exists 0. split; [lia|]. by apply first_name.
    + exists k. split; [lia|]. rewrite mk_name by done.
      destruct k; [lia|done].
  - intros Hb. rewrite while_exists_first in Ht by done. congruence.
  - intros Hb H1. rewrite while_exists_next in Ht by done.
    rewrite while_exists_first in Ht by done. congruence.
Qed.

(** The names accepted with a number appended are accepted as they
    are. *)
Lemma accepts_candidate base bound i :
  (forall k, k <= bound -> Fs.accepts (numbered base k) = true) ->
  i <= bound ->
  Fs.accepts (if i is 0 then base else numbered base i) = true.
Proof.
  intros H Hi. destruct i as [|i]; [|by apply H].
  specialize (H 0 ltac:(lia)). unfold numbered in H.
  by apply accepts_append in H as [? _].
Qed.

End UniqueSubdir.

Example unique_subdir_ex :
  let m : fs := {[ Path.of_str "/out" := Dir ]} in
  snd <$> unique_subdir m (Path.of_str "/out") "Sales Model"
  = Some (Path.of_str "/out/Sales_Model").
Proof. vm_compute. reflexivity. Qed.

(** C6, as stated, fails: when the parent already holds a folder with the
    sanitized name, the first call does not return that name. *)
Lemma unique_subdir_first_not_base :
  let parent := Path.of_str "/out" in
  let m : fs := {[ parent := Dir; parent // "x" := Dir ]} in
  snd <$> unique_subdir m parent "x" = Some (parent // "x_1")
  /\ parent // "x_1" <> parent // safe_name "x".
Proof. split; [vm_compute; reflexivity | vm_compute; discriminate]. Qed.

(** The file system refuses a folder name of 256 characters, and then
    the call raises. *)
Example unique_subdir_name_too_long :
  let parent := Path.of_str "/out" in
  let m : fs := {[ parent := Dir ]} in
  let s16 := "aaaaaaaaaaaaaaaa" in
  let s64 := s16 +:+ s16 +:+ s16 +:+ s16 in
  let name := s64 +:+ s64 +:+ s64 +:+ s64 in
  String.length (safe_name name) = 256
  /\ Fs.accepts (safe_name name) = false
  /\ unique_subdir m parent name = None.
Proof. repeat split; vm_compute; reflexivity. Qed.

(** C6, amended. Under a parent that is a directory, and when the file
    system accepts the sanitized name with each of the numbers the two
    calls may come to append (hence the sanitized name itself),
    [unique_subdir] returns a folder that did not exist before the call
    and is a directory after it; calling it twice with the same name
    yields two distinct folders, both directories afterwards; and when
    neither the sanitized name nor that name with suffix [_1] is taken
    before the first call, the first folder is named the sanitized name
    and the second that name with suffix [_1]. *)
Theorem unique_subdir_twice (m : fs) (parent : Path) (name : string) :
  Fs.is_dir m parent = true ->
  (forall i, i <= size m + 2 ->
             Fs.accepts (numbered (safe_name name) i) = true) ->
  exists m1 d1 m2 d2,
    unique_subdir m parent name = Some (m1, d1)
    /\ unique_subdir m1 parent name = Some (m2, d2)
    /\ Fs.exists_ m d1 = false /\ Fs.exists_ m1 d2 = false
    /\ d1 <> d2
    /\ Fs.is_dir m2 d1 = true /\ Fs.is_dir m2 d2 = true
    /\ (Fs.exists_ m (parent // safe_name name) = false ->
        Fs.exists_ m (parent // numbered (safe_name name) 1) = false ->
        d1 = parent // safe_name name
        /\ d2 = parent // numbered (safe_name name) 1).
Proof.
  intros Hd Hacc.
  destruct (UniqueSubdir.unique_subdir_spec m parent name Hd)
    as (d1 & E1 & F1 & (i1 & Hi1 & N1) & B1 & _).
  rewrite N1, (UniqueSubdir.accepts_candidate _ (size m + 2)) in E1
    by (done || lia).
  assert (Fs.is_dir (<[d1 := Dir]> m) parent = true) as Hd1.
  { rewrite FsFacts.is_dir_insert_Dir, Hd. apply orb_true_r. }
  assert (size (<[d1 := Dir]> m) = S (size m)) as Hsize.
  { apply map_size_insert_None. by apply FsFacts.exists_false_lookup. }
  destruct (UniqueSubdir.unique_subdir_spec _ parent name Hd1)
    as (d2 & E2 & F2 & (i2 & Hi2 & N2') & _ & N2).
  rewrite N2', (UniqueSubdir.accepts_candidate _ (size m + 2)) in E2
    by (done || lia).
  exists (<[d1 := Dir]> m), d1, (<[d2 := Dir]> (<[d1 := Dir]> m)), d2.
  split; [done|]. split; [done|]. split; [done|]. split; [done|].
  assert (d1 <> d2) as Hne.
  { intros <-. rewrite FsFacts.exists_insert in F2.
    by rewrite bool_decide_eq_true_2 in F2. }
  split; [done|]. split.
  { rewrite !FsFacts.is_dir_insert_Dir.
    rewrite (bool_decide_eq_true_2 (d1 = d1)) by done.
    by rewrite orb_true_r. }
  split.
  { rewrite FsFacts.is_dir_insert_Dir.
    by rewrite (bool_decide_eq_true_2 (d2 = d2)) by done. }
  intros Hb H1. specialize (B1 Hb). subst d1. split; [done|].
  destruct (PathFacts.safe_name_good name) as [Hg _].
  apply N2.
  - rewrite FsFacts.exists_insert.
    by rewrite bool_decide_eq_true_2 by done.
  - rewrite FsFacts.exists_insert, H1, orb_false_r.
    apply bool_decide_eq_false. intros E. symmetry in E.
    by apply (UniqueSubdir.mk_ne_first parent _ Hg 1) in E.
Qed.

Lemma unique_subdir_twice_witness :
  let parent := Path.of_str "/out" in
  let m : fs := {[ parent := Dir ]} in
  exists m1 d1 m2 d2,
    unique_subdir m parent "a b" = Some (m1, d1)
    /\ unique_subdir m1 parent "a b" = Some (m2, d2)
    /\ d1 <> d2.
Proof.
  assert (Fs.is_dir ({[ Path.of_str "/out" := Dir ]} : fs)
                    (Path.of_str "/out") = true) as Hd
    by (vm_compute; reflexivity).
  assert (forall i, i <= size ({[ Path.of_str "/out" := Dir ]} : fs) + 2 ->
                    Fs.accepts (numbered (safe_name "a b") i) = true) as Hacc.
  { rewrite map_size_singleton. intros i Hi.
    do 4 (destruct i as [|i]; [vm_compute; reflexivity|]). lia. }
  destruct (unique_subdir_twice _ _ "a b" Hd Hacc)
    as (m1 & d1 & m2 & d2 & H1 & H2 & _ & _ & Hne & _).
  exists m1, d1, m2, d2. auto.
Defined.

(** ** The data-model parser *)

Module ParseFacts.
Import Py PyFacts PathFacts WalkFacts FsFacts.

(** Induction on elements that reaches the children. *)
Lemma element_rect' (P : element -> Prop) :
  (forall t a x ch, Forall P ch -> P (Element t a x ch)) ->
  forall e, P e.
Proof.
  intros H. fix IH 1. intros [t a x ch]. apply H.
  induction ch as [|c ch IHch]; constructor; [apply IH|apply IHch].
Qed.

Lemma lstrip_empty_iff p s :
  lstrip_with p s = "" <-> all_chars p s = true.
Proof.
  induction s as [|c r IH]; [done|]. simpl. destruct (p c); [done|].
  split; discriminate.
Qed.

Lemma rstrip_empty_iff p s :
  rstrip_with p s = "" <-> all_chars p s = true.
Proof.
  induction s as [|c r IH]; [done|]. simpl.
  destruct (rstrip_with p r) as [|d t] eqn:E.
  - destruct (p c); simpl; [|split; discriminate].
    split; [intros _; by apply IH|done].
  - split; [discriminate|]. intros [_ H]%andb_true_iff.
    apply IH in H. discriminate.
Qed.

Lemma lstrip_all_same p s :
  all_chars p s = true -> lstrip_with p s = "".
Proof. apply lstrip_empty_iff. Qed.

(** Stripping leaves nothing exactly when every character is
    stripped. *)
Lemma strip_empty_iff p s : strip_with p s = "" <-> all_chars p s = true.
Proof.
  unfold strip_with. rewrite rstrip_empty_iff. split.
  - intros H. induction s as [|c r IH]; [done|]. simpl in *.
    destruct (p c) eqn:E; [by apply IH|].
    simpl in H. by rewrite E in H.
  - intros H. by rewrite lstrip_all_same.
Qed.

Lemma sql_texts_nil e :
  sql_texts_of e = [] <->
  Forall (fun sn => blank_text sn = true) (Etree.child_elems "sql" e).
Proof.
  unfold sql_texts_of. generalize (Etree.child_elems "sql" e).
  intros l. induction l as [|sn l IH]; [by split; [constructor|]|].
  rewrite fmap_cons. simpl List.filter.
  assert (strip (opt_or (Etree.text sn) "") = "" <-> blank_text sn = true)
    as Hb.
  { unfold blank_text, strip. rewrite strip_empty_iff.
    destruct (Etree.text sn) as [[|c r]|]; done. }
  destruct (decide (strip (opt_or (Etree.text sn) "") = "")) as [E|E].
  - rewrite bool_decide_eq_true_2 by done. simpl. rewrite IH.
    split; [intros H; constructor; [by apply Hb|done]|].
    by intros [_ H]%Forall_cons.
  - rewrite bool_decide_eq_false_2 by done. simpl.
    split; [discriminate|]. intros [H _]%Forall_cons.
    by apply Hb in H.
Qed.

Lemma foldl_collect key dflt acc els :
  foldl (collect key dflt) acc els = acc ++ omap (entry_of key dflt) els.
Proof.
  revert acc. induction els as [|e els IH]; intros acc; simpl.
  - by rewrite app_nil_r.
  - rewrite IH. unfold collect, entry_of.
    destruct (sql_texts_of e); [done|]. by rewrite <- app_assoc.
Qed.

Lemma datasets_of_eq root :
  datasets_of root
  = omap (entry_of "name" "Dataset") (Etree.select "dataSets" "dataSet" root).
Proof. unfold datasets_of. by rewrite foldl_collect. Qed.

Lemma valuesets_of_eq root :
  valuesets_of root
  = omap (entry_of "id" "ValueSet") (Etree.select "valueSets" "valueSet" root).
Proof. unfold valuesets_of. by rewrite foldl_collect. Qed.

(** Every name the parser returns went through the sanitizer. *)
Lemma entry_of_clean key dflt e n s :
  entry_of key dflt e = Some (n, s) -> is_clean n = true.
Proof.
  unfold entry_of. destruct (sql_texts_of e); [done|].
  intros [= <- _]. apply SafeName.safe_name_is_clean.
Qed.

Lemma datasets_of_clean root :
  Forall (fun '(n, _) => is_clean n = true) (datasets_of root).
Proof.
  rewrite datasets_of_eq. apply Forall_forall. intros [n s] Hin.
  apply list_elem_of_omap in Hin as (e & _ & He).
  by apply entry_of_clean in He.
Qed.

Lemma valuesets_of_clean root :
  Forall (fun '(n, _) => is_clean n = true) (valuesets_of root).
Proof.
  rewrite valuesets_of_eq. apply Forall_forall. intros [n s] Hin.
  apply list_elem_of_omap in Hin as (e & _ & He).
  by apply entry_of_clean in He.
Qed.

(** *** What the XPath selection reaches *)

Lemma elem_of_flat_map {A B} (f : A -> list B) l y :
  y ∈ flat_map f l <-> exists x, x ∈ l /\ y ∈ f x.
Proof.
  rewrite list_elem_of_In, in_flat_map. setoid_rewrite list_elem_of_In.
  done.
Qed.

Lemma select_in_spec c t e :
  forall under x,
    x ∈ Etree.select_in c t under e <->
    (under = true /\ x = e /\ Etree.tag e = t)
    \/ exists d, d ∈ Etree.self_and_descendants e /\ Etree.tag d = c
                 /\ x ∈ Etree.children d /\ Etree.tag x = t.
Proof.
  induction e as [tg a tx ch IH] using element_rect'. intros under x.
  cbn [Etree.select_in Etree.self_and_descendants].
  rewrite elem_of_app, elem_of_flat_map. split.
  - intros [Hx|(k & Hk & Hx)].
    + destruct under; [|by apply elem_of_nil in Hx]. simpl in Hx.
      case_bool_decide; [|by apply elem_of_nil in Hx].
      apply list_elem_of_singleton in Hx as ->. by left.
    + rewrite Forall_forall in IH. apply (IH k Hk) in Hx.
      right. destruct Hx as [(Hu & -> & Ht)|(d & Hd & Hc & Hx & Ht)].
      * apply bool_decide_eq_true in Hu.
        exists (Element tg a tx ch). split; [apply list_elem_of_here|].
        done.
      * exists d. split; [|done]. apply list_elem_of_further.
        apply elem_of_flat_map. eauto.
  - intros [(-> & -> & Ht)|(d & Hd & Hc & Hx & Ht)].
    + left. simpl in Ht. simpl. rewrite bool_decide_eq_true_2 by done.
      apply list_elem_of_here.
    + right. rewrite Forall_forall in IH.
      apply elem_of_cons in Hd as [->|Hd].
      * simpl in Hx, Hc. exists x. split; [done|]. apply IH; [done|].
        left. by rewrite bool_decide_eq_true_2.
      * apply elem_of_flat_map in Hd as (k & Hk & Hd).
        exists k. split; [done|]. apply IH; [done|]. right. eauto.
Qed.

(** The query [.//*[local-name()='c']/*[local-name()='t']] reaches the
    children named [t] of the elements named [c] below the root. *)
Lemma select_spec c t root x :
  x ∈ Etree.select c t root <->
  exists d, d ∈ Etree.descendants root /\ Etree.tag d = c
            /\ x ∈ Etree.children d /\ Etree.tag x = t.
Proof.
  unfold Etree.select, Etree.descendants. rewrite elem_of_flat_map. split.
  - intros (k & Hk & Hx). apply select_in_spec in Hx
      as [(? & _)|(d & Hd & ?)]; [done|].
    exists d. split; [|done]. apply elem_of_flat_map. eauto.
  - intros (d & Hd & H). apply elem_of_flat_map in Hd as (k & Hk & Hd).
    exists k. split; [done|]. apply select_in_spec. right. eauto.
Qed.

End ParseFacts.

(** ** The layout writer *)

Module WriteFacts.
Import Py PyFacts PathFacts WalkFacts FsFacts.

Lemma write_sql_otbi_eq m out_dir datasets valuesets header_title :
  write_sql_otbi m out_dir datasets valuesets header_title
  = m0 ← Fs.mkdir_p m out_dir;
    write_all out_dir (header_of header_title) (Some (m0, []))
              (sql_files datasets valuesets).
Proof.
  unfold write_sql_otbi, write_all, sql_files, header_of.
  destruct (Fs.mkdir_p m out_dir) as [m0|]; [|done]. simpl.
  rewrite foldl_app, !foldl_fmap.
  assert (forall (A B : Type) (f g : A -> B -> A) l a,
            (forall a b, f a b = g a b) -> foldl f a l = foldl g a l) as Hext.
  { intros A B f g l. induction l as [|b l IH]; intros a Hfg; [done|].
    simpl. rewrite Hfg. by apply IH. }
  erewrite (Hext _ _ _ _ datasets). 1: erewrite (Hext _ _ _ _ valuesets).
  - reflexivity.
  - by intros st [vid sql].
  - by intros st [name sql].
Qed.

Lemma sql_file_good fname : no_separator fname = true ->
  (exists n, fname = n +:+ ".sql") -> good_name fname = true.
Proof.
  intros Hs [n ->]. unfold good_name, Path.kept_part.
  fold (no_separator (n +:+ ".sql")). rewrite Hs, andb_true_r.
  apply andb_true_iff. split; apply negb_true_iff, bool_decide_eq_false;
    intros E; apply (f_equal String.length) in E;
    rewrite length_append in E; simpl in E; lia.
Qed.

Lemma is_dir_insert_File m p q x :
  Fs.is_dir m q = true -> Fs.is_dir (<[p := File x]> m) q = true \/ p = q.
Proof.
  destruct (decide (p = q)) as [->|Hne]; [by right|]. left.
  unfold Fs.is_dir in *. by rewrite lookup_insert_ne.
Qed.

Lemma is_dir_insert_File_false m p q x :
  Fs.is_dir m q = false -> Fs.is_dir (<[p := File x]> m) q = false.
Proof.
  unfold Fs.is_dir. intros [H1 H2]%orb_false_iff. rewrite H1. simpl.
  destruct (decide (p = q)) as [->|Hne].
  - by rewrite lookup_insert_eq.
  - by rewrite lookup_insert_ne.
Qed.

Lemma write_all_cons out_dir header st fname sql files :
  write_all out_dir header st ((fname, sql) :: files)
  = write_all out_dir header (write_one out_dir header st fname sql) files.
Proof. reflexivity. Qed.

Lemma written_cons out_dir header m fname sql files :
  written out_dir header m ((fname, sql) :: files)
  = written out_dir header
      (<[out_dir // fname := File (Bytes (header +:+ strip sql +:+ LF))]> m)
      files.
Proof. reflexivity. Qed.

Lemma write_all_spec out_dir header files :
  Forall (fun f => good_name f.1 = true /\ Fs.accepts f.1 = true) files ->
  forall m created,
    Fs.is_dir m out_dir = true ->
    Forall (fun f => Fs.is_dir m (out_dir // f.1) = false) files ->
    write_all out_dir header (Some (m, created)) files
    = Some (written out_dir header m files,
            created ++ ((fun f => out_dir // f.1) <$> files)).
Proof.
  induction 1 as [|[fname sql] files [Hg Hacc] _ IH];
    intros m created Hd Hfree.
  - simpl. by rewrite app_nil_r.
  - apply Forall_cons in Hfree as [Hf Hfree]. simpl in Hg, Hacc, Hf.
    rewrite write_all_cons, written_cons.
    assert (Path.parent (out_dir // fname) = out_dir
            /\ Path.name (out_dir // fname) = fname) as [Hpar Hname].
    { rewrite div_good by done. unfold Path.parent, Path.name. simpl.
      rewrite removelast_last, last_last. by destruct out_dir. }
    unfold write_one, Fs.write. simpl. rewrite Hpar, Hname, Hd, Hf, Hacc.
    simpl. rewrite IH.
    + by rewrite <- app_assoc.
    + destruct (is_dir_insert_File m (out_dir // fname) out_dir
                  (Bytes (header +:+ strip sql +:+ LF)) Hd) as [?|E]; [done|].
      rewrite E in Hf. congruence.
    + eapply Forall_impl; [exact Hfree|]. intros f Hff.
      by apply is_dir_insert_File_false.
Qed.

Lemma written_other out_dir header files : forall m p,
  Forall (fun f => out_dir // f.1 <> p) files ->
  written out_dir header m files !! p = m !! p.
Proof.
  induction files as [|[fname sql] files IH]; intros m p Hp; [done|].
  apply Forall_cons in Hp as [Hne Hp]. rewrite written_cons.
  rewrite IH by done. by rewrite lookup_insert_ne.
Qed.

(** The last entry with a given file name decides the content. *)
Lemma written_last out_dir header m l1 fname sql l2 :
  Forall (fun f => out_dir // f.1 <> out_dir // fname) l2 ->
  written out_dir header m (l1 ++ (fname, sql) :: l2) !! (out_dir // fname)
  = Some (File (Bytes (header +:+ strip sql +:+ LF))).
Proof.
  intros Hl2.
  assert (written out_dir header m (l1 ++ (fname, sql) :: l2)
          = written out_dir header (written out_dir header m l1)
              ((fname, sql) :: l2)) as ->
    by (unfold written; apply foldl_app).
  rewrite written_cons, written_other by done.
  by rewrite lookup_insert_eq.
Qed.

Lemma endswith_append a b : endswith (a +:+ b) b = true.
Proof.
  unfold endswith.
  assert (forall x y, String.rev_app x y = String.rev x +:+ y) as Hr.
  { intros x y. unfold String.rev. by rewrite rev_app_append. }
  assert (forall x y, String.rev (x +:+ y) = String.rev y +:+ String.rev x)
    as Hra.
  { intros x y.
    assert (forall z, String.rev_app (x +:+ y) z
                      = String.rev_app y (String.rev_app x z)) as Hz.
    { induction x as [|c x IH]; intros z; [done|].
      rewrite append_cons. simpl. apply IH. }
    unfold String.rev at 1. rewrite Hz, Hr. done. }
  rewrite Hra. generalize (String.rev b) as u. generalize (String.rev a) as v.
  intros v u. induction u as [|c u IH]; [by destruct v|].
  rewrite append_cons. simpl. by rewrite bool_decide_eq_true_2.
Qed.

End WriteFacts.

Module LayoutFacts.
Import Py PyFacts PathFacts WalkFacts FsFacts WriteFacts.

Lemma mkdir_rev_is_dir m a rns m0 :
  Fs.mkdir_rev m a rns = Some m0 -> Fs.is_dir m0 (mkPath a (rev rns)) = true.
Proof.
  destruct rns as [|n r]; [done|]. cbn [Fs.mkdir_rev]. unfold Fs.is_dir.
  destruct (m !! _) as [[|]|] eqn:E; try done.
  - intros [= <-]. rewrite E. apply orb_true_r.
  - destruct (Fs.mkdir_rev m a r); [|done]. simpl.
    destruct (Fs.accepts n); [|done]. intros [= <-].
    rewrite lookup_insert_eq. apply orb_true_r.
Qed.

Lemma mkdir_p_is_dir m p m0 :
  Fs.mkdir_p m p = Some m0 -> Fs.is_dir m0 p = true.
Proof.
  unfold Fs.mkdir_p. intros H. apply mkdir_rev_is_dir in H.
  rewrite rev_involutive in H. by destruct p.
Qed.

Lemma sql_files_good datasets valuesets :
  Forall (fun e => no_separator e.1 = true) (datasets ++ valuesets) ->
  Forall (fun f => good_name f.1 = true) (sql_files datasets valuesets).
Proof.
  intros H. apply Forall_app in H as [Hd Hv]. unfold sql_files.
  apply Forall_app. split; apply Forall_fmap.
  - eapply Forall_impl; [exact Hd|]. intros [n s] Hn. simpl in *.
    apply sql_file_good; [|by eexists]. unfold no_separator in *.
    by rewrite all_chars_append, Hn.
  - eapply Forall_impl; [exact Hv|]. intros [n s] Hn. simpl in *.
    apply sql_file_good.
    + unfold no_separator in *. by rewrite !all_chars_append, Hn.
    + exists ("lv_" +:+ n). by rewrite !append_assoc.
Qed.

Lemma child_facts out_dir fname :
  good_name fname = true ->
  Path.parent (out_dir // fname) = out_dir
  /\ Path.name (out_dir // fname) = fname.
Proof.
  intros Hg. rewrite div_good by done. unfold Path.parent, Path.name.
  simpl. rewrite removelast_last, last_last. by destruct out_dir.
Qed.

Lemma child_ne out_dir f g :
  good_name f = true -> good_name g = true -> f <> g ->
  out_dir // f <> out_dir // g.
Proof.
  intros Hf Hg Hne. rewrite !div_good by done. intros [= E].
  by apply app_inv_head in E as [= ->].
Qed.

Lemma write_sql_otbi_ok (m m0 : fs) out_dir datasets valuesets header_title :
  Forall (fun e => no_separator e.1 = true) (datasets ++ valuesets) ->
  Forall (fun f => Fs.accepts f.1 = true) (sql_files datasets valuesets) ->
  Fs.mkdir_p m out_dir = Some m0 ->
  Forall (fun f => Fs.is_dir m0 (out_dir // f.1) = false)
         (sql_files datasets valuesets) ->
  write_sql_otbi m out_dir datasets valuesets header_title
  = Some (written out_dir (header_of header_title) m0
            (sql_files datasets valuesets),
          (fun f => out_dir // f.1) <$> sql_files datasets valuesets).
Proof.
  intros Hnames Hacc Hmk Hfree.
  rewrite write_sql_otbi_eq, Hmk. simpl.
  rewrite write_all_spec; [done| |by eapply mkdir_p_is_dir|done].
  pose proof (sql_files_good _ _ Hnames) as Hgood.
  rewrite Forall_forall in Hgood, Hacc. apply Forall_forall. auto.
Qed.

Lemma clean_no_separator n : is_clean n = true -> no_separator n = true.
Proof.
  intros H. apply clean_good in H as [H _]. unfold good_name in H.
  by apply andb_true_iff in H as [_ ?].
Qed.

(** The last entry of a list of files with a given file name. *)
Lemma last_with_name (l : list (string * string)) fname :
  forall sql, (fname, sql) ∈ l ->
  exists l1 sql' l2,
    l = l1 ++ (fname, sql') :: l2 /\ Forall (fun g => g.1 <> fname) l2.
Proof.
  induction l as [|[n s] l IH]; intros sql Hin; [by apply elem_of_nil in Hin|].
  destruct (decide (Exists (fun g : string * string => g.1 = fname) l))
    as [Hex|Hno].
  - apply Exists_exists in Hex as ([n' s'] & Hin' & Hn). simpl in Hn. subst n'.
    destruct (IH s' Hin') as (l1 & sql' & l2 & -> & Hl2).
    by exists ((n, s) :: l1), sql', l2.
  - apply not_Exists_Forall in Hno; [|intros g; apply _].
    apply elem_of_cons in Hin as [[= <- <-]|Hin].
    + exists [], sql, l. split; [done|].
      eapply Forall_impl; [exact Hno|]. by intros g Hg.
    + exfalso. rewrite Forall_forall in Hno. by apply (Hno _ Hin).
Qed.

Lemma sql_name_inj a b : a +:+ ".sql" = b +:+ ".sql" -> a = b.
Proof.
  intros H. apply (f_equal String.rev) in H.
  rewrite !string_rev_append in H. apply String.app_inj in H.
  apply (f_equal String.rev) in H. by rewrite !string_rev_involutive in H.
Qed.

End LayoutFacts.

Example write_sql_otbi_ex :
  let m : fs := {[ Path.of_str "/out" := Dir ]} in
  snd <$> write_sql_otbi m (Path.of_str "/out/M")
            [("Orders", "select 1 ")] [("Status", "select 2")] None
  = Some [Path.of_str "/out/M/Orders.sql"; Path.of_str "/out/M/lv_Status.sql"].
Proof. vm_compute. reflexivity. Qed.

(** C7, as stated, fails: a name that holds a path separator is not
    written directly under the root.  With the folder [a] present the
    file lands in it; without it the call raises. *)
Lemma write_sql_otbi_nested_name :
  let root := Path.of_str "/out" in
  let m : fs := {[ root := Dir; root // "a" := Dir ]} in
  snd <$> write_sql_otbi m root [("a/b", "select 1")] [] None
  = Some [root // "a" // "b.sql"]
  /\ Path.parent (root // "a" // "b.sql") <> root
  /\ write_sql_otbi {[ root := Dir ]} root [("a/b", "select 1")] [] None
     = None.
Proof.
  split; [vm_compute; reflexivity|].
  split; [vm_compute; discriminate | vm_compute; reflexivity].
Qed.

(** The writer raises on a file name the file system does not accept: one
    of more than 255 bytes, or one with a NUL character. *)
Example write_sql_otbi_refused_name :
  let root := Path.of_str "/out" in
  let m : fs := {[ root := Dir ]} in
  let s16 := "aaaaaaaaaaaaaaaa" in
  let s64 := s16 +:+ s16 +:+ s16 +:+ s16 in
  let long := s64 +:+ s64 +:+ s64 +:+ s64 in
  let nul := String "000"%char "" in
  Fs.accepts (long +:+ ".sql") = false
  /\ write_sql_otbi m root [(long, "select 1")] [] None = None
  /\ Fs.accepts ("a" +:+ nul +:+ "b.sql") = false
  /\ write_sql_otbi m root [("a" +:+ nul +:+ "b", "select 1")] [] None = None.
Proof. repeat split; vm_compute; reflexivity. Qed.

(** C7, amended. Every call of the layout writer whose dataset names and
    value-set ids hold no path separator (as all names coming from the
    parser do), whose file names the file system accepts, whose root can
    be created and where no directory stands at the place of a file,
    succeeds and reports, in order, one path [root/<name>.sql] per
    dataset and one path [root/lv_<id>.sql] per value-set; each of these
    paths has the root as its parent; the content left at a file name is
    the header, the trimmed SQL and a final line feed of the last entry
    of the call that maps to this file name, earlier ones being
    overwritten; and nothing else in the file system changes. *)
Theorem write_sql_otbi_flat (m m0 : fs) (out_dir : Path)
    (datasets valuesets : list (string * string))
    (header_title : option string) :
  Forall (fun e => no_separator e.1 = true) (datasets ++ valuesets) ->
  Forall (fun f => Fs.accepts f.1 = true) (sql_files datasets valuesets) ->
  Fs.mkdir_p m out_dir = Some m0 ->
  Forall (fun f => Fs.is_dir m0 (out_dir // f.1) = false)
         (sql_files datasets valuesets) ->
  exists m',
    write_sql_otbi m out_dir datasets valuesets header_title
    = Some (m', (fun f => out_dir // f.1) <$> sql_files datasets valuesets)
    /\ Forall (fun f => Path.parent (out_dir // f.1) = out_dir
                        /\ Path.name (out_dir // f.1) = f.1)
              (sql_files datasets valuesets)
    /\ (forall l1 fname sql l2,
          sql_files datasets valuesets = l1 ++ (fname, sql) :: l2 ->
          Forall (fun g => g.1 <> fname) l2 ->
          m' !! (out_dir // fname)
          = Some (File (Bytes (header_of header_title +:+ Py.strip sql +:+ LF)))
          /\ Py.endswith (header_of header_title +:+ Py.strip sql +:+ LF) LF
             = true)
    /\ (forall p,
          Forall (fun f => out_dir // f.1 <> p) (sql_files datasets valuesets) ->
          m' !! p = m0 !! p).
Proof.
  intros Hnames Hacc Hmk Hfree.
  pose proof (LayoutFacts.sql_files_good _ _ Hnames) as Hgood.
  pose proof (LayoutFacts.mkdir_p_is_dir _ _ _ Hmk) as Hdir.
  exists (written out_dir (header_of header_title) m0
            (sql_files datasets valuesets)).
  split; [by apply LayoutFacts.write_sql_otbi_ok|].
  split.
  { eapply Forall_impl; [exact Hgood|]. intros f Hf.
    by apply LayoutFacts.child_facts. }
  split.
  - intros l1 fname sql l2 E Hl2. split.
    + rewrite E. apply WriteFacts.written_last.
      rewrite E in Hgood. apply Forall_app in Hgood as [_ Hg].
      apply Forall_cons in Hg as [Hf Hg]. simpl in Hf.
      rewrite Forall_forall in Hg, Hl2. apply Forall_forall. intros g Hin.
      apply LayoutFacts.child_ne; auto.
    + rewrite <- PyFacts.append_assoc. apply WriteFacts.endswith_append.
  - intros p Hp. by apply WriteFacts.written_other.
Qed.

Lemma write_sql_otbi_flat_witness :
  let m : fs := {[ Path.of_str "/out" := Dir ]} in
  exists m',
    write_sql_otbi m (Path.of_str "/out/M")
      [("A", "select 1"); ("A", "select 2")] [("V", "select 3")] None
    = Some (m', [Path.of_str "/out/M/A.sql"; Path.of_str "/out/M/A.sql";
                 Path.of_str "/out/M/lv_V.sql"]).
Proof.
  set (m := ({[ Path.of_str "/out" := Dir ]} : fs)).
  set (m0 := (<[Path.of_str "/out/M" := Dir]> m : fs)).
  assert (Forall (fun e : string * string => no_separator e.1 = true)
            ([("A", "select 1"); ("A", "select 2")] ++ [("V", "select 3")]))
    as H1 by (repeat constructor).
  assert (Forall (fun f : string * string => Fs.accepts f.1 = true)
            (sql_files [("A", "select 1"); ("A", "select 2")]
                       [("V", "select 3")])) as Ha
    by (repeat constructor).
  assert (Fs.mkdir_p m (Path.of_str "/out/M") = Some m0) as H2
    by (vm_compute; reflexivity).
  assert (Forall (fun f : string * string =>
                    Fs.is_dir m0 (Path.of_str "/out/M" // f.1) = false)
            (sql_files [("A", "select 1"); ("A", "select 2")]
                       [("V", "select 3")])) as H3
    by (repeat constructor; vm_compute; reflexivity).
  destruct (write_sql_otbi_flat m m0 _ _ _ None H1 Ha H2 H3) as (m' & E & _).
  exists m'. exact E.
Defined.

Example datasets_of_ex :
  let sql t := Element "sql" [] (Some t) [] in
  let root :=
    Element "dataModel" []  None
      [Element "dataSets" [] None
         [Element "dataSet" [("name", "Open Orders")] None
                  [sql " select 1 "; sql "  "; sql "select 2"];
          Element "dataSet" [("name", "Empty")] None [sql "   "];
          Element "dataSet" [] None [sql "select 3"]]] in
  datasets_of root
  = [("Open_Orders", "select 1" +:+ LFLF +:+ "select 2");
     ("Dataset", "select 3")].
Proof. vm_compute. reflexivity. Qed.




(** ** The matcher *)

Module MatchFacts.
Import Py PyFacts PathFacts WalkFacts FsFacts.

Lemma first_scoped_miss (scoped_map : gmap (string * string) Path) stem chain :
  Forall (fun s => scoped_map !! (s, stem) = None) chain ->
  first_scoped scoped_map stem chain = None.
Proof.
  induction 1 as [|s chain Hs _ IH]; [done|]. simpl. by rewrite Hs.
Qed.

(** The nearest registered scope wins. *)
Lemma first_scoped_hit (scoped_map : gmap (string * string) Path) stem
    nearer scope farther root :
  Forall (fun s => scoped_map !! (s, stem) = None) nearer ->
  scoped_map !! (scope, stem) = Some root ->
  first_scoped scoped_map stem (nearer ++ scope :: farther) = Some root.
Proof.
  induction 1 as [|s nearer Hs _ IH]; intros Hhit; simpl.
  - by rewrite Hhit.
  - rewrite Hs. by apply IH.
Qed.

(** A scoped result comes from a scope of the chain none of whose nearer
    scopes is registered. *)
Lemma first_scoped_inv (scoped_map : gmap (string * string) Path) stem chain root :
  first_scoped scoped_map stem chain = Some root ->
  exists nearer scope farther,
    chain = nearer ++ scope :: farther
    /\ Forall (fun s => scoped_map !! (s, stem) = None) nearer
    /\ scoped_map !! (scope, stem) = Some root.
Proof.
  induction chain as [|s chain IH]; [done|]. simpl.
  destruct (scoped_map !! (s, stem)) as [r|] eqn:E.
  - intros [= ->]. exists [], s, chain. auto.
  - intros H. destruct (IH H) as (nearer & scope & farther & -> & Hn & Hs).
    exists (s :: nearer), scope, farther. auto.
Qed.

Lemma safe_parts_relative p :
  anchored p = false -> path_wf p = true ->
  safe_parts p = safe_name <$> names p.
Proof.
  intros Ha Hwf. rewrite safe_parts_spec. unfold Path.parts. rewrite Ha.
  simpl. f_equal. unfold path_wf in Hwf.
  induction (names p) as [|n ns IH]; [done|]. simpl in *.
  apply andb_true_iff in Hwf as [Hn Hns].
  destruct (good_name_facts n Hn) as (H1 & H2 & _).
  rewrite (bool_decide_eq_false_2 (n = ".")) by done.
  rewrite (bool_decide_eq_false_2 (n = "")) by done. simpl. f_equal. auto.
Qed.

Lemma orphan_dir_eq out_root rel_parent :
  anchored rel_parent = false -> path_wf rel_parent = true ->
  orphan_dir out_root rel_parent
  = mkPath (anchored out_root)
           (names out_root ++ (safe_name <$> names rel_parent) ++ ["_Orphan"]).
Proof.
  intros Ha Hwf. unfold orphan_dir.
  rewrite safe_path_from_rel_names, safe_parts_relative by done.
  rewrite div_good by done. unfold Path.join. simpl.
  by rewrite <- app_assoc.
Qed.

(** Creating the orphan folder of a report: what comes back is that
    folder, a directory from then on, and nothing that existed is
    touched; below a position that is a directory the call succeeds
    unless a file stands at the place of the folder, and adds nothing but
    the folder. *)
Lemma orphan_outcome (m : fs) out_root rel_parent :
  anchored rel_parent = false -> path_wf rel_parent = true ->
  let otbi_root := Path.join out_root (safe_path_from_rel rel_parent) in
  let orphan :=
    mkPath (anchored out_root)
      (names out_root ++ (safe_name <$> names rel_parent) ++ ["_Orphan"]) in
  (forall m' target,
      ensure_dir m (otbi_root // "_Orphan") = Some (m', target) ->
      target = orphan /\ Fs.is_dir m' orphan = true /\ m ⊆ m')
  /\ (Fs.is_dir m otbi_root = true ->
      (forall d, m !! orphan <> Some (File d)) ->
      exists m',
        ensure_dir m (otbi_root // "_Orphan") = Some (m', orphan)
        /\ forall p, p <> orphan -> m' !! p = m !! p).
Proof.
  intros Ha Hwf otbi_root orphan.
  assert (otbi_root // "_Orphan" = orphan) as HT
    by exact (orphan_dir_eq out_root rel_parent Ha Hwf).
  rewrite HT. split.
  - intros m' target H. unfold ensure_dir in H.
    destruct (Fs.mkdir_p m orphan) as [m1|] eqn:E; [|done].
    injection H as <- <-. split; [done|]. split.
    + by eapply LayoutFacts.mkdir_p_is_dir.
    + by eapply mkdir_p_subseteq.
  - intros Hd Hfree. unfold ensure_dir.
    destruct (m !! orphan) as [[|d]|] eqn:E.
    + rewrite mkdir_p_dir; [by exists m|].
      unfold Fs.is_dir. rewrite E. apply orb_true_r.
    + by destruct (Hfree d).
    + assert (orphan = mkPath (anchored otbi_root)
                         (names otbi_root ++ ["_Orphan"])) as Eo.
      { rewrite <- HT. by apply div_good. }
      rewrite Eo in E |- *. rewrite mkdir_p_child by done.
      change (Fs.accepts "_Orphan") with true. cbn.
      eexists. split; [done|]. intros p Hp. by rewrite lookup_insert_ne.
Qed.

End MatchFacts.

(** The three matcher scenarios of the specification: a model in [A]
    serves a report of [A/B] through the ancestor walk, a report of [C]
    through the global map, and an unknown stem makes an orphan of the
    report's own folder. *)
Example matcher_scenarios :
  let maps := register_model (Path.of_str "A") "Model1.xdmz"
                (Path.of_str "/out/A/Model1") (∅, ∅) in
  match_report maps.1 maps.2 (Path.of_str "A/B") (Some "/x/y/model1.xdm")
  = Some (Path.of_str "/out/A/Model1")
  /\ first_scoped maps.1 "model1" (walk_up_rel_paths (Path.of_str "C")) = None
  /\ match_report maps.1 maps.2 (Path.of_str "C") (Some "/x/y/model1.xdm")
     = Some (Path.of_str "/out/A/Model1")
  /\ match_report maps.1 maps.2 (Path.of_str "A/B") (Some "/x/y/other.xdm")
     = None
  /\ orphan_dir (Path.of_str "/out") (Path.of_str "A/B")
     = Path.of_str "/out/A/B/_Orphan".
Proof. repeat split; vm_compute; reflexivity. Qed.

(** C1. For a report of the container folder [rel_parent], the walk goes
    through the folder itself and then each of its ancestors up to the
    container root ["."].  With a non-empty reference, the key looked up
    is the lower-cased stem of the reference; the root registered under
    the nearest scope of that chain that has the key is chosen; when no
    scope of the chain has it, the root of the global map is; in both
    cases the file system is left as it is.  When the global map has none
    either, or when there is no reference (or an empty one, which the
    code takes for none), the report goes to the [_Orphan] folder of its
    own position, [out_root/<sanitized rel_parent>/_Orphan]: what the
    step returns is that folder, which is a directory from then on, and
    nothing that existed is touched; the step succeeds whenever the
    report's position is a directory, as pass 2 has made it, and no file
    stands at the place of the folder, and it then adds nothing but the
    folder.  The chosen root is never anything else than the root
    registered for the key of the reference or that orphan folder. *)
Theorem report_routing (m : fs) (out_root rel_parent : Path)
    (scoped_map : gmap (string * string) Path)
    (global_map : gmap string Path) (dm_url : option string) :
  anchored rel_parent = false ->
  path_wf rel_parent = true ->
  let chain := Path.as_posix <$> ancestors rel_parent in
  let otbi_root := Path.join out_root (safe_path_from_rel rel_parent) in
  let orphan :=
    mkPath (anchored out_root)
      (names out_root ++ (safe_name <$> names rel_parent) ++ ["_Orphan"]) in
  let key url := Py.lower (Path.stem (Path.of_str url)) in
  let chosen :=
    choose_target m otbi_root scoped_map global_map rel_parent dm_url in
  let to_orphan :=
    (forall m' target,
        chosen = Some (m', target) ->
        target = orphan /\ Fs.is_dir m' orphan = true /\ m ⊆ m')
    /\ (Fs.is_dir m otbi_root = true ->
        (forall d, m !! orphan <> Some (File d)) ->
        exists m',
          chosen = Some (m', orphan)
          /\ forall p, p <> orphan -> m' !! p = m !! p) in
  walk_up_rel_paths rel_parent = chain
  /\ head chain = Some (Path.as_posix rel_parent)
  /\ last chain = Some "."
  /\ (forall url, dm_url = Some url -> url <> "" ->
        (forall nearer scope farther model_root,
            chain = nearer ++ scope :: farther ->
            Forall (fun s => scoped_map !! (s, key url) = None) nearer ->
            scoped_map !! (scope, key url) = Some model_root ->
            chosen = Some (m, model_root))
        /\ (Forall (fun s => scoped_map !! (s, key url) = None) chain ->
            forall model_root, global_map !! key url = Some model_root ->
            chosen = Some (m, model_root))
        /\ (Forall (fun s => scoped_map !! (s, key url) = None) chain ->
            global_map !! key url = None ->
            to_orphan))
  /\ (dm_url = None \/ dm_url = Some "" -> to_orphan)
  /\ (forall m' target, chosen = Some (m', target) ->
        target = orphan
        \/ (exists url scope,
               dm_url = Some url /\ scope ∈ chain
               /\ scoped_map !! (scope, key url) = Some target /\ m' = m)
        \/ (exists url,
               dm_url = Some url
               /\ global_map !! key url = Some target /\ m' = m)).
Proof.
  intros Ha Hwf chain otbi_root orphan key chosen to_orphan.
  pose proof (WalkFacts.walk_up_rel_paths_eq rel_parent Ha) as Hchain.
  fold chain in Hchain.
  destruct (MatchFacts.orphan_outcome m out_root rel_parent Ha Hwf)
    as [Hret Hok].
  fold otbi_root orphan in Hret, Hok.
  assert (match_report scoped_map global_map rel_parent dm_url = None ->
          to_orphan) as Horphan.
  { intros E. subst to_orphan chosen. unfold choose_target. rewrite E.
    split; [exact Hret|exact Hok]. }
  split; [done|]. split.
  { unfold chain. destruct rel_parent as [a ns].
    pose proof (WalkFacts.ancestors_head a ns) as Hh.
    destruct (ancestors _); simplify_eq/=. done. }
  split.
  { unfold chain. destruct rel_parent as [a ns]. simpl in Ha. subst a.
    apply WalkFacts.ancestors_last. }
  split.
  { intros url -> Hne.
    assert (match_report scoped_map global_map rel_parent (Some url)
            = match first_scoped scoped_map (key url) chain with
              | Some model_root => Some model_root
              | None => global_map !! key url
              end) as Hm.
    { unfold match_report. destruct url as [|c r]; [done|].
      by rewrite Hchain. }
    split; [|split].
    - intros nearer scope farther model_root Hc Hn Hs.
      subst chosen. unfold choose_target. rewrite Hm, Hc.
      by rewrite (MatchFacts.first_scoped_hit _ _ _ _ _ model_root).
    - intros Hmiss model_root Hg. subst chosen. unfold choose_target.
      by rewrite Hm, MatchFacts.first_scoped_miss, Hg.
    - intros Hmiss Hg. apply Horphan.
      by rewrite Hm, MatchFacts.first_scoped_miss, Hg. }
  split.
  { intros [-> | ->]; by apply Horphan. }
  intros m' target. subst chosen. unfold choose_target.
  destruct (match_report _ _ _ _) as [root|] eqn:E.
  - intros [= <- <-]. right. unfold match_report in E.
    destruct dm_url as [[|c r]|]; try done. rewrite Hchain in E.
    destruct (first_scoped _ _ _) as [root'|] eqn:E'.
    + injection E as ->. left.
      apply MatchFacts.first_scoped_inv in E'
        as (nearer & scope & farther & Hc & _ & Hs).
      exists (String c r), scope. split; [done|]. split; [|done].
      rewrite Hc. apply elem_of_app. right. apply list_elem_of_here.
    + right. by exists (String c r).
  - intros H. left. by destruct (Hret _ _ H).
Qed.

Lemma report_routing_witness :
  let m : fs := {[ Path.of_str "/out" := Dir;
                   Path.of_str "/out/A" := Dir;
                   Path.of_str "/out/A/B" := Dir ]} in
  let maps := register_model (Path.of_str "A") "Model1.xdmz"
                (Path.of_str "/out/A/Model1") (∅, ∅) in
  let otbi_root := Path.of_str "/out/A/B" in
  choose_target m otbi_root maps.1 maps.2 (Path.of_str "A/B")
    (Some "/shared/Models/MODEL1.xdm")
  = Some (m, Path.of_str "/out/A/Model1")
  /\ exists m',
       choose_target m otbi_root maps.1 maps.2 (Path.of_str "A/B") None
       = Some (m', Path.of_str "/out/A/B/_Orphan")
       /\ Fs.is_dir m' (Path.of_str "/out/A/B/_Orphan") = true
       /\ m ⊆ m'.
Proof.
  intros m maps otbi_root. split.
  - destruct (report_routing m (Path.of_str "/out") (Path.of_str "A/B")
                maps.1 maps.2 (Some "/shared/Models/MODEL1.xdm")
                eq_refl eq_refl)
      as (_ & _ & _ & H & _).
    destruct (H "/shared/Models/MODEL1.xdm" eq_refl ltac:(discriminate))
      as (Hscoped & _).
    apply (Hscoped ["A/B"] "A" ["."] (Path.of_str "/out/A/Model1")).
    + reflexivity.
    + repeat constructor.
    + reflexivity.
  - destruct (report_routing m (Path.of_str "/out") (Path.of_str "A/B")
                maps.1 maps.2 None eq_refl eq_refl)
      as (_ & _ & _ & _ & H & _).
    destruct (H (or_introl eq_refl)) as [Hret Hok].
    destruct Hok as (m' & E & _).
    + reflexivity.
    + intros d. discriminate.
    + destruct (Hret m' _ E) as (_ & Hd & Hsub).
      exists m'. split; [exact E|]. split; [exact Hd|exact Hsub].
Defined.

(** ** Pass 2 on a container: two runs of one iteration *)

(** A report of the folder [A/B c] whose reference matches no model goes
    to the [_Orphan] folder of its own sanitized position, with its
    template; with a model of that stem registered in the global map it
    goes to that model's root. *)
Example process_xdoz_ex :
  let xdo := Xml (Element "report" [] None
                    [Element "dataModel" [("url", "/x/NoModel.xdm")] None []]) in
  let bundle := Zip [("_report.xdo", xdo); ("t.rtf", Bytes "RTF")] in
  let m : fs := {[ Path.of_str "/src/A/B c/r.xdoz" := File bundle;
                   Path.of_str "/out" := Dir ]} in
  let run global_map :=
    snd <$> process_xdoz (Path.of_str "/src") (Path.of_str "/out") ∅ global_map
              (m, []) (Path.of_str "/src/A/B c/r.xdoz") in
  run ∅ = Some [Path.of_str "/out/A/B_c/_Orphan/Catalog/r.xdoz";
                Path.of_str "/out/A/B_c/_Orphan/report_templates/t.rtf"]
  /\ run {[ "nomodel" := Path.of_str "/out/Z/NoModel" ]}
     = Some [Path.of_str "/out/Z/NoModel/Catalog/r.xdoz";
             Path.of_str "/out/Z/NoModel/report_templates/t.rtf"].
Proof. split; vm_compute; reflexivity. Qed.

(** ** The report-reference reader *)

Module ReaderFacts.
Import Py PyFacts.

Lemma key_le_iff a b :
  key_le a b = true <->
  count_char "/" a < count_char "/" b
  \/ (count_char "/" a = count_char "/" b
      /\ String.length a <= String.length b).
Proof.
  unfold key_le. rewrite orb_true_iff, andb_true_iff.
  rewrite Nat.ltb_lt, Nat.eqb_eq, Nat.leb_le. done.
Qed.

Lemma key_le_false_iff a b :
  key_le a b = false <->
  count_char "/" b < count_char "/" a
  \/ (count_char "/" a = count_char "/" b
      /\ String.length b < String.length a).
Proof.
  rewrite <- not_true_iff_false, key_le_iff. lia.
Qed.

Lemma insert_sorted_head x l :
  head (insert_sorted x l)
  = match head l with
    | None => Some x
    | Some y => if key_le x y then Some x else Some y
    end.
Proof. destruct l as [|y l]; [done|]. simpl. by destruct (key_le x y). Qed.

(** The candidate used is the first one of least key. *)
Lemma sort_candidates_head l : head (sort_candidates l) = first_min l.
Proof.
  induction l as [|x l IH]; [done|]. simpl.
  by rewrite insert_sorted_head, IH.
Qed.

(** It has the fewest separators, then the least length, and among the
    candidates equal in both it is the one listed first. *)
Lemma first_min_spec l b :
  first_min l = Some b ->
  exists before after,
    l = before ++ b :: after
    /\ Forall (fun x => key_le x b = false) before
    /\ Forall (fun x => key_le b x = true) after.
Proof.
  revert b. induction l as [|x l IH]; [done|]. intros b. simpl.
  destruct (first_min l) as [y|] eqn:E.
  - destruct (IH y eq_refl) as (before & after & -> & Hb & Ha).
    destruct (key_le x y) eqn:Hxy; intros [= <-].
    + exists [], (before ++ y :: after). split; [done|]. split; [done|].
      apply key_le_iff in Hxy. apply Forall_app. split; [|constructor].
      * eapply Forall_impl; [exact Hb|]. intros z Hz.
        apply key_le_false_iff in Hz. apply key_le_iff. lia.
      * by apply key_le_iff.
      * eapply Forall_impl; [exact Ha|]. intros z Hz.
        apply key_le_iff in Hz. apply key_le_iff. lia.
    + exists (x :: before), after. split; [done|]. split; [|done].
      by constructor.
  - intros [= <-]. destruct l as [|z l].
    + exists [], []. auto.
    + simpl in E. destruct (first_min l) as [y|]; [|done].
      by destruct (key_le z y).
Qed.

(** Where no member name ends in [report.xdo] without being named
    [report.xdo] or ending in [_report.xdo], the candidates are the
    documented ones. *)
Lemma definition_candidates_described names :
  Forall (fun n => endswith (lower n) "report.xdo" = true ->
                   described_preferred n = true) names ->
  definition_candidates names = described_candidates names.
Proof.
  intros H. unfold definition_candidates, described_candidates, described_pool.
  assert (List.filter (fun n => endswith (lower n) "report.xdo"
                                || endswith (lower n) "_report.xdo") names
          = List.filter described_preferred names) as ->;
    [|by destruct (List.filter described_preferred names)].
  induction H as [|n names Hn _ IH]; [done|]. simpl. rewrite IH.
  assert (endswith (lower n) "report.xdo" || endswith (lower n) "_report.xdo"
          = described_preferred n) as ->; [|done].
  destruct (described_preferred n) eqn:Hd.
  - apply orb_true_iff. left. apply endswith_iff.
    unfold described_preferred in Hd.
    apply orb_true_iff in Hd as [Hd|Hd];
      [apply orb_true_iff in Hd as [Hd|Hd]|].
    + apply bool_decide_eq_true in Hd. exists "". by rewrite Hd.
    + apply endswith_iff in Hd as [u ->]. exists (u +:+ "/").
      by rewrite PyFacts.append_assoc.
    + apply endswith_iff in Hd as [u ->]. exists (u +:+ "_").
      by rewrite PyFacts.append_assoc.
  - apply orb_false_iff. split.
    + destruct (endswith (lower n) "report.xdo"); [|done].
      by specialize (Hn eq_refl).
    + unfold described_preferred in Hd.
      by apply orb_false_iff in Hd as [_ ?].
Qed.

Lemma first_min_None l : first_min l = None -> l = [].
Proof.
  destruct l as [|x l]; [done|]. simpl. destruct (first_min l) as [y|]; [|done].
  by destruct (key_le x y).
Qed.

Lemma head_omap_Some {A B} (f : A -> option B) l v :
  head (omap f l) = Some v <->
  exists l1 e l2, l = l1 ++ e :: l2
                  /\ Forall (fun x => f x = None) l1 /\ f e = Some v.
Proof.
  induction l as [|x l IH]; simpl.
  - split; [done|]. intros (l1 & e & l2 & E & _). by destruct l1.
  - destruct (f x) as [w|] eqn:Hx; simpl.
    + split.
      * intros [= ->]. exists [], x, l. auto.
      * intros (l1 & e & l2 & E & Hl1 & He). destruct l1 as [|y l1].
        -- injection E as -> ->. congruence.
        -- injection E as -> ->. apply Forall_cons in Hl1 as [? _].
           congruence.
    + rewrite IH. split.
      * intros (l1 & e & l2 & -> & Hl1 & He). exists (x :: l1), e, l2. auto.
      * intros (l1 & e & l2 & E & Hl1 & He). destruct l1 as [|y l1].
        -- injection E as -> ->. congruence.
        -- injection E as -> ->. apply Forall_cons in Hl1 as [_ ?].
           exists l1, e, l2. auto.
Qed.

Lemma head_omap_None {A B} (f : A -> option B) l :
  head (omap f l) = None <-> Forall (fun x => f x = None) l.
Proof.
  induction l as [|x l IH]; simpl; [by split; [constructor|]|].
  destruct (f x) as [w|] eqn:Hx; simpl.
  - split; [done|]. intros [? _]%Forall_cons. congruence.
  - rewrite IH. split; [by constructor|]. by intros [_ ?]%Forall_cons.
Qed.

Lemma read_url_not_zip (m : fs) xdo_file :
  (forall members, Fs.read m xdo_file <> Some (Zip members)) ->
  read_report_datamodel_url m xdo_file = None.
Proof.
  intros H. unfold read_report_datamodel_url, report_datamodel_url_try.
  destruct (Fs.read m xdo_file) as [[| |members]|]; try done.
  by destruct (H members).
Qed.

Lemma read_url_zip (m : fs) xdo_file members :
  Fs.read m xdo_file = Some (Zip members) ->
  read_report_datamodel_url m xdo_file
  = match head (definition_candidates (Zipfile.namelist members)) with
    | None => None
    | Some chosen =>
        match Zipfile.read members chosen with
        | Some (Xml root) => head (Etree.select_attr "dataModel" "url" root)
        | _ => None
        end
    end.
Proof.
  intros H. unfold read_report_datamodel_url, report_datamodel_url_try.
  rewrite H. destruct (definition_candidates _) as [|c l]; [done|]. simpl.
  by destruct (Zipfile.read members c) as [[| |]|].
Qed.

End ReaderFacts.

Example read_report_datamodel_url_ex :
  let xdo := Xml (Element "report" [] None
                    [Element "dataModel" [("url", "/Shared/Sales.xdm")] None []]) in
  let m : fs :=
    {[ Path.of_str "/in/r.xdoz" := File (Zip [("x/a.xdo", Bytes "junk");
                                              ("_report.xdo", xdo)]);
       Path.of_str "/in/bad.xdoz" := File (Bytes "not a zip");
       Path.of_str "/in/junk.xdoz" := File (Zip [("report.xdo", Bytes "<")]) ]} in
  read_report_datamodel_url m (Path.of_str "/in/r.xdoz")
  = Some "/Shared/Sales.xdm"
  /\ read_report_datamodel_url m (Path.of_str "/in/bad.xdoz") = None
  /\ read_report_datamodel_url m (Path.of_str "/in/junk.xdoz") = None
  /\ read_report_datamodel_url m (Path.of_str "/in/missing.xdoz") = None.
Proof. repeat split; vm_compute; reflexivity. Qed.

(** The name test of the code accepts more than the documented names.
    The archive holds [sub/myreport.xdo] and [main.xdo]; neither is named
    [report.xdo] nor ends in [_report.xdo], so the documented choice is
    the fallback to any [.xdo] member, of which [main.xdo] has the fewest
    separators.  The test [endswith("report.xdo")] takes
    [sub/myreport.xdo] for a preferred name and the reference found there
    is returned. *)
Lemma report_definition_overmatch :
  let doc url := Xml (Element "report" [] None
                        [Element "dataModel" [("url", url)] None []]) in
  let members := [("sub/myreport.xdo", doc "/Models/Other.xdm");
                  ("main.xdo", doc "/Models/Main.xdm")] in
  let m : fs := {[ Path.of_str "/in/r.xdoz" := File (Zip members) ]} in
  described_preferred "sub/myreport.xdo" = false
  /\ described_preferred "main.xdo" = false
  /\ head (described_candidates (Zipfile.namelist members)) = Some "main.xdo"
  /\ head (definition_candidates (Zipfile.namelist members))
     = Some "sub/myreport.xdo"
  /\ read_report_datamodel_url m (Path.of_str "/in/r.xdoz")
     = Some "/Models/Other.xdm".
Proof. repeat split; vm_compute; reflexivity. Qed.

(** C3, as stated, fails: the reference returned is the first [url]
    attribute carried by a [dataModel] element, which is not the
    attribute of the first [dataModel] element when that one has none. *)
Lemma report_url_skips_first_datamodel :
  let root := Element "report" [] None
                [Element "dataModel" [] None [];
                 Element "dataModel" [("url", "/Models/M.xdm")] None []] in
  let m : fs := {[ Path.of_str "/in/r.xdoz"
                   := File (Zip [("report.xdo", Xml root)]) ]} in
  head (datamodel_elements root) = Some (Element "dataModel" [] None [])
  /\ described_url root = None
  /\ read_report_datamodel_url m (Path.of_str "/in/r.xdoz")
     = Some "/Models/M.xdm".
Proof. repeat split; vm_compute; reflexivity. Qed.

(** C3, amended. A bundle that is not a readable zip archive gives no
    reference.  For a zip archive in which every member whose lower-cased
    name ends in [report.xdo] is named [report.xdo], at the top or in a
    folder, or ends in [_report.xdo]: the definition file is chosen among
    the members so named, or among all members ending in [.xdo] when
    there is none; no reference is returned when there is no candidate;
    otherwise the chosen candidate has the fewest separators, then the
    least length, and is the first such in archive order, and the result
    is the first [url] attribute carried by a [dataModel] element below
    the root of that file, in document order, or nothing when the file
    does not parse or no such element carries one.  No case raises. *)
Theorem read_report_datamodel_url_selects (m : fs) (xdo_file : Path) :
  ((forall members, Fs.read m xdo_file <> Some (Zip members)) ->
   read_report_datamodel_url m xdo_file = None)
  /\ (forall members,
        Fs.read m xdo_file = Some (Zip members) ->
        Forall (fun n => Py.endswith (Py.lower n) "report.xdo" = true ->
                         described_preferred n = true)
               (Zipfile.namelist members) ->
        let pool := described_pool (Zipfile.namelist members) in
        match first_min pool with
        | None => pool = [] /\ read_report_datamodel_url m xdo_file = None
        | Some chosen =>
            (exists before after,
                pool = before ++ chosen :: after
                /\ Forall (fun x => key_le x chosen = false) before
                /\ Forall (fun x => key_le chosen x = true) after)
            /\ read_report_datamodel_url m xdo_file
               = match Zipfile.read members chosen with
                 | Some (Xml root) =>
                     head (omap (Etree.get "url") (datamodel_elements root))
                 | _ => None
                 end
        end)
  /\ (forall root url,
        head (omap (Etree.get "url") (datamodel_elements root)) = Some url <->
        exists l1 e l2,
          datamodel_elements root = l1 ++ e :: l2
          /\ Forall (fun x => Etree.get "url" x = None) l1
          /\ Etree.get "url" e = Some url)
  /\ (forall root,
        head (omap (Etree.get "url") (datamodel_elements root)) = None <->
        Forall (fun x => Etree.get "url" x = None) (datamodel_elements root))
  /\ (forall r, report_datamodel_url_try m xdo_file = Raised r ->
                read_report_datamodel_url m xdo_file = None).
Proof.
  split; [apply ReaderFacts.read_url_not_zip|]. split.
  - intros members Hread Hnames pool.
    rewrite (ReaderFacts.read_url_zip _ _ _ Hread).
    rewrite ReaderFacts.definition_candidates_described by done.
    unfold described_candidates. fold pool.
    rewrite ReaderFacts.sort_candidates_head.
    destruct (first_min pool) as [chosen|] eqn:E.
    + split; [by apply ReaderFacts.first_min_spec|]. done.
    + split; [by apply ReaderFacts.first_min_None|done].
  - split; [intros; apply ReaderFacts.head_omap_Some|].
    split; [intros; apply ReaderFacts.head_omap_None|].
    intros r Hr. unfold read_report_datamodel_url. by rewrite Hr.
Qed.

Lemma read_report_datamodel_url_selects_witness :
  let doc url := Xml (Element "report" [] None
                        [Element "dataModel" [("url", url)] None []]) in
  let members := [("x/a_report.xdo", doc "/Models/A.xdm");
                  ("b_report.xdo", doc "/Models/B.xdm");
                  ("c.xdo", doc "/Models/C.xdm")] in
  let m : fs := {[ Path.of_str "/in/r.xdoz" := File (Zip members) ]} in
  read_report_datamodel_url m (Path.of_str "/in/r.xdoz") = Some "/Models/B.xdm".
Proof.
  intros doc members m.
  destruct (read_report_datamodel_url_selects m (Path.of_str "/in/r.xdoz"))
    as (_ & H & _).
  assert (Fs.read m (Path.of_str "/in/r.xdoz") = Some (Zip members)) as H1
    by (vm_compute; reflexivity).
  assert (Forall (fun n => Py.endswith (Py.lower n) "report.xdo" = true ->
                           described_preferred n = true)
                 (Zipfile.namelist members)) as H2
    by (repeat constructor; vm_compute; done).
  specialize (H members H1 H2).
  assert (first_min (described_pool (Zipfile.namelist members))
          = Some "b_report.xdo") as E by (vm_compute; reflexivity).
  cbv zeta in H. rewrite E in H. destruct H as [_ ->].
  vm_compute. reflexivity.
Defined.

(** ** The template extractor *)

(** C2, at the input where the code departs from it.  The bundle holds
    the template [t.rtf] and a report definition that refers to it.
    Pass 1 copies it to [report_templates/t.rtf]; in pass 2 the renaming
    loop runs before the test [out not in created], finds [t.rtf] taken
    and moves on to [t_1.rtf], so the template is copied a second time
    and both paths are reported. *)
Lemma extract_templates_copies_twice :
  let xdo := Xml (Element "report" [] None
                    [Element "templates" [] None
                       [Element "template" [("url", "t.rtf")] None []]]) in
  let bundle := Zip [("_report.xdo", xdo); ("t.rtf", Bytes "RTF")] in
  let m : fs := {[ Path.of_str "/in/r.xdoz" := File bundle;
                   Path.of_str "/out" := Dir ]} in
  let result :=
    extract_templates_from_xdoz m (Path.of_str "/in/r.xdoz")
                                (Path.of_str "/out/R") in
  snd <$> result
  = Some [Path.of_str "/out/R/report_templates/t.rtf";
          Path.of_str "/out/R/report_templates/t_1.rtf"]
  /\ (st ← result; Fs.read st.1 (Path.of_str "/out/R/report_templates/t.rtf"))
     = Some (Bytes "RTF")
  /\ (st ← result; Fs.read st.1 (Path.of_str "/out/R/report_templates/t_1.rtf"))
     = Some (Bytes "RTF").
Proof. repeat split; vm_compute; reflexivity. Qed.

(** The renaming loops of the template extractor and of the catalog copy
    end: their candidates differ in the number only. *)
Module LoopFacts.
Import Py PyFacts PathFacts WalkFacts FsFacts.

Lemma append_inv_tail (a b s : string) : a +:+ s = b +:+ s -> a = b.
Proof.
  intros H. apply (f_equal String.rev) in H.
  rewrite !string_rev_append in H. apply String.app_inj in H.
  apply (f_equal String.rev) in H. by rewrite !string_rev_involutive in H.
Qed.

Lemma split_last_dot_append n a b :
  Path.split_last_dot n = Some (a, b) -> n = a +:+ b.
Proof.
  revert a b. induction n as [|c n IH]; [done|]. intros a b. simpl.
  destruct (Path.split_last_dot n) as [[a' b']|].
  - intros [= <- <-]. rewrite append_cons. f_equal. by apply IH.
  - case_bool_decide; [|done]. by intros [= <- <-].
Qed.

Lemma stem_suffix_no_separator n :
  no_separator n = true ->
  no_separator (Path.stem_of_name n) = true
  /\ no_separator (Path.suffix_of_name n) = true.
Proof.
  intros Hn. unfold Path.stem_of_name, Path.suffix_of_name.
  destruct (Path.split_last_dot n) as [[a b]|] eqn:E; [|done].
  apply split_last_dot_append in E. subst n. unfold no_separator in *.
  rewrite all_chars_append in Hn. apply andb_true_iff in Hn as [Ha Hb].
  destruct (negb _ && negb _); [done|].
  by rewrite all_chars_append, Ha, Hb.
Qed.

Lemma suffixed_good base suf (i : nat) :
  no_separator base = true -> no_separator suf = true ->
  good_name (base +:+ "_" +:+ pretty i +:+ suf) = true.
Proof.
  intros Hb Hs. unfold good_name, Path.kept_part.
  rewrite !andb_true_iff. split; [split|].
  - apply negb_true_iff, bool_decide_eq_false.
    destruct base; [|rewrite append_cons]; discriminate.
  - apply negb_true_iff, bool_decide_eq_false.
    destruct base as [|c r]; [discriminate|]. rewrite append_cons.
    intros [= -> E]. destruct r; [|rewrite append_cons in E]; discriminate.
  - unfold no_separator in *.
    by rewrite !all_chars_append, Hb, Hs, pretty_nat_no_slash.
Qed.

Lemma suffixed_inj base suf :
  Inj (=) (=) (fun i : nat => base +:+ "_" +:+ pretty i +:+ suf).
Proof.
  intros i j H. apply String.app_inj, String.app_inj in H.
  apply append_inv_tail in H. by apply pretty_nat_inj in H.
Qed.

(** The renaming loop over [stem_i.suffix] candidates always finds a free
    path. *)
Lemma suffixed_loop_total (m : fs) dir base suf t :
  no_separator base = true -> no_separator suf = true ->
  is_Some (Fs.while_exists (S (size m)) m
             (fun i => dir // (base +:+ "_" +:+ pretty i +:+ suf)) t 1).
Proof.
  intros Hb Hs. apply while_exists_total.
  - intros i j H. rewrite !div_good in H by by apply suffixed_good.
    injection H as H. apply app_inv_head in H. injection H as H.
    by apply suffixed_inj in H.
  - intros k. rewrite div_good by by apply suffixed_good. simpl.
    by destruct (names dir).
Qed.

Lemma all_chars_rev q s : all_chars q (String.rev s) = all_chars q s.
Proof.
  assert (forall t, all_chars q (String.rev_app s t)
                    = all_chars q s && all_chars q t) as H.
  { induction s as [|c r IH]; intros t; [done|]. simpl. rewrite IH. simpl.
    by destruct (q c), (all_chars q r). }
  unfold String.rev. rewrite H. simpl. apply andb_true_r.
Qed.

Lemma split_go_fields cur s :
  no_separator cur = true ->
  forallb no_separator (split_go "/" cur s) = true.
Proof.
  revert cur. induction s as [|c r IH]; intros cur Hcur; simpl.
  - unfold no_separator in *. by rewrite all_chars_rev, Hcur.
  - case_bool_decide as Hc; simpl.
    + unfold no_separator at 1. rewrite all_chars_rev. fold (no_separator cur).
      rewrite Hcur. by apply IH.
    + apply IH. unfold no_separator in *. simpl. rewrite Hcur.
      unfold no_slash. by rewrite bool_decide_eq_false_2.
Qed.

(** [Path(s)] holds good names only. *)
Lemma of_str_wf s : path_wf (Path.of_str s) = true.
Proof.
  unfold path_wf, Path.of_str. simpl.
  pose proof (split_go_fields "" s eq_refl) as H. fold (split "/" s) in H.
  induction (split "/" s) as [|x l IH]; [done|]. simpl in H.
  apply andb_true_iff in H as [Hx Hl]. simpl.
  destruct (Path.kept_part x) eqn:Hk; [|by apply IH].
  simpl. unfold good_name. rewrite Hk, Hx. by apply IH.
Qed.

Lemma name_no_separator p : path_wf p = true -> no_separator (Path.name p) = true.
Proof.
  unfold Path.name, path_wf.
  destruct (names p) as [|x l _] using rev_ind; [done|].
  rewrite last_last, forallb_app. intros [_ Hx]%andb_true_iff. simpl in Hx.
  rewrite andb_true_r in Hx. unfold good_name in Hx.
  by apply andb_true_iff in Hx as [_ ?].
Qed.

Lemma name_div_no_separator p s :
  no_separator (Path.name p) = true ->
  no_separator (Path.name (p // s)) = true.
Proof.
  intros Hp. pose proof (of_str_wf s) as Hs.
  pose proof (name_no_separator _ Hs) as Hn.
  unfold Path.div, Path.join. destruct (anchored (Path.of_str s)); [done|].
  unfold Path.name in *. cbn [names].
  destruct (names (Path.of_str s)) as [|x l _] using rev_ind.
  - by rewrite app_nil_r.
  - rewrite app_assoc, last_last. by rewrite last_last in Hn.
Qed.

(** The renaming loop of [copy_template] is never cut by its bound. *)
Lemma copy_template_finishes members tpl_dir b st src :
  no_separator (Path.name tpl_dir) = true ->
  copy_template members tpl_dir b st src <> Unfinished.
Proof.
  intros Hd. unfold copy_template. destruct st as [m created].
  set (out := tpl_dir // Path.name (Path.of_str src)).
  assert (no_separator (Path.name out) = true) as Hout
    by by apply name_div_no_separator.
  apply stem_suffix_no_separator in Hout as [Hb Hs].
  destruct (suffixed_loop_total m tpl_dir (Path.stem out) (Path.suffix out)
              out Hb Hs) as [t ->].
  destruct (Zipfile.read members src); [|done].
  destruct (Fs.write m t c); [|done]. by destruct (_ && _).
Qed.

Lemma for_each_finishes {S A : Type} (body : S -> A -> outcome S) s l :
  (forall s x, body s x <> Unfinished) -> for_each body s l <> Unfinished.
Proof.
  intros Hb. revert s. induction l as [|x l IH]; intros s; [done|]. simpl.
  destruct (body s x) eqn:E; [apply IH|done|]. by destruct (Hb s x).
Qed.

Lemma extract_templates_try_finishes m xdo_file tpl_dir :
  no_separator (Path.name tpl_dir) = true ->
  extract_templates_try m xdo_file tpl_dir <> Unfinished.
Proof.
  intros Hd. unfold extract_templates_try.
  destruct (Fs.read m xdo_file) as [[| |members]|]; try done.
  pose proof (for_each_finishes (by_extension members tpl_dir) (m, [])
                (Zipfile.namelist members)) as H1.
  destruct (for_each (by_extension members tpl_dir) _ _) as [st|st|].
  - destruct (definition_candidates _) as [|first ?]; [done|].
    destruct (Zipfile.read members first) as [[| |]|]; try done.
    apply for_each_finishes. intros s x. unfold by_reference.
    destruct (resolve_ref _ x) as [[|? ?]|]; try done.
    by apply copy_template_finishes.
  - done.
  - apply H1. intros s x. unfold by_extension.
    destruct (_ || _); [done|]. destruct (existsb _ _); [|done].
    by apply copy_template_finishes.
Qed.

(** [extract_templates_from_xdoz] returns a list whenever the folder
    [report_templates] can be created: whatever goes wrong afterwards is
    caught. *)
Lemma extract_templates_returns m xdo_file dest_dir :
  is_Some (Fs.mkdir_p m (dest_dir // "report_templates")) ->
  is_Some (extract_templates_from_xdoz m xdo_file dest_dir).
Proof.
  intros [m1 Hm]. unfold extract_templates_from_xdoz, ensure_dir.
  rewrite Hm. simpl.
  pose proof (extract_templates_try_finishes m1 xdo_file
                (dest_dir // "report_templates")) as H.
  destruct (extract_templates_try _ _ _); [by eexists|by eexists|].
  destruct H; [|done]. unfold Path.name. rewrite div_good by done.
  cbn [names]. by rewrite last_last.
Qed.

(** The renaming loop of the catalog copy is never cut by its bound. *)
Lemma catalog_loop_total (m : fs) catalog_dir xdoz_file :
  no_separator (Path.name xdoz_file) = true ->
  is_Some (Fs.while_exists (S (size m)) m
             (fun i => catalog_dir // (Path.stem xdoz_file +:+ "_" +:+ pretty i
                                       +:+ Path.suffix xdoz_file))
             (catalog_dir // Path.name xdoz_file) 1).
Proof.
  intros [Hb Hs]%stem_suffix_no_separator. by apply suffixed_loop_total.
Qed.

End LoopFacts.

(** ** Packaging and extraction *)

Module ZipFacts.
Import Py PyFacts PathFacts WalkFacts FsFacts ReaderFacts.

(** *** Member names *)

Lemma split_go_app sep cur s rest :
  all_chars (fun c => negb (bool_decide (c = sep))) s = true ->
  split_go sep cur (s +:+ String sep rest)
  = (String.rev cur +:+ s) :: split_go sep "" rest.
Proof.
  revert cur. induction s as [|c s IH]; intros cur Hs.
  - simpl. rewrite bool_decide_eq_true_2 by done. by rewrite append_empty_r.
  - rewrite append_cons. simpl in *. apply andb_true_iff in Hs as [Hc Hs].
    apply negb_true_iff in Hc. rewrite Hc, IH by done. f_equal.
    unfold String.rev. simpl. by rewrite !rev_app_append.
Qed.

Lemma split_join ns :
  ns <> [] -> Forall (fun n => no_separator n = true) ns ->
  split "/" (join "/" ns) = ns.
Proof.
  intros Hne H. induction H as [|n ns Hn Hns IH]; [done|].
  destruct ns as [|n' ns].
  - simpl. by apply split_no_sep.
  - change (join "/" (n :: n' :: ns)) with (n +:+ "/" +:+ join "/" (n' :: ns)).
    unfold split. change ("/" +:+ join "/" (n' :: ns))
      with (String "/" (join "/" (n' :: ns))).
    rewrite split_go_app by done. f_equal. by apply IH.
Qed.

Lemma file_name_facts n :
  file_name n = true ->
  good_name n = true /\ n <> "" /\ n <> "." /\ n <> ".."
  /\ no_separator n = true.
Proof.
  unfold file_name. intros [[Hg Hd]%andb_true_iff _]%andb_true_iff.
  apply negb_true_iff, bool_decide_eq_false in Hd.
  destruct (good_name_facts n Hg) as (? & ? & _).
  pose proof Hg as Hg'. unfold good_name in Hg'.
  apply andb_true_iff in Hg' as [? ?].
  split_and!; done.
Qed.

Lemma file_name_accepts n : file_name n = true -> Fs.accepts n = true.
Proof. unfold file_name. by intros [_ ?]%andb_true_iff. Qed.

Lemma file_names_accepts ns :
  forallb file_name ns = true -> Forall (fun n => Fs.accepts n = true) ns.
Proof.
  rewrite forallb_forall. intros H. apply Forall_forall. intros n Hn.
  apply file_name_accepts, H. by apply list_elem_of_In.
Qed.

(** Extraction recovers the names a member was stored under. *)
Lemma member_parts_as_posix ns :
  ns <> [] -> forallb file_name ns = true ->
  Zipfile.member_parts (Path.as_posix (mkPath false ns)) = ns.
Proof.
  intros Hne Hwf. rewrite forallb_forall in Hwf.
  unfold Zipfile.member_parts, Path.as_posix. simpl.
  destruct ns as [|n ns]; [done|]. rewrite split_join; [|done|].
  - clear Hne. induction (n :: ns) as [|x l IH]; [done|]. simpl.
    destruct (file_name_facts x) as (_ & H1 & H2 & H3 & _).
    { apply Hwf. by left. }
    rewrite (bool_decide_eq_false_2 (x = "")) by done.
    rewrite (bool_decide_eq_false_2 (x = ".")) by done.
    rewrite (bool_decide_eq_false_2 (x = "..")) by done. simpl. f_equal.
    apply IH. intros y Hy. apply Hwf. by right.
  - apply Forall_forall. intros x Hx. apply list_elem_of_In in Hx.
    by apply file_name_facts, Hwf.
Qed.

Lemma last_char_append a b :
  last_char (a +:+ b)
  = match last_char b with Some c => Some c | None => last_char a end.
Proof.
  induction a as [|x a IH].
  { change ("" +:+ b) with b. by destruct (last_char b). }
  rewrite append_cons. simpl. rewrite IH.
  by destruct (last_char b), (last_char a).
Qed.

Lemma last_char_join_no_sep ns :
  ns <> [] -> Forall (fun n => n <> "" /\ no_separator n = true) ns ->
  exists c, last_char (join "/" ns) = Some c /\ c <> "/"%char.
Proof.
  intros Hne H. induction H as [|n ns [Hn Hs] Hns IH]; [done|].
  assert (exists c, last_char n = Some c /\ c <> "/"%char) as Hlast.
  { destruct (last_char n) as [c|] eqn:E.
    - exists c. split; [done|]. intros ->.
      apply (SafeName.all_chars_last _ _ _ Hs) in E. done.
    - by apply last_char_None in E. }
  destruct ns as [|n' ns]; [done|].
  change (join "/" (n :: n' :: ns)) with (n +:+ "/" +:+ join "/" (n' :: ns)).
  rewrite !last_char_append. destruct IH as (c & -> & Hc); [done|]. eauto.
Qed.

Lemma endswith_last_char s c :
  endswith s (String c "") = true -> last_char s = Some c.
Proof.
  intros [u ->]%endswith_iff. by rewrite last_char_append.
Qed.

Lemma as_posix_not_dir ns :
  ns <> [] -> forallb file_name ns = true ->
  endswith (Path.as_posix (mkPath false ns)) "/" = false.
Proof.
  intros Hne Hwf. apply not_true_iff_false. intros H.
  apply endswith_last_char in H. unfold Path.as_posix in H. simpl in H.
  destruct ns as [|n ns]; [done|].
  destruct (last_char_join_no_sep (n :: ns)) as (c & Hc & Hne'); [done| |].
  - rewrite forallb_forall in Hwf. apply Forall_forall. intros x Hx.
    apply list_elem_of_In in Hx.
    destruct (file_name_facts x (Hwf x Hx)) as (_ & ? & _ & _ & ?). done.
  - congruence.
Qed.

End ZipFacts.

Module MkdirFacts.
Import Py PyFacts PathFacts WalkFacts FsFacts LayoutFacts.

Lemma mkdir_p_snoc m a ns x :
  Fs.mkdir_p m (mkPath a (ns ++ [x]))
  = match m !! mkPath a (ns ++ [x]) with
    | Some Dir => Some m
    | Some (File _) => None
    | None => m' ← Fs.mkdir_p m (mkPath a ns);
              if Fs.accepts x
              then Some (<[mkPath a (ns ++ [x]) := Dir]> m') else None
    end.
Proof.
  unfold Fs.mkdir_p. simpl. rewrite rev_app_distr. simpl.
  by rewrite rev_involutive.
Qed.

(** Below an existing directory, creating a path succeeds unless a file
    is in the way. *)
Lemma mkdir_p_below_ok m a base ext :
  Fs.is_dir m (mkPath a base) = true ->
  Forall (fun n => Fs.accepts n = true) ext ->
  (forall e d, e <> [] -> e `prefix_of` ext ->
               m !! mkPath a (base ++ e) <> Some (File d)) ->
  is_Some (Fs.mkdir_p m (mkPath a (base ++ ext))).
Proof.
  intros Hd. induction ext as [|x ext IH] using rev_ind; intros Hacc Hfree.
  - rewrite app_nil_r, mkdir_p_dir by done. by eexists.
  - apply Forall_app in Hacc as [Hacc Hx]. apply Forall_cons in Hx as [Hx _].
    rewrite app_assoc, mkdir_p_snoc, <- app_assoc.
    destruct (m !! _) as [[|d]|] eqn:E; [by eexists| |].
    + exfalso. eapply (Hfree (ext ++ [x])); [by destruct ext|done|exact E].
    + destruct IH as [m' ->]; [done| |simpl; rewrite Hx; by eexists].
      intros e d He Hp. apply Hfree; [done|]. by apply prefix_app_r.
Qed.

(** It only adds directories, and only on the way down from that
    directory. *)
Lemma mkdir_p_below_effect m a base ext m1 :
  Fs.is_dir m (mkPath a base) = true ->
  Fs.mkdir_p m (mkPath a (base ++ ext)) = Some m1 ->
  forall k,
    m1 !! k = m !! k
    \/ (m !! k = None /\ m1 !! k = Some Dir
        /\ exists e, e <> [] /\ e `prefix_of` ext /\ k = mkPath a (base ++ e)).
Proof.
  intros Hd. revert m1.
  induction ext as [|x ext IH] using rev_ind; intros m1 Hmk k.
  - rewrite app_nil_r, mkdir_p_dir in Hmk by done. injection Hmk as <-.
    by left.
  - rewrite app_assoc, mkdir_p_snoc, <- app_assoc in Hmk.
    destruct (m !! mkPath a (base ++ ext ++ [x])) as [[|d]|] eqn:E;
      [injection Hmk as <-; by left|done|].
    destruct (Fs.mkdir_p m (mkPath a (base ++ ext))) as [m'|] eqn:E';
      [|done].
    simpl in Hmk. destruct (Fs.accepts x); [|done]. injection Hmk as <-.
    destruct (decide (k = mkPath a (base ++ ext ++ [x]))) as [->|Hne].
    + right. rewrite lookup_insert_eq. split; [done|]. split; [done|].
      exists (ext ++ [x]). split; [by destruct ext|done].
    + rewrite lookup_insert_ne by done.
      destruct (IH m' eq_refl k) as [?|(? & ? & e & ? & ? & ?)]; [by left|].
      right. split; [done|]. split; [done|]. exists e.
      split; [done|]. split; [by apply prefix_app_r|done].
Qed.

Lemma strip_prefix_Some pre l r :
  Path.strip_prefix pre l = Some r <-> l = pre ++ r.
Proof.
  revert l. induction pre as [|a pre IH]; intros l; simpl.
  - split; [by intros [= ->]|by intros ->].
  - destruct l as [|b l]; [done|]. case_bool_decide as Hab.
    + subst. rewrite IH. split; [by intros ->|by intros [= ->]].
    + split; [done|]. intros [= ? _]. done.
Qed.

Lemma elem_of_walk_files (m : fs) folder rel d :
  (rel, d) ∈ walk_files m folder <->
  anchored rel = false /\ names rel <> []
  /\ m !! mkPath (anchored folder) (names folder ++ names rel)
     = Some (File d).
Proof.
  unfold walk_files. rewrite list_elem_of_omap. split.
  - intros ([p nd] & Hin & Hf). apply elem_of_map_to_list in Hin.
    destruct nd as [|data]; [done|]. unfold Path.relative_to in Hf.
    case_bool_decide as Ha; [|done].
    destruct (Path.strip_prefix _ _) as [r|] eqn:E; [|done]. simpl in Hf.
    case_bool_decide; [done|]. injection Hf as <- <-.
    apply strip_prefix_Some in E. simpl. split; [done|]. split; [done|].
    rewrite <- Hin. f_equal. destruct p as [a ns]. simpl in *. by subst.
  - intros (Ha & Hne & Hl).
    exists (mkPath (anchored folder) (names folder ++ names rel), File d).
    split; [by apply elem_of_map_to_list|]. unfold Path.relative_to. simpl.
    rewrite bool_decide_eq_true_2 by done.
    rewrite strip_prefix_app. simpl.
    rewrite bool_decide_eq_false_2 by done. f_equal. f_equal.
    destruct rel as [a ns]. simpl in *. by subst.
Qed.

Lemma prefix_snoc_inv {A} (q ns : list A) x :
  q `prefix_of` ns ++ [x] -> q = ns ++ [x] \/ q `prefix_of` ns.
Proof.
  intros [k Hk]. destruct k as [|y k _] using rev_ind.
  - left. by rewrite app_nil_r in Hk.
  - right. rewrite app_assoc in Hk. apply app_inj_tail in Hk as [-> _].
    by exists k.
Qed.

(** In a well-formed file system the folders above an entry are
    directories. *)
Lemma wf_prefix_dir (m : fs) a ns q :
  fs_wf m -> is_Some (m !! mkPath a ns) ->
  q <> [] -> q `prefix_of` ns -> q <> ns -> m !! mkPath a q = Some Dir.
Proof.
  intros Hwf. revert q. induction ns as [|x ns IH] using rev_ind;
    intros q [nd Hnd] Hq Hp Hne.
  - by apply prefix_nil_inv in Hp.
  - apply prefix_snoc_inv in Hp as [?|Hp]; [done|].
    destruct (Hwf _ _ Hnd) as [_ Hpar]. unfold Path.parent in Hpar.
    simpl in Hpar. rewrite removelast_last in Hpar.
    assert (m !! mkPath a ns = Some Dir) as Hns.
    { unfold Fs.is_dir in Hpar. simpl in Hpar.
      apply orb_true_iff in Hpar as [Hpar|Hpar].
      - apply bool_decide_eq_true in Hpar. subst ns.
        by apply prefix_nil_inv in Hp.
      - by destruct (m !! mkPath a ns) as [[|]|]. }
    destruct (decide (q = ns)) as [->|Hne']; [done|].
    apply IH; [by eexists|done..].
Qed.

End MkdirFacts.

Module ExtractFacts.
Import Py PyFacts PathFacts WalkFacts FsFacts LayoutFacts ZipFacts MkdirFacts.

Section extraction.
Variable dest : Path.

(** The files allowed below [dest]: their relative names and
    content.  No allowed name is a proper prefix of another, and a name
    has one content. *)
Variable allowed : list string -> content -> Prop.
Hypothesis allowed_names :
  forall r d, allowed r d -> r <> [] /\ forallb file_name r = true.
Hypothesis allowed_prefix_free :
  forall r1 d1 r2 d2,
    allowed r1 d1 -> allowed r2 d2 -> r1 `prefix_of` r2 ->
    r1 = r2 /\ d1 = d2.

Let below (q : list string) : Path :=
  mkPath (anchored dest) (names dest ++ q).

Let extraction_inv := extraction_inv dest allowed.

Lemma below_inj q1 q2 : below q1 = below q2 -> q1 = q2.
Proof. intros [= H]. by apply app_inv_head in H. Qed.

Lemma below_ne_dest q : q <> [] -> below q <> dest.
Proof.
  intros Hq E. destruct dest as [a ns]. injection E as E.
  rewrite <- (app_nil_r ns) in E at 2. by apply app_inv_head in E.
Qed.

Lemma dest_eq : dest = mkPath (anchored dest) (names dest).
Proof. by destruct dest. Qed.

Lemma extract_one (mc : fs) (rel : Path) (d : content) :
  extraction_inv mc ->
  anchored rel = false -> allowed (names rel) d ->
  exists m2,
    extract_member dest (Some mc) (Path.as_posix rel, d) = Some m2
    /\ extraction_inv m2
    /\ forall q d', q <> [] ->
         (m2 !! below q = Some (File d') <->
          mc !! below q = Some (File d') \/ (q = names rel /\ d' = d)).
Proof.
  intros [Hdir Hinv0] Ha Hal.
  assert (forall q, q <> [] ->
            match mc !! below q with
            | Some (File d) => allowed q d
            | Some Dir => exists r d, allowed r d /\ q `prefix_of` r /\ q <> r
            | None => True
            end) as Hinv by exact Hinv0.
  clear Hinv0.
  destruct (allowed_names _ _ Hal) as [Hne Hfn].
  destruct rel as [a r]. simpl in Ha, Hal, Hne, Hfn. subst a.
  unfold extract_member. simpl.
  rewrite member_parts_as_posix, as_posix_not_dir by done.
  unfold Path.parent. simpl.
  assert (removelast (names dest ++ r) = names dest ++ removelast r) as ->
    by by apply removelast_app.
  (* the directories above the target *)
  assert (forall e, e `prefix_of` removelast r -> e `prefix_of` r /\ e <> r)
    as Hpre.
  { intros e He. rewrite (app_removelast_last "" Hne) at 1 2. split.
    - by apply prefix_app_r.
    - intros ->. apply prefix_length in He. rewrite length_app in He.
      simpl in He. lia. }
  assert (Forall (fun n => Fs.accepts n = true) (removelast r)
          /\ Fs.accepts (List.last r "") = true) as [Haccd Haccf].
  { pose proof (file_names_accepts r Hfn) as Hacc.
    rewrite (app_removelast_last "" Hne) in Hacc.
    apply Forall_app in Hacc as [? Hl]. by apply Forall_cons in Hl as [? _]. }
  destruct (mkdir_p_below_ok mc (anchored dest) (names dest) (removelast r))
    as [m1 Hm1].
  { by rewrite <- dest_eq. }
  { done. }
  { intros e d' He Hp E. destruct (Hpre e Hp) as [Hp' Hne'].
    specialize (Hinv e He). fold (below e) in E. rewrite E in Hinv.
    destruct (allowed_prefix_free _ _ _ _ Hinv Hal Hp'). done. }
  rewrite Hm1. simpl.
  pose proof (mkdir_p_below_effect mc _ _ _ m1
                ltac:(by rewrite <- dest_eq) Hm1) as Heff.
  pose proof (mkdir_p_is_dir _ _ _ Hm1) as Hpar.
  (* the target is not a directory *)
  assert (Fs.is_dir m1 (below r) = false) as Hnd.
  { unfold Fs.is_dir. simpl. rewrite bool_decide_eq_false_2.
    2:{ intros E. apply app_eq_nil in E as [_ ?]. done. }
    simpl. destruct (Heff (below r)) as [E|(_ & _ & e & He & Hp & E)].
    - rewrite E. specialize (Hinv r Hne).
      destruct (mc !! below r) as [[|]|]; try done.
      destruct Hinv as (r' & d' & Hal' & Hp & Hne').
      destruct (allowed_prefix_free _ _ _ _ Hal Hal' Hp). done.
    - apply below_inj in E. subst e. by destruct (Hpre r Hp). }
  unfold Fs.write. unfold Path.parent, Path.name. simpl.
  assert (removelast (names dest ++ r) = names dest ++ removelast r) as ->
    by by apply removelast_app.
  assert (List.last (names dest ++ r) "" = List.last r "") as ->.
  { rewrite (app_removelast_last "" Hne) at 1.
    by rewrite app_assoc, !last_last. }
  fold (below r). rewrite Hpar, Hnd, Haccf. simpl. eexists. split; [done|].
  assert (forall q, q <> [] -> q <> r ->
            m1 !! below q = mc !! below q
            \/ (mc !! below q = None /\ m1 !! below q = Some Dir
                /\ q `prefix_of` r /\ q <> r)) as Hm1q.
  { intros q Hq Hqr. destruct (Heff (below q))
      as [?|(? & ? & e & He & Hp & E)]; [by left|].
    right. apply below_inj in E. subst e. by destruct (Hpre q Hp). }
  split; [split|].
  - destruct (WriteFacts.is_dir_insert_File m1 (below r) dest d) as [?|E];
      [|done|by apply below_ne_dest in E].
    unfold Fs.is_dir in *. apply orb_true_iff in Hdir as [Hdir|Hdir].
    { by rewrite Hdir. }
    destruct (Heff dest) as [E|(E & _)].
    + rewrite E, Hdir. apply orb_true_r.
    + by rewrite E in Hdir.
  - intros q Hq. destruct (decide (q = r)) as [->|Hqr].
    + by rewrite lookup_insert_eq.
    + rewrite lookup_insert_ne by (by intros ?%below_inj).
      fold (below q).
      destruct (Hm1q q Hq Hqr) as [->|(_ & -> & Hp & _)]; [by apply Hinv|].
      eauto.
  - intros q d' Hq. destruct (decide (q = r)) as [->|Hqr].
    + rewrite lookup_insert_eq. split.
      * intros [= <-]. by right.
      * intros [E|[_ ->]]; [|done]. specialize (Hinv r Hne).
        rewrite E in Hinv.
        destruct (allowed_prefix_free _ _ _ _ Hinv Hal) as [_ ->]; done.
    + rewrite lookup_insert_ne by (by intros ?%below_inj).
      destruct (Hm1q q Hq Hqr) as [->|(E & -> & _)].
      * split; [by left|]. by intros [?|[? _]].
      * rewrite E. split; [done|]. by intros [?|[? _]].
Qed.

Lemma extract_all (members : list (Path * content)) : forall mc,
  extraction_inv mc ->
  Forall (fun e => anchored e.1 = false /\ allowed (names e.1) e.2) members ->
  exists mf,
    foldl (extract_member dest) (Some mc)
          ((fun '(rel, d) => (Path.as_posix rel, d)) <$> members) = Some mf
    /\ extraction_inv mf
    /\ forall q d, q <> [] ->
         (mf !! below q = Some (File d) <->
          mc !! below q = Some (File d) \/ (mkPath false q, d) ∈ members).
Proof.
  induction members as [|[rel d] members IH]; intros mc Hinv Hall.
  - exists mc. split; [done|]. split; [done|]. intros q d Hq.
    split; [by left|]. intros [?|Hin]; [done|]. by apply elem_of_nil in Hin.
  - apply Forall_cons in Hall as [[Ha Hal] Hall]. simpl in Ha, Hal.
    destruct (extract_one mc rel d Hinv Ha Hal) as (m2 & E & Hinv2 & Hf2).
    destruct (IH m2 Hinv2 Hall) as (mf & Ef & Hinvf & Hff).
    exists mf. rewrite fmap_cons.
    change (foldl (extract_member dest) (Some mc)
              ((Path.as_posix rel, d)
               :: ((fun '(rel, d) => (Path.as_posix rel, d)) <$> members)))
      with (foldl (extract_member dest)
              (extract_member dest (Some mc) (Path.as_posix rel, d))
              ((fun '(rel, d) => (Path.as_posix rel, d)) <$> members)).
    rewrite E.
    split; [done|]. split; [done|]. intros q d' Hq.
    rewrite Hff, Hf2, elem_of_cons by done. split.
    + intros [[?|[-> ->]]|?]; [by left| |by right; right].
      right. left. destruct rel. simpl in *. by subst.
    + intros [?|[[= <- ->]|?]]; [by left; left| |by right].
      left. right. done.
Qed.

End extraction.
End ExtractFacts.

Module RoundTrip.
Import Py PyFacts PathFacts WalkFacts FsFacts LayoutFacts ZipFacts MkdirFacts
       ExtractFacts.

Lemma nothing_below_lookup (m : fs) dest q :
  nothing_below m dest -> q <> [] ->
  m !! mkPath (anchored dest) (names dest ++ q) = None.
Proof.
  intros H Hq. destruct (m !! _) as [nd|] eqn:E; [|done]. exfalso.
  specialize (H _ _ E). unfold strictly_below, Path.relative_to in H.
  simpl in H.
  rewrite bool_decide_eq_true_2, strip_prefix_app in H by done. simpl in H.
  by rewrite bool_decide_eq_false_2 in H.
Qed.

(** The files of the folder are allowed names: good ones, none above
    another. *)
Lemma folder_files_names (m : fs) folder r d :
  fs_wf m ->
  m !! mkPath (anchored folder) (names folder ++ r) = Some (File d) ->
  forallb file_name r = true.
Proof.
  intros Hwf E. destruct (Hwf _ _ E) as [Hn _]. simpl in Hn.
  rewrite forallb_app in Hn. by apply andb_true_iff in Hn as [_ ?].
Qed.

Lemma folder_files_prefix_free (m : fs) folder r1 d1 r2 d2 :
  fs_wf m ->
  r1 <> [] ->
  m !! mkPath (anchored folder) (names folder ++ r1) = Some (File d1) ->
  m !! mkPath (anchored folder) (names folder ++ r2) = Some (File d2) ->
  r1 `prefix_of` r2 -> r1 = r2 /\ d1 = d2.
Proof.
  intros Hwf Hne E1 E2 Hp. destruct (decide (r1 = r2)) as [->|Hne'].
  - rewrite E1 in E2. by injection E2 as ->.
  - exfalso.
    assert (m !! mkPath (anchored folder) (names folder ++ r1) = Some Dir) as Hd.
    { apply (wf_prefix_dir m _ (names folder ++ r2)); [done|by eexists| | |].
      - intros E. apply app_eq_nil in E as [_ ?]. done.
      - by apply prefix_app.
      - intros E. by apply app_inv_head in E. }
    congruence.
Qed.

Lemma fresh_dest_inv (m m0 : fs) dest allowed :
  Fs.mkdir_p m dest = Some m0 -> nothing_below m dest ->
  extraction_inv dest allowed m0
  /\ forall q, q <> [] ->
       m0 !! mkPath (anchored dest) (names dest ++ q) = None.
Proof.
  intros Hmk Hfresh.
  assert (forall q, q <> [] ->
            m0 !! mkPath (anchored dest) (names dest ++ q) = None) as Hnone.
  { intros q Hq.
    assert (Fs.mkdir_p m (mkPath (anchored dest) ([] ++ names dest)) = Some m0)
      as Hmk' by by destruct dest.
    destruct (mkdir_p_below_effect m _ [] _ m0 eq_refl Hmk'
                (mkPath (anchored dest) (names dest ++ q)))
      as [->|(_ & _ & e & _ & Hp & E)].
    - by apply nothing_below_lookup.
    - injection E as E. simpl in E. subst e. apply prefix_length in Hp.
      rewrite length_app in Hp. destruct q; [done|]. simpl in Hp. lia. }
  split; [|done]. split; [by eapply mkdir_p_is_dir|].
  intros q Hq. by rewrite Hnone.
Qed.

End RoundTrip.

Example zip_folder_ex :
  let m : fs := {[ Path.of_str "/o" := Dir;
                   Path.of_str "/o/M" := Dir;
                   Path.of_str "/o/M/q.sql" := File (Bytes "select 1") ]} in
  zip_folder m (Path.of_str "/o") = Zip [("M/q.sql", Bytes "select 1")].
Proof. vm_compute. reflexivity. Qed.

(** C8. In a well-formed file system, zipping a folder and extracting
    the archive into a folder that can be created and has nothing below it
    succeeds, and gives below the new folder the files of the zipped one:
    at every relative path there is a file in the one exactly when there
    is one in the other, with the same content. *)
Theorem zip_extract_roundtrip (m m0 : fs) (folder dest : Path) :
  fs_wf m ->
  Fs.mkdir_p m dest = Some m0 ->
  nothing_below m dest ->
  exists m',
    extract_ziplike m (zip_folder m folder) dest = Some m'
    /\ forall rel, rel <> [] -> file_at m' dest rel = file_at m folder rel.
Proof.
  intros Hwf Hmk Hfresh.
  set (allowed := fun (r : list string) (d : content) =>
         r <> [] /\ m !! mkPath (anchored folder) (names folder ++ r)
                    = Some (File d)).
  destruct (RoundTrip.fresh_dest_inv m m0 dest allowed Hmk Hfresh)
    as [Hinv Hnone].
  destruct (ExtractFacts.extract_all dest allowed) with
    (members := walk_files m folder) (mc := m0) as (mf & Ef & _ & Hfiles).
  - intros r d [Hr E]. split; [done|].
    by eapply RoundTrip.folder_files_names.
  - intros r1 d1 r2 d2 [Hr1 E1] [Hr2 E2].
    by eapply RoundTrip.folder_files_prefix_free.
  - done.
  - apply Forall_forall. intros [rel d] Hin.
    apply MkdirFacts.elem_of_walk_files in Hin as (Ha & Hne & E). done.
  - exists mf. split.
    + unfold extract_ziplike, zip_folder. rewrite Hmk. simpl. exact Ef.
    + intros rel Hrel. unfold file_at, Fs.read.
      assert (forall d,
                mf !! mkPath (anchored dest) (names dest ++ rel) = Some (File d)
                <-> m !! mkPath (anchored folder) (names folder ++ rel)
                    = Some (File d)) as Hiff.
      { intros d. rewrite Hfiles, Hnone by done.
        rewrite MkdirFacts.elem_of_walk_files. simpl. split.
        - intros [?|(_ & _ & ?)]; done.
        - intros E. right. done. }
      destruct (mf !! _) as [[|d]|],
        (m !! mkPath (anchored folder) _) as [[|d']|]; try done;
        try (by destruct (Hiff d') as [_ H]; specialize (H eq_refl);
                simplify_eq);
        try (by destruct (Hiff d) as [H _]; specialize (H eq_refl);
                simplify_eq).
Qed.

Lemma zip_extract_roundtrip_witness :
  let m : fs := {[ Path.of_str "/o" := Dir;
                   Path.of_str "/o/M" := Dir;
                   Path.of_str "/o/M/q.sql" := File (Bytes "select 1") ]} in
  exists m',
    extract_ziplike m (zip_folder m (Path.of_str "/o")) (Path.of_str "/t")
    = Some m'
    /\ file_at m' (Path.of_str "/t") ["M"; "q.sql"] = Some (Bytes "select 1").
Proof.
  set (m := ({[ Path.of_str "/o" := Dir;
                Path.of_str "/o/M" := Dir;
                Path.of_str "/o/M/q.sql" := File (Bytes "select 1") ]} : fs)).
  assert (fs_wf m) as H1.
  { apply (bool_decide_unpack _). vm_compute. exact I. }
  assert (Fs.mkdir_p m (Path.of_str "/t")
          = Some (<[Path.of_str "/t" := Dir]> m)) as H2
    by (vm_compute; reflexivity).
  assert (nothing_below m (Path.of_str "/t")) as H3.
  { apply (bool_decide_unpack _). vm_compute. exact I. }
  destruct (zip_extract_roundtrip m _ (Path.of_str "/o") (Path.of_str "/t")
              H1 H2 H3) as (m' & E & Hfiles).
  exists m'. split; [exact E|].
  rewrite Hfiles by discriminate. vm_compute. reflexivity.
Defined.

(* ================================================================== *)
(** * Further properties *)
(* ================================================================== *)

(** ** Names and paths *)

(** X1. The names [safe_name] leaves unchanged are exactly the clean
    ones: non-empty, made of characters of [[\w\-.]] only, without two
    adjacent underscores and neither beginning nor ending with a dot or an
    underscore. *)
Theorem safe_name_fixed_points (s : string) :
  safe_name s = s <-> is_clean s = true.
Proof.
  split.
  - intros E. rewrite <- E. apply SafeName.safe_name_is_clean.
  - apply SafeName.is_clean_fixed.
Qed.

Module PathMore.
Import Py PyFacts PathFacts WalkFacts MatchFacts.

Lemma safe_name_root : safe_name "/" = "unnamed".
Proof. reflexivity. Qed.

Lemma filter_good_parts l :
  forallb good_name l = true ->
  List.filter (fun part => negb (bool_decide (part = ".")
                                 || bool_decide (part = ""))) l = l.
Proof.
  induction l as [|n l IH]; [done|]. simpl.
  intros [Hn Hl]%andb_true_iff.
  destruct (good_name_facts n Hn) as (H1 & H2 & _).
  rewrite (bool_decide_eq_false_2 (n = ".")) by done.
  rewrite (bool_decide_eq_false_2 (n = "")) by done. simpl.
  by rewrite IH.
Qed.

Lemma safe_parts_wf p :
  path_wf p = true ->
  safe_parts p
  = (if anchored p then ["unnamed"] else []) ++ (safe_name <$> names p).
Proof.
  intros Hwf. rewrite safe_parts_spec. unfold Path.parts.
  rewrite List.filter_app, fmap_app, (filter_good_parts (names p)) by done.
  by destruct (anchored p).
Qed.

Lemma fmap_safe_name_fixed l :
  Forall (fun n => is_clean n = true) l -> safe_name <$> l = l.
Proof.
  induction 1 as [|n l Hn _ IH]; [done|]. rewrite fmap_cons.
  by rewrite SafeName.is_clean_fixed, IH.
Qed.

Lemma safe_parts_clean p : Forall (fun n => is_clean n = true) (safe_parts p).
Proof.
  rewrite safe_parts_spec. apply Forall_fmap, Forall_forall. intros x _.
  apply SafeName.safe_name_is_clean.
Qed.

End PathMore.

(** X2. Sanitizing a path twice changes nothing more:
    [safe_path_from_rel] is idempotent. *)
Theorem safe_path_from_rel_idempotent (p : Path) :
  safe_path_from_rel (safe_path_from_rel p) = safe_path_from_rel p.
Proof.
  rewrite !PathFacts.safe_path_from_rel_names. f_equal.
  rewrite PathMore.safe_parts_wf by apply PathFacts.safe_parts_good.
  simpl. apply PathMore.fmap_safe_name_fixed, PathMore.safe_parts_clean.
Qed.

(** X3. [safe_path_from_rel] keeps the shape of the tree: a path built by
    [pathlib] (no empty or ["."] name, no separator inside a name) is
    mapped level by level, each name to its sanitized form, none dropped
    and none merged; the root of an absolute path becomes one more
    leading folder, ["unnamed"]. *)
Theorem safe_path_from_rel_levels (p : Path) :
  path_wf p = true ->
  names (safe_path_from_rel p)
  = (if anchored p then ["unnamed"] else []) ++ (safe_name <$> names p)
  /\ length (names (safe_path_from_rel p))
     = (if anchored p then 1 else 0) + length (names p).
Proof.
  intros Hwf. rewrite PathFacts.safe_path_from_rel_names. simpl.
  rewrite PathMore.safe_parts_wf by done. split; [done|].
  rewrite length_app, length_fmap. by destruct (anchored p).
Qed.

Lemma safe_path_from_rel_levels_witness :
  names (safe_path_from_rel (Path.of_str "/Shared Folders/HR (old)/.."))
  = ["unnamed"; "Shared_Folders"; "HR_old"; "unnamed"].
Proof.
  destruct (safe_path_from_rel_levels
              (Path.of_str "/Shared Folders/HR (old)/..") eq_refl) as [E _].
  rewrite E. vm_compute. reflexivity.
Defined.

(** X4. From an absolute path the generator [walk_up_rel_paths] also
    stops: it yields the path and each of its ancestors up to the root
    ["/"], then ["."] once, and nothing more. *)
Theorem walk_up_rel_paths_absolute (p : Path) :
  anchored p = true ->
  yields (Running p) (walk_up_rel_paths p)
  /\ walk_up_rel_paths p = (Path.as_posix <$> ancestors p) ++ ["."]
  /\ length (walk_up_rel_paths p) = length (names p) + 2.
Proof.
  destruct p as [a ns]. simpl. intros ->.
  assert (forall fuel, length ns + 3 <= fuel ->
            drain fuel (Running (mkPath true ns))
            = Some ((Path.as_posix <$> ancestors (mkPath true ns)) ++ ["."]))
    as Hd.
  { induction ns as [|x ns IH] using rev_ind; intros fuel Hf.
    - destruct fuel as [|[|[|fuel]]]; simpl in Hf; try lia. reflexivity.
    - rewrite length_app in Hf. simpl in Hf.
      destruct fuel as [|fuel]; [lia|].
      rewrite WalkFacts.drain_S, WalkFacts.walk_next_snoc, IH by lia.
      by rewrite WalkFacts.ancestors_snoc. }
  assert (walk_up_rel_paths (mkPath true ns)
          = (Path.as_posix <$> ancestors (mkPath true ns)) ++ ["."]) as E.
  { unfold walk_up_rel_paths. simpl names. by rewrite Hd by lia. }
  rewrite E. split; [|split; [done|]].
  - clear Hd E. induction ns as [|x ns IH] using rev_ind.
    + eapply yields_more; [apply WalkFacts.walk_next_root|].
      eapply yields_more; [apply WalkFacts.walk_next_dot|]. constructor.
    + rewrite WalkFacts.ancestors_snoc, fmap_cons. simpl.
      eapply yields_more; [apply WalkFacts.walk_next_snoc|]. exact IH.
  - rewrite length_app, length_fmap, WalkFacts.ancestors_length. simpl. lia.
Qed.

Lemma walk_up_rel_paths_absolute_witness :
  walk_up_rel_paths (Path.of_str "/a/b") = ["/a/b"; "/a"; "/"; "."].
Proof.
  destruct (walk_up_rel_paths_absolute (Path.of_str "/a/b") eq_refl)
    as (_ & E & _).
  rewrite E. vm_compute. reflexivity.
Defined.

(** ** The parser *)

Module ParseMore.
Import Py PyFacts ParseFacts ZipFacts.

Lemma head_char_append a b : a <> "" -> head_char (a +:+ b) = head_char a.
Proof. destruct a as [|c r]; [done|]. intros _. by rewrite append_cons. Qed.

Lemma last_char_Some s : s <> "" -> is_Some (last_char s).
Proof.
  intros H. destruct (last_char s) eqn:E; [by eexists|].
  by apply last_char_None in E.
Qed.

(** A text that is not empty and has no white space at either end. *)
Lemma strip_trimmed s :
  strip s <> "" ->
  fails isspace (head_char (strip s)) /\ fails isspace (last_char (strip s)).
Proof.
  intros _. unfold strip, strip_with. split.
  - apply rstrip_head, lstrip_head.
  - apply rstrip_last.
Qed.

Lemma join_trimmed sep ts :
  ts <> [] ->
  Forall (fun t => t <> "" /\ fails isspace (head_char t)
                   /\ fails isspace (last_char t)) ts ->
  join sep ts <> "" /\ fails isspace (head_char (join sep ts))
  /\ fails isspace (last_char (join sep ts)).
Proof.
  intros Hne H. induction H as [|t ts (Ht & Hh & Hl) Hts IH]; [done|].
  destruct ts as [|t' ts]; [done|].
  destruct IH as (Hj & _ & Hjl); [done|].
  change (join sep (t :: t' :: ts)) with (t +:+ sep +:+ join sep (t' :: ts)).
  split; [|split].
  - destruct t; [done|]. by rewrite append_cons.
  - by rewrite head_char_append.
  - rewrite !last_char_append.
    destruct (last_char_Some _ Hj) as [c Hc]. rewrite Hc in Hjl |- *. done.
Qed.

Lemma sql_texts_trimmed e :
  Forall (fun t => t <> "" /\ fails isspace (head_char t)
                   /\ fails isspace (last_char t)) (sql_texts_of e).
Proof.
  unfold sql_texts_of. apply Forall_forall. intros t Hin.
  apply list_elem_of_In, filter_In in Hin as [Hin Hne].
  apply negb_true_iff, bool_decide_eq_false in Hne.
  apply in_map_iff in Hin as (sn & <- & _).
  split; [done|]. by apply strip_trimmed.
Qed.

Lemma entry_of_trimmed key dflt e n s :
  entry_of key dflt e = Some (n, s) -> s <> "" /\ strip s = s.
Proof.
  unfold entry_of. pose proof (sql_texts_trimmed e) as H.
  destruct (sql_texts_of e) as [|t ts] eqn:E; [done|]. intros [= _ <-].
  destruct (join_trimmed LFLF (t :: ts)) as (H1 & H2 & H3); [done|done|].
  split; [done|]. by apply strip_with_fixed.
Qed.

Lemma entries_ok key dflt els :
  Forall (fun e => is_clean e.1 = true /\ e.2 <> "" /\ strip e.2 = e.2)
         (omap (entry_of key dflt) els).
Proof.
  apply Forall_forall. intros [n s] Hin.
  apply list_elem_of_omap in Hin as (e & _ & He). simpl. split.
  - by eapply entry_of_clean.
  - by eapply entry_of_trimmed.
Qed.

End ParseMore.

(** X5. The value sets of a data-model definition: the parser returns, in
    document order, one pair per [valueSet] child of a [valueSets] element
    below the root that has a SQL child with non-blank text.  The id of
    the pair is the sanitized [id] attribute, ["ValueSet"] being used when
    the attribute is absent or empty; its SQL is the trimmed non-empty
    texts of the SQL children joined by a blank line.  Written under a
    root that can be created and holds no directory in the way, and when
    the file system accepts the file names, every pair produces one file
    [lv_<id>.sql]: the writer returns one path [root/lv_<id>.sql] per
    pair, in order; after the call each of them is a file directly under
    the root that holds the SQL of a pair of that id, ended by a line
    feed; and no other path has changed. *)
Theorem parse_datamodel_valuesets (root : element) :
  valuesets_of root
  = omap (entry_of "id" "ValueSet") (Etree.select "valueSets" "valueSet" root)
  /\ (forall vs,
        vs ∈ Etree.select "valueSets" "valueSet" root <->
        exists d, d ∈ Etree.descendants root /\ Etree.tag d = "valueSets"
                  /\ vs ∈ Etree.children d /\ Etree.tag vs = "valueSet")
  /\ (forall vs,
        entry_of "id" "ValueSet" vs = None <->
        Forall (fun sn => blank_text sn = true) (Etree.child_elems "sql" vs))
  /\ (forall vs id sql,
        entry_of "id" "ValueSet" vs = Some (id, sql) ->
        id = safe_name (match Etree.get "id" vs with
                        | Some (String c r) => String c r
                        | Some EmptyString | None => "ValueSet"
                        end)
        /\ sql = Py.join LFLF
                   (List.filter (fun s => negb (bool_decide (s = "")))
                      ((fun sn => Py.strip (default "" (Etree.text sn)))
                         <$> Etree.child_elems "sql" vs)))
  /\ (forall (m m0 : fs) out_dir,
        Fs.mkdir_p m out_dir = Some m0 ->
        Forall (fun e => Fs.accepts ("lv_" +:+ e.1 +:+ ".sql") = true)
               (valuesets_of root) ->
        Forall (fun e => Fs.is_dir m0 (out_dir // ("lv_" +:+ e.1 +:+ ".sql"))
                         = false)
               (valuesets_of root) ->
        exists m',
          write_sql_otbi m out_dir [] (valuesets_of root) None
          = Some (m', (fun e => out_dir // ("lv_" +:+ e.1 +:+ ".sql"))
                        <$> valuesets_of root)
          /\ Forall (fun e =>
                       Path.parent (out_dir // ("lv_" +:+ e.1 +:+ ".sql"))
                       = out_dir
                       /\ Path.name (out_dir // ("lv_" +:+ e.1 +:+ ".sql"))
                          = "lv_" +:+ e.1 +:+ ".sql"
                       /\ exists sql,
                            (e.1, sql) ∈ valuesets_of root
                            /\ m' !! (out_dir // ("lv_" +:+ e.1 +:+ ".sql"))
                               = Some (File (Bytes (Py.strip sql +:+ LF))))
                    (valuesets_of root)
          /\ (forall p,
                (forall e, e ∈ valuesets_of root ->
                           p <> out_dir // ("lv_" +:+ e.1 +:+ ".sql")) ->
                m' !! p = m0 !! p)).
Proof.
  split; [apply ParseFacts.valuesets_of_eq|].
  split; [intros vs; apply ParseFacts.select_spec|].
  split.
  { intros vs. rewrite <- ParseFacts.sql_texts_nil. unfold entry_of.
    by destruct (sql_texts_of vs). }
  split.
  { intros vs id sql. unfold entry_of, sql_texts_of.
    destruct (List.filter _ _) eqn:E; [done|]. intros [= <- <-].
    split; [by destruct (Etree.get "id" vs) as [[|c r]|]|].
    change (Py.join LFLF (s :: l) = Py.join LFLF
              (List.filter (fun s0 => negb (bool_decide (s0 = "")))
                 ((fun sn => Py.strip (default "" (Etree.text sn)))
                    <$> Etree.child_elems "sql" vs))).
    rewrite <- E. f_equal. f_equal. apply list_fmap_ext. intros i sn _.
    by destruct (Etree.text sn) as [[|c r]|]. }
  intros m m0 out_dir Hmk Hacc Hfree.
  assert (sql_files [] (valuesets_of root)
          = (fun e => ("lv_" +:+ e.1 +:+ ".sql", e.2)) <$> valuesets_of root)
    as Hfiles.
  { unfold sql_files. simpl. apply list_fmap_ext. by intros i [n s] _. }
  assert (Forall (fun e => no_separator e.1 = true) ([] ++ valuesets_of root))
    as Hnames.
  { simpl. eapply Forall_impl; [apply ParseFacts.valuesets_of_clean|].
    intros [n s] Hn. by apply LayoutFacts.clean_no_separator. }
  pose proof (LayoutFacts.sql_files_good _ _ Hnames) as Hgood.
  rewrite Hfiles in Hgood.
  exists (written out_dir (header_of None) m0 (sql_files [] (valuesets_of root))).
  split; [|split].
  - rewrite (LayoutFacts.write_sql_otbi_ok m m0 out_dir [] (valuesets_of root)
               None); [|done| |done|].
    + rewrite Hfiles. by rewrite <- list_fmap_compose.
    + rewrite Hfiles. by apply Forall_fmap.
    + rewrite Hfiles. by apply Forall_fmap.
  - apply Forall_forall. intros e He.
    assert (good_name ("lv_" +:+ e.1 +:+ ".sql") = true) as Hg.
    { rewrite Forall_fmap, Forall_forall in Hgood. by apply (Hgood e). }
    destruct (LayoutFacts.child_facts out_dir _ Hg) as [Hpar Hname].
    split; [done|]. split; [done|].
    assert (("lv_" +:+ e.1 +:+ ".sql", e.2)
              ∈ (fun e => ("lv_" +:+ e.1 +:+ ".sql", e.2)) <$> valuesets_of root)
      as Hin.
    { apply list_elem_of_fmap. by exists e. }
    destruct (LayoutFacts.last_with_name _ _ _ Hin)
      as (l1 & sql & l2 & El & Hl2).
    exists sql. split.
    + assert (("lv_" +:+ e.1 +:+ ".sql", sql)
                ∈ (fun e => ("lv_" +:+ e.1 +:+ ".sql", e.2))
                    <$> valuesets_of root) as Hin'.
      { rewrite El. apply elem_of_app. right. by left. }
      apply list_elem_of_fmap in Hin' as ([n' s'] & [= Hn ->] & Hin').
      apply String.app_inj, LayoutFacts.sql_name_inj in Hn. simpl in Hn.
      by rewrite Hn.
    + rewrite Hfiles, El.
      rewrite (WriteFacts.written_last out_dir (header_of None) m0 l1
                 ("lv_" +:+ e.1 +:+ ".sql") sql l2); [done|].
      rewrite El in Hgood. apply Forall_app in Hgood as [_ Hg2].
      apply Forall_cons in Hg2 as [_ Hg2].
      rewrite Forall_forall in Hg2, Hl2. apply Forall_forall. intros g Hgin.
      apply LayoutFacts.child_ne; auto.
  - intros p Hp. apply WriteFacts.written_other. rewrite Hfiles.
    apply Forall_fmap, Forall_forall. intros e He. simpl.
    intros E. by apply (Hp e He).
Qed.

(** X6. Whatever [parse_datamodel_xdm] returns is ready for the writer:
    every dataset name and value-set id is a clean name (so it holds no
    path separator and is never empty), and every SQL text is non-empty
    and has no white space at either end, so that the [strip] of
    [write_sql_otbi] leaves it as it is. *)
Theorem parse_datamodel_xdm_output (m : fs) (xdm_path : Path)
    (datasets valuesets : list (string * string)) :
  parse_datamodel_xdm m xdm_path = Some (datasets, valuesets) ->
  Forall (fun e => is_clean e.1 = true /\ e.2 <> "" /\ Py.strip e.2 = e.2)
         (datasets ++ valuesets).
Proof.
  unfold parse_datamodel_xdm.
  destruct (Fs.read m xdm_path) as [[| root|]|]; try done.
  intros [= <- <-]. apply Forall_app.
  rewrite ParseFacts.datasets_of_eq, ParseFacts.valuesets_of_eq.
  split; apply ParseMore.entries_ok.
Qed.

Lemma parse_datamodel_xdm_output_witness :
  let doc :=
    Element "dataModel" [] None
      [Element "dataSets" [] None
         [Element "dataSet" [("name", "G 1")] None
            [Element "sql" [] (Some "  select 1  ") [];
             Element "sql" [] (Some " from dual ") []]];
       Element "valueSets" [] None
         [Element "valueSet" [("id", "LOV/1")] None
            [Element "sql" [] (Some " select 2 ") []]]] in
  let m : fs := {[ Path.of_str "/t/x_datamodel.xdm" := File (Xml doc) ]} in
  parse_datamodel_xdm m (Path.of_str "/t/x_datamodel.xdm")
  = Some ([("G_1", "select 1" +:+ LFLF +:+ "from dual")], [("LOV_1", "select 2")])
  /\ Forall (fun e => is_clean e.1 = true /\ e.2 <> "" /\ Py.strip e.2 = e.2)
            [("G_1", "select 1" +:+ LFLF +:+ "from dual"); ("LOV_1", "select 2")].
Proof.
  intros doc m.
  assert (parse_datamodel_xdm m (Path.of_str "/t/x_datamodel.xdm")
          = Some ([("G_1", "select 1" +:+ LFLF +:+ "from dual")],
                  [("LOV_1", "select 2")])) as E
    by (vm_compute; reflexivity).
  split; [exact E|].
  exact (parse_datamodel_xdm_output m _ _ _ E).
Defined.

(** ** Registering models and matching reports *)

Module MatchMore.
Import Py PyFacts PathFacts WalkFacts MatchFacts.

(** The walk starts with the folder itself. *)
Lemma walk_head p :
  anchored p = false ->
  exists rest, walk_up_rel_paths p = Path.as_posix p :: rest.
Proof.
  intros Ha. rewrite walk_up_rel_paths_eq by done.
  destruct p as [a ns]. pose proof (ancestors_head a ns) as H.
  destruct (ancestors (mkPath a ns)) as [|q qs]; simplify_eq/=. by eexists.
Qed.

Lemma match_report_url scoped_map global_map rel_parent url :
  url <> "" ->
  match_report scoped_map global_map rel_parent (Some url)
  = match first_scoped scoped_map (stem_of_url url)
            (walk_up_rel_paths rel_parent) with
    | Some model_root => Some model_root
    | None => global_map !! stem_of_url url
    end.
Proof. by destruct url. Qed.

End MatchMore.



(** X8. Two model bundles with the same stem (letter case apart): the
    reports of the folder of the second go to the second; the reports of
    the folder of the first go to the first when the folders differ and
    to the second when they are the same folder, the later registration
    replacing the earlier; and a report that finds no registered scope on
    its way up goes to the second, the global entry being the last one
    registered. *)
Theorem same_stem_models
    (maps : gmap (string * string) Path * gmap string Path)
    (rp1 rp2 : Path) (n1 n2 : string) (r1 r2 : Path) (url : string) :
  anchored rp1 = false -> anchored rp2 = false ->
  url <> "" ->
  Py.lower (Path.stem_of_name n1) = stem_of_url url ->
  Py.lower (Path.stem_of_name n2) = stem_of_url url ->
  let maps' := register_model rp2 n2 r2 (register_model rp1 n1 r1 maps) in
  match_report maps'.1 maps'.2 rp2 (Some url) = Some r2
  /\ (Path.as_posix rp1 <> Path.as_posix rp2 ->
      match_report maps'.1 maps'.2 rp1 (Some url) = Some r1)
  /\ (Path.as_posix rp1 = Path.as_posix rp2 ->
      match_report maps'.1 maps'.2 rp1 (Some url) = Some r2)
  /\ (forall other,
        Forall (fun s => maps'.1 !! (s, stem_of_url url) = None)
               (walk_up_rel_paths other) ->
        match_report maps'.1 maps'.2 other (Some url) = Some r2).
Proof.
  intros Ha1 Ha2 Hurl H1 H2 maps'.
  assert (maps'.1 !! (Path.as_posix rp2, stem_of_url url) = Some r2) as Hs2.
  { simpl. by rewrite H2, lookup_insert_eq. }
  assert (maps'.2 !! stem_of_url url = Some r2) as Hg.
  { simpl. by rewrite H2, lookup_insert_eq. }
  split; [|split; [|split]].
  - rewrite MatchMore.match_report_url by done.
    destruct (MatchMore.walk_head rp2 Ha2) as [rest ->]. simpl.
    by rewrite H2, lookup_insert_eq.
  - intros Hne. rewrite MatchMore.match_report_url by done.
    destruct (MatchMore.walk_head rp1 Ha1) as [rest ->]. simpl.
    rewrite H2, lookup_insert_ne by congruence.
    by rewrite H1, lookup_insert_eq.
  - intros E. rewrite MatchMore.match_report_url by done.
    destruct (MatchMore.walk_head rp1 Ha1) as [rest ->]. simpl.
    by rewrite E, H2, lookup_insert_eq.
  - intros other Hnone. rewrite MatchMore.match_report_url by done.
    by rewrite MatchFacts.first_scoped_miss.
Qed.

Lemma same_stem_models_witness :
  let maps' := register_model (Path.of_str "B") "m.xdmz" (Path.of_str "/o/B/m")
                 (register_model (Path.of_str "A") "M.xdmz"
                    (Path.of_str "/o/A/M") (∅, ∅)) in
  match_report maps'.1 maps'.2 (Path.of_str "A") (Some "x/M.xdm")
  = Some (Path.of_str "/o/A/M")
  /\ match_report maps'.1 maps'.2 (Path.of_str "C") (Some "x/M.xdm")
     = Some (Path.of_str "/o/B/m").
Proof.
  destruct (same_stem_models (∅, ∅) (Path.of_str "A") (Path.of_str "B")
              "M.xdmz" "m.xdmz" (Path.of_str "/o/A/M") (Path.of_str "/o/B/m")
              "x/M.xdm")
    as (_ & HA & _ & HC);
    [reflexivity|reflexivity|discriminate|vm_compute; reflexivity
    |vm_compute; reflexivity|].
  split.
  - apply HA. vm_compute. discriminate.
  - apply HC. vm_compute. repeat constructor.
Defined.

(** ** Unique folders *)

Module UniqueMore.
Import Py PyFacts PathFacts WalkFacts FsFacts UniqueSubdir MkdirFacts.

(** One call under an existing parent: the folder the call goes for is a
    free child of the parent, named by the sanitized name or one of its
    numbered variants; the call creates it and changes nothing else, or
    raises when the file system refuses its name. *)
Lemma unique_subdir_outcome (m : fs) parent name :
  Fs.is_dir m parent = true ->
  exists t,
    unique_subdir m parent name
    = (if Fs.accepts (Path.name t) then Some (<[t := Dir]> m, t) else None)
    /\ m !! t = None /\ Path.parent t = parent /\ names t <> []
    /\ exists i, i <= S (size m)
                 /\ Path.name t = (if i is 0 then safe_name name
                                   else numbered (safe_name name) i).
Proof.
  intros Hd. destruct (safe_name_good name) as [Hg _].
  destruct (choose_and_create parent _ Hg m Hd)
    as (t & Ht & Hfree & Hmk & Hshape).
  exists t. unfold unique_subdir. rewrite Ht. simpl. rewrite Hmk.
  split; [by destruct (Fs.accepts _)|].
  split; [by apply exists_false_lookup|].
  assert (forall n, good_name n = true ->
            Path.parent (parent // n) = parent /\ names (parent // n) <> [])
    as Hchild.
  { intros n Hn. rewrite div_good by done. unfold Path.parent. simpl.
    rewrite removelast_last. split; [by destruct parent|].
    by destruct (names parent). }
  destruct Hshape as [->|(k & Hk & ->)].
  - destruct (Hchild _ Hg) as [? ?]. split; [done|]. split; [done|].
    exists 0. split; [lia|]. by apply first_name.
  - destruct (Hchild _ (numbered_good _ k Hg)) as [? ?].
    split; [done|]. split; [done|].
    exists k. split; [lia|]. rewrite mk_name by done.
    destruct k; [lia|done].
Qed.

(** With a name the file system accepts with the numbers the loop may
    append, the call succeeds. *)
Lemma unique_subdir_child (m : fs) parent name :
  Fs.is_dir m parent = true ->
  (forall i, i <= S (size m) ->
             Fs.accepts (numbered (safe_name name) i) = true) ->
  exists t,
    unique_subdir m parent name = Some (<[t := Dir]> m, t)
    /\ m !! t = None /\ Path.parent t = parent /\ names t <> [].
Proof.
  intros Hd Hacc.
  destruct (unique_subdir_outcome m parent name Hd)
    as (t & E & H1 & H2 & H3 & i & Hi & Hn).
  rewrite Hn, (accepts_candidate _ (S (size m))) in E by done.
  by exists t.
Qed.

(** A call that returns has created a free child of the parent and
    changed nothing else. *)
Lemma unique_subdir_Some (m m' : fs) parent name t :
  Fs.is_dir m parent = true ->
  unique_subdir m parent name = Some (m', t) ->
  m' = <[t := Dir]> m
  /\ m !! t = None /\ Path.parent t = parent /\ names t <> [].
Proof.
  intros Hd H.
  destruct (unique_subdir_outcome m parent name Hd)
    as (t' & E & H1 & H2 & H3 & _).
  rewrite E in H. destruct (Fs.accepts _); [|done].
  by injection H as <- <-.
Qed.

Lemma unique_subdirs_from parent names : forall (m : fs) dirs0,
  Fs.is_dir m parent = true ->
  Forall (fun name =>
            forall i, i <= size m + length names ->
                      Fs.accepts (numbered (safe_name name) i) = true)
         names ->
  exists m' dirs,
    foldl (fun st name =>
             '(m, dirs) ← st;
             '(m', d) ← unique_subdir m parent name;
             Some (m', dirs ++ [d]))
          (Some (m, dirs0)) names = Some (m', dirs0 ++ dirs)
    /\ length dirs = length names
    /\ NoDup dirs
    /\ Forall (fun d => m !! d = None /\ m' !! d = Some Dir
                        /\ Path.parent d = parent) dirs
    /\ (forall p, p ∉ dirs -> m' !! p = m !! p).
Proof.
  induction names as [|name names IH]; intros m dirs0 Hd Hacc.
  - exists m, []. rewrite app_nil_r. split; [done|]. split; [done|].
    split; [constructor|]. split; [constructor|done].
  - apply Forall_cons in Hacc as [Hacc1 Hacc]. simpl in Hacc1, Hacc.
    destruct (unique_subdir_child m parent name Hd)
      as (t & Et & Hnone & Hpar & Hne).
    { intros i Hi. apply Hacc1. lia. }
    assert (Fs.is_dir (<[t := Dir]> m) parent = true) as Hd'.
    { rewrite is_dir_insert_Dir, Hd. apply orb_true_r. }
    destruct (IH (<[t := Dir]> m) (dirs0 ++ [t]) Hd')
      as (m' & dirs & E & Hlen & Hnd & Hall & Hframe).
    { rewrite map_size_insert_None by done.
      eapply Forall_impl; [exact Hacc|]. intros n Hn i Hi. apply Hn. lia. }
    exists m', (t :: dirs). simpl. rewrite Et. simpl. rewrite E.
    rewrite <- app_assoc. split; [done|]. split; [simpl; lia|].
    assert (t ∉ dirs) as Hnotin.
    { intros Hin. rewrite Forall_forall in Hall.
      destruct (Hall t Hin) as (H1 & _). by rewrite lookup_insert_eq in H1. }
    split; [by constructor|]. split.
    + constructor.
      * split; [done|]. split; [|done].
        by rewrite Hframe, lookup_insert_eq.
      * eapply Forall_impl; [exact Hall|]. intros d (H1 & H2 & H3).
        split; [|done]. destruct (decide (t = d)) as [->|Hne'].
        -- by rewrite lookup_insert_eq in H1.
        -- by rewrite lookup_insert_ne in H1.
    + intros p Hp. apply not_elem_of_cons in Hp as [Hpt Hp].
      by rewrite Hframe, lookup_insert_ne.
Qed.

End UniqueMore.

(** X9. Called once for each name of a list under a parent that is a
    directory, and when the file system accepts each sanitized name with
    the numbers the calls may come to append, [unique_subdir] always
    succeeds and returns as many folders as names, pairwise distinct even
    when names repeat or sanitize to the same name; each is a child of
    the parent that did not exist before and is a directory afterwards,
    and nothing else in the file system changes. *)
Theorem unique_subdirs_distinct (m : fs) (parent : Path)
    (names : list string) :
  Fs.is_dir m parent = true ->
  Forall (fun name =>
            forall i, i <= size m + length names ->
                      Fs.accepts (numbered (safe_name name) i) = true)
         names ->
  exists m' dirs,
    unique_subdirs m parent names = Some (m', dirs)
    /\ length dirs = length names
    /\ NoDup dirs
    /\ Forall (fun d => m !! d = None /\ m' !! d = Some Dir
                        /\ Path.parent d = parent) dirs
    /\ (forall p, p ∉ dirs -> m' !! p = m !! p).
Proof.
  intros Hd Hacc.
  destruct (UniqueMore.unique_subdirs_from parent names m [] Hd Hacc)
    as (m' & dirs & E & H). by exists m', dirs.
Qed.

Lemma unique_subdirs_distinct_witness :
  let m : fs := {[ Path.of_str "/out" := Dir ]} in
  let dirs := [Path.of_str "/out/a_b"; Path.of_str "/out/a_b_1";
               Path.of_str "/out/a_b_2"] in
  (exists m',
     unique_subdirs m (Path.of_str "/out") ["a b"; "a_b"; "a/b"]
     = Some (m', dirs))
  /\ NoDup dirs.
Proof.
  intros m dirs.
  assert (Forall (fun name =>
                    forall i, i <= size m + length ["a b"; "a_b"; "a/b"] ->
                              Fs.accepts (numbered (safe_name name) i) = true)
            ["a b"; "a_b"; "a/b"]) as Hacc.
  { unfold m. rewrite map_size_singleton.
    repeat constructor; intros i Hi;
      do 5 (destruct i as [|i]; [reflexivity|]); simpl in Hi; lia. }
  destruct (unique_subdirs_distinct m (Path.of_str "/out")
              ["a b"; "a_b"; "a/b"])
    as (m' & dirs' & E & _ & Hnd & _); [reflexivity|exact Hacc|].
  assert (unique_subdirs m (Path.of_str "/out") ["a b"; "a_b"; "a/b"]
          = Some (<[Path.of_str "/out/a_b_2" := Dir]>
                    (<[Path.of_str "/out/a_b_1" := Dir]>
                       (<[Path.of_str "/out/a_b" := Dir]> m)), dirs)) as E'
    by reflexivity.
  split; [eexists; exact E'|].
  rewrite E' in E. injection E as _ <-. exact Hnd.
Defined.

Module UniqueEdge.
Import Py PyFacts PathFacts WalkFacts FsFacts UniqueSubdir MkdirFacts.

(** In a well-formed file system nothing lies in a folder that is not a
    directory. *)
Lemma no_child_without_dir (m : fs) parent n :
  fs_wf m -> good_name n = true -> Fs.is_dir m parent = false ->
  Fs.exists_ m (parent // n) = false.
Proof.
  intros Hwf Hn Hd. rewrite div_good by done. unfold Fs.exists_. simpl.
  rewrite bool_decide_eq_false_2 by by destruct (names parent).
  simpl. apply bool_decide_eq_false. intros [nd Hnd].
  destruct (Hwf _ _ Hnd) as [_ Hpar]. unfold Path.parent in Hpar.
  simpl in Hpar. rewrite removelast_last in Hpar.
  destruct parent as [a ns]. simpl in *. congruence.
Qed.

End UniqueEdge.

(** X10. [unique_subdir] under a parent that is not there yet, in a
    well-formed file system: when the parent can be created, it is
    created with the folders above it, and the folder returned is the one
    with the sanitized name itself, unless the file system refuses that
    name, in which case the call raises; when the parent is a regular
    file, the call fails with the exception of [mkdir]. *)
Theorem unique_subdir_missing_parent (m : fs) (parent : Path)
    (name : string) :
  fs_wf m ->
  Fs.is_dir m parent = false ->
  (forall m0,
     Fs.mkdir_p m parent = Some m0 ->
     unique_subdir m parent name
     = (if Fs.accepts (safe_name name)
        then Some (<[parent // safe_name name := Dir]> m0,
                   parent // safe_name name)
        else None)
     /\ Fs.is_dir m0 parent = true)
  /\ (forall d, m !! parent = Some (File d) ->
                unique_subdir m parent name = None).
Proof.
  intros Hwf Hd. destruct (PathFacts.safe_name_good name) as [Hg _].
  pose proof (UniqueEdge.no_child_without_dir m parent _ Hwf Hg Hd) as Hfree.
  assert (unique_subdir m parent name
          = m' ← Fs.mkdir_p m (parent // safe_name name);
            Some (m', parent // safe_name name)) as E.
  { unfold unique_subdir. by rewrite FsFacts.while_exists_first by done. }
  rewrite E. rewrite PathFacts.div_good by done.
  destruct parent as [a ns]. simpl names in *. simpl anchored in *.
  rewrite MkdirFacts.mkdir_p_snoc.
  rewrite PathFacts.div_good in Hfree by done. simpl in Hfree.
  rewrite (FsFacts.exists_false_lookup _ _ Hfree). split.
  - intros m0 Hm0. rewrite Hm0. simpl.
    split; [by destruct (Fs.accepts _)|].
    by eapply LayoutFacts.mkdir_p_is_dir.
  - intros d Hfile.
    assert (Fs.mkdir_p m (mkPath a ns) = None) as ->; [|done].
    unfold Fs.mkdir_p. simpl. unfold Fs.is_dir in Hd. simpl in Hd.
    apply orb_false_iff in Hd as [Hne _].
    apply bool_decide_eq_false in Hne.
    destruct ns as [|x ns _] using rev_ind; [done|].
    rewrite rev_app_distr. simpl. rewrite rev_involutive.
    by rewrite Hfile.
Qed.

Lemma unique_subdir_missing_parent_witness :
  let m : fs := {[ Path.of_str "/out" := Dir;
                   Path.of_str "/out/f" := File (Bytes "x") ]} in
  unique_subdir m (Path.of_str "/out/a/b") "M 1"
  = Some (<[Path.of_str "/out/a/b/M_1" := Dir]>
            (<[Path.of_str "/out/a/b" := Dir]>
               (<[Path.of_str "/out/a" := Dir]> m)),
          Path.of_str "/out/a/b/M_1")
  /\ unique_subdir m (Path.of_str "/out/f") "M 1" = None.
Proof.
  intros m.
  assert (fs_wf m) as Hwf.
  { apply (bool_decide_unpack _). exact I. }
  split.
  - destruct (unique_subdir_missing_parent m (Path.of_str "/out/a/b") "M 1"
                Hwf) as [H _]; [reflexivity|].
    destruct (H (<[Path.of_str "/out/a/b" := Dir]>
                   (<[Path.of_str "/out/a" := Dir]> m))) as [E _];
      [reflexivity|].
    exact E.
  - destruct (unique_subdir_missing_parent m (Path.of_str "/out/f") "M 1"
                Hwf) as [_ H]; [reflexivity|].
    apply (H (Bytes "x")). reflexivity.
Defined.

(** ** Creating folders, extracting and packaging *)

Module FrameFacts.
Import Py PyFacts PathFacts WalkFacts FsFacts LayoutFacts MkdirFacts.

(** [mkdir_p] only adds directories, on the way down to its target. *)
Lemma mkdir_p_effect (m : fs) p m1 :
  Fs.mkdir_p m p = Some m1 ->
  forall k,
    m1 !! k = m !! k
    \/ (m !! k = None /\ m1 !! k = Some Dir
        /\ exists e, e <> [] /\ e `prefix_of` names p
                     /\ k = mkPath (anchored p) e).
Proof.
  destruct p as [a ns]. intros H k.
  by apply (mkdir_p_below_effect m a [] ns m1).
Qed.

Lemma mkdir_p_read (m : fs) p m1 q :
  Fs.mkdir_p m p = Some m1 -> Fs.read m1 q = Fs.read m q.
Proof.
  intros H. unfold Fs.read.
  destruct (mkdir_p_effect m p m1 H q) as [->|(-> & -> & _)]; done.
Qed.

Lemma is_dir_mono (m m1 : fs) p :
  m ⊆ m1 -> Fs.is_dir m p = true -> Fs.is_dir m1 p = true.
Proof.
  intros Hsub. unfold Fs.is_dir. intros [H|H]%orb_true_iff.
  - by rewrite H.
  - destruct (m !! p) as [[|]|] eqn:E; try done.
    rewrite (lookup_weaken _ _ _ _ E Hsub). apply orb_true_r.
Qed.

Lemma exists_mono (m m1 : fs) p :
  m ⊆ m1 -> Fs.exists_ m p = true -> Fs.exists_ m1 p = true.
Proof.
  intros Hsub. unfold Fs.exists_. intros [H|H]%orb_true_iff.
  - by rewrite H.
  - apply bool_decide_eq_true in H as [x E].
    rewrite (lookup_weaken _ _ _ _ E Hsub).
    rewrite (bool_decide_eq_true_2 (is_Some (Some x))) by by eexists.
    apply orb_true_r.
Qed.

(** A path at or below [dest]. *)
Lemma relative_to_below a nd q :
  Path.relative_to (mkPath a (nd ++ q)) (mkPath a nd) = Some (mkPath false q).
Proof.
  unfold Path.relative_to. simpl. rewrite bool_decide_eq_true_2 by done.
  by rewrite strip_prefix_app.
Qed.

End FrameFacts.

Module ConfineFacts.
Import Py PyFacts PathFacts WalkFacts FsFacts LayoutFacts MkdirFacts
       WriteFacts FrameFacts.

(** One member: the destination and its parent stay directories, and
    nothing changes outside the destination. *)
Lemma extract_member_frame dest (mc m2 : fs) member :
  Fs.is_dir mc dest = true ->
  Fs.is_dir mc (Path.parent dest) = true ->
  extract_member dest (Some mc) member = Some m2 ->
  Fs.is_dir m2 dest = true
  /\ Fs.is_dir m2 (Path.parent dest) = true
  /\ forall p, Path.relative_to p dest = None -> m2 !! p = mc !! p.
Proof.
  intros Hd Hpd. destruct member as [name data]. unfold extract_member.
  simpl. destruct dest as [a nd]. simpl anchored. simpl names.
  destruct (Zipfile.member_parts name) as [|x ps _] using rev_ind.
  - rewrite app_nil_r. rewrite (mkdir_p_dir mc) by done. simpl.
    destruct (endswith name "/").
    + rewrite mkdir_p_dir by done. by intros [= <-].
    + unfold Fs.write. rewrite Hd. by rewrite andb_false_r.
  - unfold Path.parent at 1. simpl names. simpl anchored.
    rewrite app_assoc, removelast_last.
    destruct (Fs.mkdir_p mc (mkPath a (nd ++ ps))) as [m1|] eqn:E1; [|done].
    simpl.
    pose proof (mkdir_p_subseteq _ _ _ E1) as Hsub1.
    pose proof (mkdir_p_below_effect mc a nd ps m1 Hd E1) as Heff1.
    assert (forall p, Path.relative_to p (mkPath a nd) = None ->
                      m1 !! p = mc !! p) as Hfr1.
    { intros p Hp. destruct (Heff1 p) as [?|(_ & _ & e & _ & _ & ->)];
        [done|].
      by rewrite (relative_to_below a nd e) in Hp. }
    assert (Path.relative_to (mkPath a ((nd ++ ps) ++ [x])) (mkPath a nd)
            = Some (mkPath false (ps ++ [x]))) as Hbelow.
    { rewrite <- app_assoc. apply relative_to_below. }
    destruct (endswith name "/").
    + intros E2. pose proof (mkdir_p_subseteq _ _ _ E2) as Hsub2.
      split; [by eapply is_dir_mono, is_dir_mono|].
      split; [by eapply is_dir_mono, is_dir_mono|].
      intros p Hp. rewrite <- Hfr1 by done.
      rewrite <- app_assoc in E2.
      destruct (mkdir_p_below_effect m1 a nd (ps ++ [x]) m2
                  (is_dir_mono _ _ _ Hsub1 Hd) E2 p)
        as [?|(_ & _ & e & _ & _ & ->)]; [done|].
      by rewrite (relative_to_below a nd e) in Hp.
    + unfold Fs.write. destruct (_ && _); [|done]. intros [= <-].
      assert (forall q, Fs.is_dir m1 q = true ->
                mkPath a ((nd ++ ps) ++ [x]) <> q ->
                Fs.is_dir (<[mkPath a ((nd ++ ps) ++ [x]) := File data]> m1) q
                = true) as Hkeep.
      { intros q Hq Hne.
        by destruct (is_dir_insert_File m1 (mkPath a ((nd ++ ps) ++ [x])) q
                       data Hq). }
      split; [|split].
      * apply Hkeep; [by eapply is_dir_mono|]. intros [= E].
        rewrite <- app_assoc in E. rewrite <- (app_nil_r nd) in E at 2.
        apply app_inv_head in E. by destruct ps.
      * apply Hkeep; [by eapply is_dir_mono|]. unfold Path.parent. simpl.
        intros [= E]. apply (f_equal length) in E.
        rewrite !length_app in E. simpl in E.
        destruct nd as [|y nd _] using rev_ind; [simpl in E; lia|].
        rewrite removelast_last, length_app in E. simpl in E. lia.
      * intros p Hp. rewrite lookup_insert_ne; [by apply Hfr1|].
        intros <-. congruence.
Qed.

Lemma extract_members_frame dest members : forall (mc m2 : fs),
  Fs.is_dir mc dest = true ->
  Fs.is_dir mc (Path.parent dest) = true ->
  foldl (extract_member dest) (Some mc) members = Some m2 ->
  forall p, Path.relative_to p dest = None -> m2 !! p = mc !! p.
Proof.
  induction members as [|member members IH]; intros mc m2 Hd Hpd H p Hp.
  - by injection H as <-.
  - change (foldl (extract_member dest)
              (extract_member dest (Some mc) member) members = Some m2) in H.
    destruct (extract_member dest (Some mc) member) as [m1|] eqn:E.
    + destruct (extract_member_frame dest mc m1 member Hd Hpd E)
        as (Hd1 & Hpd1 & Hfr).
      rewrite (IH m1 m2 Hd1 Hpd1 H p Hp). by apply Hfr.
    + exfalso. clear -H. induction members as [|x l IHl]; [done|].
      by apply IHl.
Qed.

End ConfineFacts.

(** X11. [extract_ziplike] writes at or below its destination only:
    whatever the member names of the archive are (absolute names, names
    with [".."] in them), every path that does not lie at or below
    [dest_dir] is after the extraction what it was once [dest_dir] had
    been created. *)
Theorem extract_ziplike_confined (m m0 m' : fs) (file_obj : content)
    (dest_dir : Path) :
  Fs.mkdir_p m dest_dir = Some m0 ->
  Fs.is_dir m0 (Path.parent dest_dir) = true ->
  extract_ziplike m file_obj dest_dir = Some m' ->
  forall p, Path.relative_to p dest_dir = None -> m' !! p = m0 !! p.
Proof.
  intros Hmk Hpar. unfold extract_ziplike. rewrite Hmk. simpl.
  destruct file_obj as [| |members]; try done. intros H p Hp.
  apply (ConfineFacts.extract_members_frame dest_dir members m0 m');
    [by eapply LayoutFacts.mkdir_p_is_dir|done..].
Qed.

Lemma extract_ziplike_confined_witness :
  let m : fs := {[ Path.of_str "/etc" := Dir;
                   Path.of_str "/etc/passwd" := File (Bytes "root");
                   Path.of_str "/tmp" := Dir ]} in
  let evil := Zip [("../../etc/passwd", Bytes "x"); ("/etc/shadow", Bytes "y")] in
  let m0 : fs := <[Path.of_str "/tmp/src" := Dir]> m in
  let m' : fs :=
    <[Path.of_str "/tmp/src/etc/shadow" := File (Bytes "y")]>
      (<[Path.of_str "/tmp/src/etc/passwd" := File (Bytes "x")]>
         (<[Path.of_str "/tmp/src/etc" := Dir]> m0)) in
  extract_ziplike m evil (Path.of_str "/tmp/src") = Some m'
  /\ m' !! Path.of_str "/etc/passwd" = m0 !! Path.of_str "/etc/passwd"
  /\ m' !! Path.of_str "/etc/shadow" = m0 !! Path.of_str "/etc/shadow".
Proof.
  intros m evil m0 m'.
  assert (extract_ziplike m evil (Path.of_str "/tmp/src") = Some m') as E
    by reflexivity.
  assert (Fs.mkdir_p m (Path.of_str "/tmp/src") = Some m0) as H1
    by reflexivity.
  assert (Fs.is_dir m0 (Path.parent (Path.of_str "/tmp/src")) = true) as H2
    by reflexivity.
  pose proof (extract_ziplike_confined m m0 m' evil (Path.of_str "/tmp/src")
                H1 H2 E) as H.
  split; [exact E|]. split; apply H; reflexivity.
Defined.

Module ZipMore.
Import Py PyFacts PathFacts WalkFacts FsFacts LayoutFacts ZipFacts MkdirFacts
       RoundTrip.

Lemma NoDup_omap_inj {A B C} (f : A -> option B) (g : B -> C) (l : list A) :
  NoDup l ->
  (forall x y b b', x ∈ l -> y ∈ l -> f x = Some b -> f y = Some b' ->
                    g b = g b' -> x = y) ->
  NoDup (g <$> omap f l).
Proof.
  induction 1 as [|x l Hx Hnd IH]; intros Hinj; [constructor|].
  simpl. destruct (f x) as [b|] eqn:E.
  - rewrite fmap_cons. constructor.
    + intros Hin. apply list_elem_of_fmap in Hin as (b' & Hg & Hin).
      apply list_elem_of_omap in Hin as (y & Hy & Ey).
      assert (x = y) as ->; [|done].
      eapply Hinj; eauto; by constructor.
    + apply IH. intros y z b1 b2 Hy Hz. apply Hinj; by constructor.
  - apply IH. intros y z b1 b2 Hy Hz. apply Hinj; by constructor.
Qed.

(** Relative paths with file names are told apart by their POSIX
    form. *)
Lemma as_posix_inj r1 r2 :
  r1 <> [] -> r2 <> [] ->
  forallb file_name r1 = true -> forallb file_name r2 = true ->
  Path.as_posix (mkPath false r1) = Path.as_posix (mkPath false r2) ->
  r1 = r2.
Proof.
  intros H1 H2 W1 W2 E.
  rewrite <- (member_parts_as_posix r1), <- (member_parts_as_posix r2) by done.
  by rewrite E.
Qed.

Lemma zip_folder_eq (m : fs) folder :
  zip_folder m folder
  = Zip ((fun '(rel, data) => (Path.as_posix rel, data))
           <$> walk_files m folder).
Proof. reflexivity. Qed.

Lemma elem_of_members (m : fs) folder n d :
  (n, d) ∈ (fun '(rel, data) => (Path.as_posix rel, data))
             <$> walk_files m folder <->
  exists rel, rel <> [] /\ n = Path.as_posix (mkPath false rel)
              /\ file_at m folder rel = Some d.
Proof.
  rewrite list_elem_of_fmap. split.
  - intros ([rel d'] & [= -> ->] & Hin).
    apply elem_of_walk_files in Hin as (Ha & Hne & E).
    exists (names rel). split; [done|]. split.
    + destruct rel as [a ns]. simpl in *. by subst.
    + unfold file_at, Fs.read. by rewrite E.
  - intros (rel & Hne & -> & E). exists (mkPath false rel, d).
    split; [done|]. apply elem_of_walk_files. simpl.
    split; [done|]. split; [done|]. unfold file_at, Fs.read in E.
    by destruct (m !! _) as [[|?]|]; simplify_eq.
Qed.

Lemma members_NoDup (m : fs) folder :
  fs_wf m ->
  NoDup (Zipfile.namelist ((fun '(rel, data) => (Path.as_posix rel, data))
                             <$> walk_files m folder)).
Proof.
  intros Hwf. unfold Zipfile.namelist. rewrite <- list_fmap_compose.
  unfold walk_files. apply NoDup_omap_inj; [apply NoDup_map_to_list|].
  intros [p nd] [p' nd'] [rel d] [rel' d'] Hin Hin' Hf Hf' E. simpl in E.
  apply elem_of_map_to_list in Hin, Hin'.
  destruct nd as [|data]; [done|]. destruct nd' as [|data']; [done|].
  unfold Path.relative_to in Hf, Hf'.
  repeat case_bool_decide; try done.
  destruct (Path.strip_prefix _ (names p)) as [r|] eqn:Er; [|done].
  destruct (Path.strip_prefix _ (names p')) as [r'|] eqn:Er'; [|done].
  simpl in Hf, Hf'. repeat case_bool_decide; try done.
  injection Hf as <- <-. injection Hf' as <- <-.
  apply strip_prefix_Some in Er, Er'.
  assert (p = mkPath (anchored folder) (names folder ++ r)) as Hp
    by (destruct p; simpl in *; congruence).
  assert (p' = mkPath (anchored folder) (names folder ++ r')) as Hp'
    by (destruct p'; simpl in *; congruence).
  subst p p'.
  assert (r = r') as ->.
  { apply as_posix_inj; try done.
    - by eapply folder_files_names.
    - by eapply folder_files_names. }
  rewrite Hin in Hin'. by injection Hin' as ->.
Qed.

End ZipMore.

(** X12. The archive [zip_folder] builds from a folder of a well-formed
    file system has one member for each regular file below the folder,
    named by the POSIX form of the file's path relative to the folder and
    holding the file's content, and no other member: no two members
    share a name, no member stands for a directory, and a folder without
    any file below it, empty directories included, gives the empty
    archive. *)
Theorem zip_folder_members (m : fs) (folder : Path) :
  fs_wf m ->
  exists members,
    zip_folder m folder = Zip members
    /\ NoDup (Zipfile.namelist members)
    /\ (forall n d,
          (n, d) ∈ members <->
          exists rel, rel <> [] /\ n = Path.as_posix (mkPath false rel)
                      /\ file_at m folder rel = Some d)
    /\ Forall (fun n => Py.endswith n "/" = false
                        /\ Py.startswith n "/" = false)
              (Zipfile.namelist members)
    /\ ((forall rel, rel <> [] -> file_at m folder rel = None) ->
        members = []).
Proof.
  intros Hwf. eexists. split; [apply ZipMore.zip_folder_eq|].
  split; [by apply ZipMore.members_NoDup|].
  split; [apply ZipMore.elem_of_members|]. split.
  - apply Forall_forall. intros n Hin. unfold Zipfile.namelist in Hin.
    apply list_elem_of_fmap in Hin as ([n' d] & -> & Hin). simpl.
    apply ZipMore.elem_of_members in Hin as (rel & Hne & -> & E).
    assert (forallb file_name rel = true) as Hrel.
    { unfold file_at, Fs.read in E.
      destruct (m !! _) as [[|d']|] eqn:E'; try done.
      by eapply RoundTrip.folder_files_names. }
    split; [by apply ZipFacts.as_posix_not_dir|].
    unfold Path.as_posix. simpl. destruct rel as [|x rel]; [done|].
    simpl in Hrel. apply andb_true_iff in Hrel as [Hx _].
    destruct (ZipFacts.file_name_facts x Hx) as (Hg & _).
    destruct (PathFacts.good_name_facts x Hg) as (_ & Hne' & _ & Hs).
    destruct x as [|c x]; [done|]. simpl in Hs.
    assert (bool_decide ("/"%char = c) = false) as Hc.
    { destruct (bool_decide ("/"%char = c)); [|done]. by destruct x. }
    destruct rel; simpl; [by rewrite Hc|].
    by rewrite PyFacts.append_cons; simpl; rewrite Hc.
  - intros Hnone.
    destruct ((fun '(rel, data) => (Path.as_posix rel, data))
                <$> walk_files m folder) as [|[n d] l] eqn:E; [done|].
    exfalso.
    assert ((n, d) ∈ (fun '(rel, data) => (Path.as_posix rel, data))
                       <$> walk_files m folder) as Hin
      by (rewrite E; by left).
    apply ZipMore.elem_of_members in Hin as (rel & Hne & _ & Hf).
    by rewrite Hnone in Hf.
Qed.

Lemma zip_folder_members_witness :
  let m : fs := {[ Path.of_str "/o" := Dir;
                   Path.of_str "/o/empty" := Dir;
                   Path.of_str "/o/M" := Dir;
                   Path.of_str "/o/M/q.sql" := File (Bytes "select 1") ]} in
  exists members,
    zip_folder m (Path.of_str "/o") = Zip members
    /\ NoDup (Zipfile.namelist members)
    /\ members = [("M/q.sql", Bytes "select 1")].
Proof.
  intros m.
  assert (fs_wf m) as Hwf.
  { apply (bool_decide_unpack _). vm_compute. exact I. }
  destruct (zip_folder_members m (Path.of_str "/o") Hwf)
    as (members & E & Hnd & _).
  exists members. split; [exact E|]. split; [exact Hnd|].
  assert (zip_folder m (Path.of_str "/o") = Zip [("M/q.sql", Bytes "select 1")])
    as E' by (vm_compute; reflexivity).
  rewrite E' in E. by injection E as <-.
Defined.

(** ** Extracting the templates *)

Module TemplateFacts.
Import Py PyFacts PathFacts WalkFacts FsFacts LayoutFacts MkdirFacts
       LoopFacts FrameFacts.

Lemma zip_read_member members n :
  n ∈ Zipfile.namelist members -> is_Some (Zipfile.read members n).
Proof.
  induction members as [|[n' d] members IH]; simpl.
  - by intros ?%elem_of_nil.
  - intros [->|Hin]%elem_of_cons.
    + destruct (Zipfile.read members n'); [by eexists|].
      rewrite bool_decide_eq_true_2 by done. by eexists.
    + destruct (IH Hin) as [x ->]. by eexists.
Qed.

Lemma is_dir_exists (m : fs) p : Fs.is_dir m p = true -> Fs.exists_ m p = true.
Proof.
  unfold Fs.is_dir, Fs.exists_. intros [H|H]%orb_true_iff.
  - by rewrite H.
  - destruct (m !! p) as [nd|]; [|done].
    rewrite (bool_decide_eq_true_2 (is_Some (Some nd))) by by eexists.
    apply orb_true_r.
Qed.

Lemma div_empty p : p // "" = p.
Proof.
  unfold Path.div, Path.join. simpl. rewrite app_nil_r. by destruct p.
Qed.

(** The name of a path built from a string is empty or a good name. *)
Lemma of_str_name s :
  Path.name (Path.of_str s) = "" \/ good_name (Path.name (Path.of_str s)) = true.
Proof.
  pose proof (of_str_wf s) as H. unfold path_wf, Path.name in *.
  destruct (names (Path.of_str s)) as [|x l _] using rev_ind; [by left|].
  right. rewrite last_last. rewrite forallb_app in H.
  apply andb_true_iff in H as [_ H]. simpl in H.
  by rewrite andb_true_r in H.
Qed.

Section copying.
Variable members : list (string * content).
Variable tpl_dir : Path.
Variable m1 : fs.
Hypothesis tpl_name : no_separator (Path.name tpl_dir) = true.

(** One copy: the path chosen is a free child of the folder, named after
    the member or numbered; the copy is made and recorded, unless the
    file system refuses the name, in which case the step raises and
    leaves the state as it was. *)
Lemma copy_template_step b st src :
  copied members tpl_dir m1 st -> src ∈ Zipfile.namelist members ->
  let out := tpl_dir // Path.name (Path.of_str src) in
  exists t data,
    (Path.name t = Path.name out
     \/ exists k : nat,
          k <= S (size st.1)
          /\ Path.name t
             = Path.stem out +:+ "_" +:+ pretty k +:+ Path.suffix out)
    /\ if Fs.accepts (Path.name t)
       then copy_template members tpl_dir b st src
            = Returned (<[t := File data]> st.1, st.2 ++ [t])
            /\ copied members tpl_dir m1 (<[t := File data]> st.1, st.2 ++ [t])
       else copy_template members tpl_dir b st src = Raised st.
Proof.
  intros Hinv Hsrc out0. destruct st as [mc created].
  unfold copied in Hinv |- *. cbn [fst snd] in Hinv |- *.
  destruct Hinv as (Hsub & Hd & Hnd & Hall & Hframe & Hsize).
  unfold copy_template. fold out0.
  assert (no_separator (Path.name out0) = true) as Hout
    by by apply name_div_no_separator.
  apply stem_suffix_no_separator in Hout as [Hb Hs].
  destruct (suffixed_loop_total mc tpl_dir (Path.stem out0) (Path.suffix out0)
              out0 Hb Hs) as [t Ht].
  rewrite Ht.
  pose proof (while_exists_free _ _ _ _ _ _ Ht) as Hfree.
  destruct (zip_read_member members src Hsrc) as [data Hdata].
  rewrite Hdata. exists t, data.
  assert (Path.parent t = tpl_dir
          /\ (Path.name t = Path.name out0
              \/ exists k : nat,
                   k <= S (size mc)
                   /\ Path.name t = Path.stem out0 +:+ "_" +:+ pretty k
                                    +:+ Path.suffix out0)) as [Hpar Hname].
  { apply while_exists_bounded in Ht as [->|(k & Hk & ->)].
    - split; [|by left]. subst out0. destruct (of_str_name src) as [E|Hg].
      + rewrite E, div_empty in Hfree.
        by rewrite (is_dir_exists _ _ Hd) in Hfree.
      + by apply child_facts.
    - destruct (child_facts tpl_dir _ (suffixed_good _ _ k Hb Hs)) as [? ?].
      split; [done|]. right. exists k. split; [lia|done]. }
  split; [done|].
  pose proof (exists_false_lookup _ _ Hfree) as Hnone.
  assert (Fs.is_dir mc t = false) as Hnd'.
  { destruct (Fs.is_dir mc t) eqn:E; [|done].
    by rewrite (is_dir_exists _ _ E) in Hfree. }
  unfold Fs.write. rewrite Hpar, Hd, Hnd'. cbn [negb andb].
  destruct (Fs.accepts (Path.name t)); [|done].
  assert (t ∉ created) as Hnotin.
  { intros Hin. rewrite Forall_forall in Hall.
    destruct (Hall t Hin) as (_ & _ & s & d & _ & _ & E). congruence. }
  rewrite (bool_decide_eq_false_2 (t ∈ created)) by done.
  rewrite andb_false_r. split; [done|].
  split; [|split; [|split; [|split; [|split]]]].
  - etrans; [exact Hsub|]. by apply insert_subseteq.
  - rewrite <- Hd. unfold Fs.is_dir.
    destruct (decide (t = tpl_dir)) as [->|Hne].
    + rewrite Hnd' in Hd. done.
    + by rewrite lookup_insert_ne.
  - apply NoDup_app. split; [done|]. split; [|apply NoDup_singleton].
    intros x Hx ->%list_elem_of_singleton. done.
  - apply Forall_app. split.
    + apply Forall_forall. intros x Hx.
      rewrite Forall_forall in Hall.
      destruct (Hall x Hx) as (H1 & H2 & s & d & H3 & H4 & H5).
      split; [done|]. split; [done|]. exists s, d.
      split; [done|]. split; [done|].
      rewrite lookup_insert_ne; [done|]. intros <-. done.
    + constructor; [|constructor]. split; [done|]. split.
      * by eapply lookup_weaken_None.
      * exists src, data. by rewrite lookup_insert_eq.
  - intros p Hp. apply not_elem_of_app in Hp as [Hp Hpt].
    rewrite lookup_insert_ne; [by apply Hframe|].
    intros <-. apply Hpt. by left.
  - rewrite map_size_insert_None by done. rewrite length_app. simpl. lia.
Qed.

(** Whatever the names, a copy returns with one more file recorded or
    raises with the state unchanged. *)
Lemma copy_template_sound b st src :
  copied members tpl_dir m1 st -> src ∈ Zipfile.namelist members ->
  exists st',
    (copy_template members tpl_dir b st src = Returned st'
     \/ copy_template members tpl_dir b st src = Raised st')
    /\ copied members tpl_dir m1 st'.
Proof.
  intros Hinv Hsrc.
  destruct (copy_template_step b st src Hinv Hsrc) as (t & data & _ & H).
  destruct (Fs.accepts (Path.name t)).
  - destruct H as [E Hinv']. eexists. split; [by left|done].
  - exists st. split; [by right|done].
Qed.

(** With names the file system accepts, the copy is made. *)
Lemma copy_template_ok b st src n :
  copied members tpl_dir m1 st -> src ∈ Zipfile.namelist members ->
  template_names_accepted tpl_dir n src -> S (size st.1) <= n ->
  exists out data,
    copy_template members tpl_dir b st src
    = Returned (<[out := File data]> st.1, st.2 ++ [out])
    /\ copied members tpl_dir m1 (<[out := File data]> st.1, st.2 ++ [out]).
Proof.
  intros Hinv Hsrc [Hacc0 Hacc] Hn.
  destruct (copy_template_step b st src Hinv Hsrc) as (t & data & Hname & H).
  assert (Fs.accepts (Path.name t) = true) as Ha.
  { destruct Hname as [->|(k & Hk & ->)]; [done|]. apply Hacc. lia. }
  rewrite Ha in H. by exists t, data.
Qed.

(** A loop that copies, for each item, the member [pick] chooses: it
    is left, by its end or by an exception, in a state of copies. *)
Lemma for_each_sound {A} (body : tstate -> A -> outcome tstate)
    (pick : A -> option string) (b : bool) (l : list A) : forall st,
  (forall st x, body st x = match pick x with
                            | Some src => copy_template members tpl_dir b st src
                            | None => Returned st
                            end) ->
  (forall x src, x ∈ l -> pick x = Some src ->
                 src ∈ Zipfile.namelist members) ->
  copied members tpl_dir m1 st ->
  exists st',
    (for_each body st l = Returned st' \/ for_each body st l = Raised st')
    /\ copied members tpl_dir m1 st'.
Proof.
  induction l as [|x l IH]; intros st Hbody Hpick Hinv.
  - exists st. split; [by left|done].
  - cbn [for_each]. rewrite Hbody.
    destruct (pick x) as [src|] eqn:E.
    + destruct (copy_template_sound b st src Hinv) as (st' & [->| ->] & Hinv').
      { eapply Hpick; [by left|done]. }
      * apply IH; [done| |done]. intros y s Hy. apply Hpick. by right.
      * exists st'. split; [by right|done].
    + apply IH; [done| |done]. intros y s Hy. apply Hpick. by right.
Qed.

(** With names the file system accepts, the loop goes to its end and
    makes one copy for each item that picks a member. *)
Lemma for_each_copies {A} (body : tstate -> A -> outcome tstate)
    (pick : A -> option string) (b : bool) (n : nat) (l : list A) : forall st,
  (forall st x, body st x = match pick x with
                            | Some src => copy_template members tpl_dir b st src
                            | None => Returned st
                            end) ->
  (forall x src, x ∈ l -> pick x = Some src ->
                 src ∈ Zipfile.namelist members
                 /\ template_names_accepted tpl_dir n src) ->
  copied members tpl_dir m1 st ->
  size st.1
  + length (List.filter (fun x => bool_decide (is_Some (pick x))) l) <= n ->
  exists m' more,
    for_each body st l = Returned (m', st.2 ++ more)
    /\ copied members tpl_dir m1 (m', st.2 ++ more)
    /\ length more = length (List.filter (fun x => bool_decide (is_Some (pick x))) l).
Proof.
  induction l as [|x l IH]; intros st Hbody Hpick Hinv Hn.
  - exists st.1, []. rewrite app_nil_r. by destruct st.
  - cbn [for_each List.filter] in *. rewrite Hbody.
    destruct (pick x) as [src|] eqn:E.
    + rewrite (bool_decide_eq_true_2 (is_Some (Some src))) in * by by eexists.
      cbn [length] in Hn.
      destruct (Hpick x src ltac:(by left) E) as [Hsrc Hacc].
      destruct (copy_template_ok b st src n Hinv Hsrc Hacc)
        as (out & data & -> & Hinv'); [lia|].
      pose proof Hinv as (_ & _ & _ & _ & _ & Hs).
      pose proof Hinv' as (_ & _ & _ & _ & _ & Hs'). cbn [fst snd] in Hs'.
      rewrite length_app in Hs'. simpl in Hs'.
      destruct (IH (<[out := File data]> st.1, st.2 ++ [out]) Hbody)
        as (m' & more & El & Hinv'' & Hlen); [|done| |].
      { intros y s Hy. apply Hpick. by right. }
      { cbn [fst]. lia. }
      cbn [fst snd] in El, Hinv''. exists m', (out :: more).
      rewrite <- app_assoc in El, Hinv''. rewrite El.
      split; [done|]. split; [done|]. simpl. by rewrite Hlen.
    + rewrite (bool_decide_eq_false_2 (is_Some None)) in * by by intros [? ?].
      destruct (IH st Hbody) as (m' & more & El & Hinv'' & Hlen);
        [|done|done|].
      { intros y s Hy. apply Hpick. by right. }
      exists m', more. by rewrite El.
Qed.

End copying.

Lemma resolve_ref_member names ref src :
  resolve_ref names ref = Some src -> src ∈ names.
Proof.
  unfold resolve_ref. case_bool_decide as H; [by intros [= <-]|].
  intros Hf. apply find_some in Hf as [Hin _]. by apply list_elem_of_In.
Qed.

Lemma by_extension_pick members tpl_dir st n :
  by_extension members tpl_dir st n
  = match (if template_member n then Some n else None) with
    | Some src => copy_template members tpl_dir false st src
    | None => Returned st
    end.
Proof.
  unfold by_extension, template_member.
  destruct (_ || _); [done|]. cbn [negb andb].
  by destruct (existsb (fun ext => endswith (lower n) ext) template_exts).
Qed.

Lemma by_reference_pick members tpl_dir st ref :
  by_reference members tpl_dir st ref
  = match referenced_member (Zipfile.namelist members) ref with
    | Some src => copy_template members tpl_dir true st src
    | None => Returned st
    end.
Proof.
  unfold by_reference, referenced_member.
  by destruct (resolve_ref _ ref) as [[|c r]|].
Qed.

Lemma filter_pick_ext l :
  List.filter (fun x => bool_decide (is_Some (if template_member x
                                              then Some x else None))) l
  = List.filter template_member l.
Proof.
  induction l as [|x l IH]; [done|]. simpl. rewrite IH.
  destruct (template_member x).
  - by rewrite (bool_decide_eq_true_2 (is_Some (Some x))) by by eexists.
  - by rewrite (bool_decide_eq_false_2 (is_Some None)) by by intros [? ?].
Qed.

Lemma ensure_dir_Some (m m' : fs) p q :
  ensure_dir m p = Some (m', q) -> q = p /\ Fs.mkdir_p m p = Some m'.
Proof.
  unfold ensure_dir. destruct (Fs.mkdir_p m p); [|done]. by intros [= <- <-].
Qed.

(** Whatever way the [try] of the template extraction is left, the state
    it leaves is one of copies only. *)
Lemma extract_templates_try_copied (m1 : fs) xdo_file tpl_dir :
  Fs.is_dir m1 tpl_dir = true ->
  no_separator (Path.name tpl_dir) = true ->
  exists members st,
    (extract_templates_try m1 xdo_file tpl_dir = Returned st
     \/ extract_templates_try m1 xdo_file tpl_dir = Raised st)
    /\ copied members tpl_dir m1 st.
Proof.
  intros Hd Hname.
  assert (forall members, copied members tpl_dir m1 (m1, [])) as Hinv0.
  { intros members. split; [done|]. split; [done|].
    split; [constructor|]. split; [constructor|]. split; [done|].
    simpl. lia. }
  unfold extract_templates_try.
  destruct (Fs.read m1 xdo_file) as [[| |members]|];
    try (exists [], (m1, []); split; [by right|apply Hinv0]).
  exists members.
  destruct (for_each_sound members tpl_dir m1 Hname
              (by_extension members tpl_dir)
              (fun n => if template_member n then Some n else None)
              false (Zipfile.namelist members) (m1, []))
    as (st1 & [E1|E1] & Hinv1); [| |done| |].
  { intros st n. apply by_extension_pick. }
  { intros n src Hn. destruct (template_member n); [|done].
    by intros [= <-]. }
  2:{ rewrite E1. exists st1. split; [by right|done]. }
  rewrite E1.
  destruct (definition_candidates _) as [|first rest].
  { exists st1. split; [by left|done]. }
  destruct (Zipfile.read members first) as [[|root|]|];
    try (exists st1; split; [by right|done]).
  destruct (for_each_sound members tpl_dir m1 Hname
              (by_reference members tpl_dir)
              (referenced_member (Zipfile.namelist members)) true
              (Etree.select_child_attr "templates" "template" "url" root)
              st1)
    as (st2 & E2 & Hinv2); [| |done|].
  { intros st ref. apply by_reference_pick. }
  { intros ref src _. unfold referenced_member.
    destruct (resolve_ref _ ref) as [[|c r]|] eqn:E; try done.
    intros [= <-]. by eapply resolve_ref_member. }
  exists st2. split; [exact E2|done].
Qed.

Lemma extract_templates_sound (m m' : fs) xdo_file dest_dir created :
  extract_templates_from_xdoz m xdo_file dest_dir = Some (m', created) ->
  m ⊆ m'
  /\ NoDup created
  /\ Forall (fun out =>
               Path.parent out = dest_dir // "report_templates"
               /\ m !! out = None
               /\ exists data, m' !! out = Some (File data)) created.
Proof.
  unfold extract_templates_from_xdoz. intros H.
  apply bind_Some in H as ([m1 tpl] & Hens & H).
  apply ensure_dir_Some in Hens as [-> Hmk].
  pose proof (mkdir_p_subseteq _ _ _ Hmk) as Hsub.
  destruct (extract_templates_try_copied m1 xdo_file
              (dest_dir // "report_templates")) as (members & st & Hst & Hinv).
  { by eapply mkdir_p_is_dir. }
  { unfold Path.name. rewrite div_good by done. cbn [names].
    by rewrite last_last. }
  assert (st = (m', created)) as ->.
  { destruct Hst as [E|E]; rewrite E in H; by injection H. }
  destruct Hinv as (Hsub' & _ & Hnd & Hall & _). cbn [fst snd] in *.
  split; [by etrans|]. split; [done|].
  eapply Forall_impl; [exact Hall|]. intros out (H1 & H2 & s & d & _ & _ & H3).
  split; [done|]. split; [by eapply lookup_weaken_None|by eexists].
Qed.

End TemplateFacts.

(** X13. Once the folder [report_templates] is there,
    [extract_templates_from_xdoz] always returns: no failure while
    reading the bundle or writing a copy (a name the file system
    refuses, for one) reaches the caller and no renaming loop runs for
    ever.  Whatever happened, the paths it returns are pairwise distinct
    files directly in [report_templates] that did not exist before, and
    nothing that was in the file system is changed or removed.  For a
    file that is missing or is not a zip archive it returns the empty
    list and leaves the file system as it was after creating the
    folder. *)
Theorem extract_templates_never_raises (m m1 : fs) (xdo_file dest_dir : Path) :
  Fs.mkdir_p m (dest_dir // "report_templates") = Some m1 ->
  exists m' created,
    extract_templates_from_xdoz m xdo_file dest_dir = Some (m', created)
    /\ m ⊆ m'
    /\ NoDup created
    /\ Forall (fun out =>
                 Path.parent out = dest_dir // "report_templates"
                 /\ m !! out = None
                 /\ exists data, m' !! out = Some (File data)) created
    /\ ((forall members, Fs.read m xdo_file <> Some (Zip members)) ->
        m' = m1 /\ created = []).
Proof.
  intros Hmk.
  destruct (LoopFacts.extract_templates_returns m xdo_file dest_dir)
    as [[m' created] E]; [by eexists|].
  exists m', created. split; [done|].
  destruct (TemplateFacts.extract_templates_sound _ _ _ _ _ E)
    as (H1 & H2 & H3).
  split; [done|]. split; [done|]. split; [done|].
  intros Hnz. unfold extract_templates_from_xdoz, ensure_dir in E.
  rewrite Hmk in E. simpl in E. unfold extract_templates_try in E.
  rewrite (FrameFacts.mkdir_p_read _ _ _ _ Hmk) in E.
  destruct (Fs.read m xdo_file) as [[| |members]|];
    try (by injection E as <- <-).
  by destruct (Hnz members).
Qed.

Lemma extract_templates_never_raises_witness :
  let m : fs := {[ Path.of_str "/o" := Dir;
                   Path.of_str "/s" := Dir;
                   Path.of_str "/s/r.xdoz" := File (Bytes "not a zip") ]} in
  extract_templates_from_xdoz m (Path.of_str "/s/r.xdoz") (Path.of_str "/o")
  = Some (<[Path.of_str "/o/report_templates" := Dir]> m, []).
Proof.
  intros m.
  assert (Fs.mkdir_p m (Path.of_str "/o" // "report_templates")
          = Some (<[Path.of_str "/o/report_templates" := Dir]> m)) as H1
    by reflexivity.
  destruct (extract_templates_never_raises m _ (Path.of_str "/s/r.xdoz")
              (Path.of_str "/o") H1) as (m' & created & E & _ & _ & _ & H).
  destruct H as [-> ->]; [intros members; discriminate|]. exact E.
Defined.

(** X14. Extracting the templates of a bundle that is a zip archive whose
    report definition, if there is one, can be parsed, when the file
    system accepts the names of the copies: the call returns one path for
    each member pass 1 selects (a template extension, no directory entry,
    nothing below [__MACOSX/]) followed by one path for each reference of
    the definition that resolves to a member.  The paths are pairwise
    distinct, each is a new file directly in [report_templates] holding
    the content of a member of the archive, and nothing that was in the
    file system before is changed or removed. *)
Theorem extract_templates_effect (m m1 : fs) (xdo_file dest_dir : Path)
    (members : list (string * content)) (refs : list string) :
  Fs.mkdir_p m (dest_dir // "report_templates") = Some m1 ->
  Fs.read m xdo_file = Some (Zip members) ->
  template_refs members = Some refs ->
  let names := Zipfile.namelist members in
  Forall (template_names_accepted (dest_dir // "report_templates")
            (size m1 + length names + length refs))
         (List.filter template_member names
          ++ omap (referenced_member names) refs) ->
  exists m' created,
    extract_templates_from_xdoz m xdo_file dest_dir = Some (m', created)
    /\ length created
       = length (List.filter template_member names)
         + length (List.filter
                     (fun ref => bool_decide (is_Some (referenced_member names ref)))
                     refs)
    /\ NoDup created
    /\ Forall (fun out =>
                 Path.parent out = dest_dir // "report_templates"
                 /\ m !! out = None
                 /\ exists src data,
                      src ∈ names /\ Zipfile.read members src = Some data
                      /\ m' !! out = Some (File data)) created
    /\ m ⊆ m'.
Proof.
  intros Hmk Hread Hrefs.
  assert (no_separator (Path.name (dest_dir // "report_templates")) = true)
    as Hname.
  { unfold Path.name. rewrite PathFacts.div_good by done.
    cbn [names]. by rewrite last_last. }
  intros names Hacc.
  set (tpl_dir := dest_dir // "report_templates") in *.
  set (n := size m1 + length names + length refs) in *.
  apply Forall_app in Hacc as [Hacc1 Hacc2].
  rewrite Forall_forall in Hacc1, Hacc2.
  pose proof (FsFacts.mkdir_p_subseteq _ _ _ Hmk) as Hsub.
  assert (copied members tpl_dir m1 (m1, [])) as Hinv0.
  { split; [done|]. split; [by eapply LayoutFacts.mkdir_p_is_dir|].
    split; [constructor|]. split; [constructor|]. split; [done|].
    simpl. lia. }
  assert (forall {A} (f : A -> bool) (l : list A),
            length (List.filter f l) <= length l) as Hfl.
  { intros A f l. induction l as [|x l IH]; [done|]. simpl.
    destruct (f x); simpl; lia. }
  destruct (TemplateFacts.for_each_copies members tpl_dir m1 Hname
              (by_extension members tpl_dir)
              (fun n => if template_member n then Some n else None)
              false n names (m1, []))
    as (m2 & c1 & E1 & Hinv1 & Hlen1); [| |done| |].
  { intros st x. apply TemplateFacts.by_extension_pick. }
  { intros x src Hx. destruct (template_member x) eqn:Ex; [|done].
    intros [= <-]. split; [done|]. apply Hacc1.
    apply list_elem_of_In, filter_In. split; [by apply list_elem_of_In|done]. }
  { cbn [fst]. pose proof (Hfl _ (fun x => bool_decide (is_Some
                 (if template_member x then Some x else None))) names).
    unfold n. lia. }
  simpl in E1, Hinv1. rewrite TemplateFacts.filter_pick_ext in Hlen1.
  destruct (TemplateFacts.for_each_copies members tpl_dir m1 Hname
              (by_reference members tpl_dir)
              (referenced_member names) true n refs (m2, c1))
    as (m3 & c2 & E2 & Hinv2 & Hlen2); [| |done| |].
  { intros st ref. apply TemplateFacts.by_reference_pick. }
  { intros ref src Hin Hp. split.
    - unfold referenced_member in Hp.
      destruct (resolve_ref names ref) as [[|c r]|] eqn:E; try done.
      injection Hp as <-. by eapply TemplateFacts.resolve_ref_member.
    - apply Hacc2. apply list_elem_of_omap. by exists ref. }
  { cbn [fst]. destruct Hinv1 as (_ & _ & _ & _ & _ & Hs1).
    cbn [fst snd] in Hs1. rewrite Hs1, Hlen1.
    pose proof (Hfl _ template_member names).
    pose proof (Hfl _ (fun x => bool_decide (is_Some
                  (referenced_member names x))) refs).
    unfold n. lia. }
  simpl in E2, Hinv2.
  exists m3, (c1 ++ c2).
  assert (extract_templates_from_xdoz m xdo_file dest_dir = Some (m3, c1 ++ c2))
    as ->.
  { unfold extract_templates_from_xdoz, ensure_dir. fold tpl_dir.
    rewrite Hmk. simpl. unfold extract_templates_try.
    rewrite (FrameFacts.mkdir_p_read _ _ _ _ Hmk), Hread.
    fold names. rewrite E1. unfold template_refs in Hrefs. fold names in Hrefs.
    destruct (definition_candidates names) as [|first rest].
    - injection Hrefs as <-. simpl in E2. by injection E2 as <- <-.
    - destruct (Zipfile.read members first) as [[|root|]|]; try done.
      injection Hrefs as <-. by rewrite E2. }
  split; [done|]. split; [by rewrite length_app, Hlen1, Hlen2|].
  destruct Hinv2 as (Hsub2 & _ & Hnd & Hall & _). simpl in *.
  split; [done|]. split; [|by etrans].
  eapply Forall_impl; [exact Hall|]. intros out (H1 & H2 & H3).
  split; [done|]. split; [|done]. by eapply lookup_weaken_None.
Qed.

Lemma extract_templates_effect_witness :
  let doc := Element "report" [] None
               [Element "templates" [] None
                  [Element "template" [("url", "T.rtf")] None []]] in
  let members := [("a/t.rtf", Bytes "1"); ("b/t.rtf", Bytes "2");
                  ("r.xdo", Xml doc)] in
  let m : fs := {[ Path.of_str "/o" := Dir;
                   Path.of_str "/r.xdoz" := File (Zip members) ]} in
  exists m' created,
    extract_templates_from_xdoz m (Path.of_str "/r.xdoz") (Path.of_str "/o")
    = Some (m', created)
    /\ length created = 3
    /\ NoDup created.
Proof.
  intros doc members m.
  assert (Fs.mkdir_p m (Path.of_str "/o" // "report_templates")
          = Some (<[Path.of_str "/o/report_templates" := Dir]> m)) as H1
    by reflexivity.
  assert (Fs.read m (Path.of_str "/r.xdoz") = Some (Zip members)) as H2
    by reflexivity.
  assert (template_refs members = Some ["T.rtf"]) as H3 by reflexivity.
  assert (Forall (template_names_accepted
                    (Path.of_str "/o" // "report_templates") 7)
            ["a/t.rtf"; "b/t.rtf"; "a/t.rtf"]) as H4.
  { repeat constructor; intros i Hi;
      do 8 (destruct i as [|i]; [reflexivity|]); lia. }
  destruct (extract_templates_effect m _ (Path.of_str "/r.xdoz")
              (Path.of_str "/o") members ["T.rtf"] H1 H2 H3 H4)
    as (m' & created & E & Hlen & Hnd & _).
  exists m', created. split; [exact E|]. split; [exact Hlen|exact Hnd].
Defined.

(** X15. The test [if out not in created] of pass 2 never skips
    anything: the output path has just been chosen as one that does not
    exist, so as long as every recorded path exists in the file system,
    as it does all along an extraction, the copy by reference records its
    path exactly as the copy by extension does. *)
Theorem copy_template_guard_never_skips
    (members : list (string * content)) (tpl_dir : Path) (m : fs)
    (created : list Path) (src : string) :
  Forall (fun p => Fs.exists_ m p = true) created ->
  copy_template members tpl_dir true (m, created) src
  = copy_template members tpl_dir false (m, created) src.
Proof.
  intros Hall. unfold copy_template.
  destruct (Fs.while_exists _ _ _ _ _) as [t|] eqn:Ht; [|done].
  apply FsFacts.while_exists_free in Ht.
  destruct (Zipfile.read members src); [|done].
  destruct (Fs.write m t c); [|done].
  rewrite bool_decide_eq_false_2; [done|]. intros Hin.
  rewrite Forall_forall in Hall. specialize (Hall t Hin). congruence.
Qed.

Lemma copy_template_guard_never_skips_witness :
  let m : fs := {[ Path.of_str "/o" := Dir;
                   Path.of_str "/o/t.rtf" := File (Bytes "1") ]} in
  copy_template [("t.rtf", Bytes "1")] (Path.of_str "/o") true
    (m, [Path.of_str "/o/t.rtf"]) "t.rtf"
  = copy_template [("t.rtf", Bytes "1")] (Path.of_str "/o") false
      (m, [Path.of_str "/o/t.rtf"]) "t.rtf".
Proof.
  intros m. apply copy_template_guard_never_skips.
  constructor; [reflexivity|constructor].
Defined.

(** ** Pass 2: one report bundle *)

Module ReportFacts.
Import Py PyFacts PathFacts WalkFacts FsFacts LayoutFacts MkdirFacts
       LoopFacts FrameFacts TemplateFacts.

(** The reference read from a bundle depends on the bundle only. *)
Lemma read_url_frame (m m1 : fs) x :
  Fs.read m1 x = Fs.read m x ->
  read_report_datamodel_url m1 x = read_report_datamodel_url m x.
Proof.
  intros E. unfold read_report_datamodel_url, report_datamodel_url_try.
  by rewrite E.
Qed.

Lemma process_xdoz_inv (src out_root : Path)
    (scoped_map : gmap (string * string) Path)
    (global_map : gmap string Path)
    (m m' : fs) (created_paths created_paths' : list Path)
    (xdoz_file : Path) :
  good_name (Path.name xdoz_file) = true ->
  process_xdoz src out_root scoped_map global_map (m, created_paths) xdoz_file
  = Some (m', created_paths') ->
  exists rel dest templates data,
    Path.relative_to xdoz_file src = Some rel
    /\ created_paths' = created_paths ++ dest :: templates
    /\ Fs.read m xdoz_file = Some data
    /\ m !! dest = None
    /\ m' !! dest = Some (File data)
    /\ Path.parent dest
       = default (orphan_dir out_root (Path.parent rel))
           (match_report scoped_map global_map (Path.parent rel)
              (read_report_datamodel_url m xdoz_file)) // "Catalog"
    /\ NoDup (dest :: templates)
    /\ Forall (fun p => m !! p = None /\ exists d, m' !! p = Some (File d))
              (dest :: templates)
    /\ m ⊆ m'.
Proof.
  intros Hname H. unfold process_xdoz in H.
  apply bind_Some in H as (rel & Hrel & H).
  apply bind_Some in H as ([m1 otbi_root] & H1 & H).
  apply ensure_dir_Some in H1 as [-> Hmk1].
  apply bind_Some in H as ([m2 root] & H2 & H).
  apply bind_Some in H as ([m3 catalog_dir] & H3 & H).
  apply ensure_dir_Some in H3 as [-> Hmk3].
  apply bind_Some in H as (dest & Hdest & H).
  apply bind_Some in H as (data & Hdata & H).
  apply bind_Some in H as (m4 & Hw & H).
  apply bind_Some in H as ([m5 templates] & Ht & H).
  injection H as <- <-.
  pose proof (mkdir_p_subseteq _ _ _ Hmk1) as S1.
  pose proof (mkdir_p_subseteq _ _ _ Hmk3) as S3.
  assert (m1 ⊆ m2 /\ Fs.read m2 xdoz_file = Fs.read m1 xdoz_file
          /\ root = default (orphan_dir out_root (Path.parent rel))
                      (match_report scoped_map global_map (Path.parent rel)
                         (read_report_datamodel_url m xdoz_file)))
    as (S2 & R2 & Hroot).
  { unfold choose_target in H2.
    rewrite (read_url_frame m m1) in H2
      by by eapply mkdir_p_read.
    destruct (match_report _ _ _ _) as [r|].
    - by injection H2 as <- <-.
    - apply ensure_dir_Some in H2 as [-> Hmk2].
      split; [by eapply mkdir_p_subseteq|].
      split; [by eapply mkdir_p_read|done]. }
  assert (Fs.read m xdoz_file = Some data) as Hread.
  { rewrite <- Hdata, (mkdir_p_read _ _ _ _ Hmk3), R2.
    symmetry. by eapply mkdir_p_read. }
  pose proof (while_exists_free _ _ _ _ _ _ Hdest) as Hfree.
  pose proof (exists_false_lookup _ _ Hfree) as Hnone.
  assert (Path.parent dest = root // "Catalog") as Hpar.
  { assert (no_separator (Path.name xdoz_file) = true) as Hsep.
    { unfold good_name in Hname. by apply andb_true_iff in Hname as [_ ?]. }
    apply stem_suffix_no_separator in Hsep as [Hb Hs].
    apply while_exists_shape in Hdest as [->|(k & _ & ->)].
    - by apply child_facts.
    - by apply child_facts, suffixed_good. }
  assert (m4 = <[dest := File data]> m3) as ->.
  { unfold Fs.write in Hw. destruct (_ && _); [|done]. by injection Hw. }
  destruct (extract_templates_sound _ _ _ _ _ Ht)
    as (S5 & Hnd & Hall).
  assert (m3 ⊆ <[dest := File data]> m3) as S4 by by apply insert_subseteq.
  exists rel, dest, templates, data.
  split; [done|]. split; [done|]. split; [done|].
  split.
  { eapply lookup_weaken_None; [exact Hnone|]. by do 2 (etrans; [|eassumption]). }
  split.
  { eapply lookup_weaken; [|exact S5]. by rewrite lookup_insert_eq. }
  split; [by rewrite Hpar, Hroot|].
  assert (m ⊆ m3) as S03 by by do 2 (etrans; [eassumption|]).
  assert (m ⊆ <[dest := File data]> m3) as S04 by by etrans.
  split; [|split].
  - constructor; [|done]. intros Hin. rewrite Forall_forall in Hall.
    destruct (Hall dest Hin) as (_ & E & _).
    by rewrite lookup_insert_eq in E.
  - constructor.
    + split; [by apply (lookup_weaken_None m m3)|]. exists data.
      eapply lookup_weaken; [|exact S5]. by rewrite lookup_insert_eq.
    + eapply Forall_impl; [exact Hall|]. intros p (_ & Hp & Hd).
      split; [|done].
      by apply (lookup_weaken_None m (<[dest := File data]> m3)).
  - by etrans.
Qed.

End ReportFacts.

(** X16. One report bundle of pass 2, when the step goes through: the
    bundle is copied, byte for byte, to a path that did not exist before,
    directly in the [Catalog] folder of the root chosen for it: the
    model root matched for its reference, or the [_Orphan] folder of its
    own place in the output tree.  The copy is recorded first, followed
    by the extracted templates; all of these paths are distinct, each is
    a file that did not exist before, and nothing that was in the file
    system is changed or removed. *)
Theorem process_xdoz_effect (src out_root : Path)
    (scoped_map : gmap (string * string) Path)
    (global_map : gmap string Path)
    (m m' : fs) (created_paths created_paths' : list Path)
    (xdoz_file : Path) :
  good_name (Path.name xdoz_file) = true ->
  process_xdoz src out_root scoped_map global_map (m, created_paths) xdoz_file
  = Some (m', created_paths') ->
  exists rel dest templates data,
    Path.relative_to xdoz_file src = Some rel
    /\ created_paths' = created_paths ++ dest :: templates
    /\ Fs.read m xdoz_file = Some data
    /\ m !! dest = None
    /\ m' !! dest = Some (File data)
    /\ Path.parent dest
       = default (orphan_dir out_root (Path.parent rel))
           (match_report scoped_map global_map (Path.parent rel)
              (read_report_datamodel_url m xdoz_file)) // "Catalog"
    /\ NoDup (dest :: templates)
    /\ Forall (fun p => m !! p = None /\ exists d, m' !! p = Some (File d))
              (dest :: templates)
    /\ m ⊆ m'.
Proof. apply ReportFacts.process_xdoz_inv. Qed.

Lemma process_xdoz_effect_witness :
  let xdo := Xml (Element "report" [] None
                    [Element "dataModel" [("url", "/x/M.xdm")] None []]) in
  let bundle := Zip [("_report.xdo", xdo); ("t.rtf", Bytes "RTF")] in
  let m : fs := {[ Path.of_str "/s/r.xdoz" := File bundle;
                   Path.of_str "/o" := Dir ]} in
  let dest := Path.of_str "/o/M/Catalog/r.xdoz" in
  let tpl := Path.of_str "/o/M/report_templates/t.rtf" in
  let m' : fs :=
    <[tpl := File (Bytes "RTF")]>
      (<[Path.of_str "/o/M/report_templates" := Dir]>
         (<[dest := File bundle]>
            (<[Path.of_str "/o/M/Catalog" := Dir]>
               (<[Path.of_str "/o/M" := Dir]> m)))) in
  process_xdoz (Path.of_str "/s") (Path.of_str "/o") ∅
    {[ "m" := Path.of_str "/o/M" ]} (m, []) (Path.of_str "/s/r.xdoz")
  = Some (m', [dest; tpl])
  /\ m !! dest = None
  /\ m' !! dest = Some (File bundle)
  /\ m ⊆ m'.
Proof.
  intros xdo bundle m dest tpl m'.
  assert (process_xdoz (Path.of_str "/s") (Path.of_str "/o") ∅
            {[ "m" := Path.of_str "/o/M" ]} (m, []) (Path.of_str "/s/r.xdoz")
          = Some (m', [dest; tpl])) as E by reflexivity.
  assert (good_name (Path.name (Path.of_str "/s/r.xdoz")) = true) as Hn
    by reflexivity.
  destruct (process_xdoz_effect _ _ _ _ _ _ _ _ _ Hn E)
    as (rel & d & ts & data & _ & Hc & Hr & H1 & H2 & _ & _ & _ & H3).
  injection Hc as <- <-.
  assert (data = bundle) as -> by (injection Hr as <-; reflexivity).
  split; [exact E|]. split; [exact H1|]. split; [exact H2|exact H3].
Defined.

(** ** Searching a folder *)

Module FindFacts.
Import Py PyFacts PathFacts WalkFacts FsFacts LayoutFacts ZipFacts MkdirFacts
       RoundTrip ZipMore.

Lemma ascii_compare_refl a : Ascii.compare a a = Eq.
Proof. unfold Ascii.compare. apply N.compare_refl. Qed.

Lemma string_compare_refl s : String.compare s s = Eq.
Proof.
  induction s as [|c s IH]; [done|]. simpl. by rewrite ascii_compare_refl.
Qed.

Lemma ascii_compare_trans a b c o :
  Ascii.compare a b = o -> Ascii.compare b c = o -> o <> Eq ->
  Ascii.compare a c = o.
Proof.
  unfold Ascii.compare. intros H1 H2 Ho. destruct o; [done| |].
  - rewrite N.compare_lt_iff in *. lia.
  - rewrite N.compare_gt_iff in *. lia.
Qed.

Lemma string_compare_lt_trans s1 : forall s2 s3,
  String.compare s1 s2 = Lt -> String.compare s2 s3 = Lt ->
  String.compare s1 s3 = Lt.
Proof.
  induction s1 as [|a s1 IH]; intros [|b s2] [|c s3]; simpl; try done.
  destruct (Ascii.compare a b) eqn:Eab; try done;
    destruct (Ascii.compare b c) eqn:Ebc; try done; intros H1 H2.
  - apply Ascii.compare_eq_iff in Eab, Ebc. subst.
    rewrite ascii_compare_refl. by eapply IH.
  - apply Ascii.compare_eq_iff in Eab. subst. by rewrite Ebc.
  - apply Ascii.compare_eq_iff in Ebc. subst. by rewrite Eab.
  - by rewrite (ascii_compare_trans a b c Lt).
Qed.

Lemma string_leb_trans s1 s2 s3 :
  String.leb s1 s2 = true -> String.leb s2 s3 = true ->
  String.leb s1 s3 = true.
Proof.
  unfold String.leb.
  destruct (String.compare s1 s2) eqn:E12; [| |done];
    destruct (String.compare s2 s3) eqn:E23; try done; intros _ _.
  - apply String.compare_eq_iff in E12, E23. subst.
    by rewrite string_compare_refl.
  - apply String.compare_eq_iff in E12. subst. by rewrite E23.
  - apply String.compare_eq_iff in E23. subst. by rewrite E12.
  - by rewrite (string_compare_lt_trans s1 s2 s3).
Qed.

Lemma posix_le_trans p q r :
  posix_le p q = true -> posix_le q r = true -> posix_le p r = true.
Proof. apply string_leb_trans. Qed.

Lemma posix_le_total p q : posix_le p q = true \/ posix_le q p = true.
Proof. apply String.leb_total. Qed.

Lemma insert_by_posix_perm p l : insert_by_posix p l ≡ₚ p :: l.
Proof.
  induction l as [|q l IH]; [done|]. simpl. destruct (posix_le p q); [done|].
  rewrite IH. apply Permutation_swap.
Qed.

Lemma sort_by_posix_perm l : sort_by_posix l ≡ₚ l.
Proof.
  induction l as [|p l IH]; [done|]. simpl.
  by rewrite insert_by_posix_perm, IH.
Qed.

Lemma insert_by_posix_sorted p l :
  StronglySorted (fun a b => posix_le a b = true) l ->
  StronglySorted (fun a b => posix_le a b = true) (insert_by_posix p l).
Proof.
  induction 1 as [|q l Hl IH Hq]; simpl.
  - repeat constructor.
  - destruct (posix_le p q) eqn:E.
    + constructor; [by constructor|]. constructor; [done|].
      eapply Forall_impl; [exact Hq|]. intros r Hr. simpl in Hr.
      by eapply posix_le_trans.
    + constructor; [done|].
      rewrite insert_by_posix_perm. constructor; [|done].
      destruct (posix_le_total p q); congruence.
Qed.

Lemma sort_by_posix_sorted l :
  StronglySorted (fun a b => posix_le a b = true) (sort_by_posix l).
Proof.
  induction l as [|p l IH]; [constructor|]. simpl.
  by apply insert_by_posix_sorted.
Qed.

(** What the loop over the walk collects. *)
Lemma elem_of_collected (m : fs) base (keep : string -> bool) p :
  p ∈ omap (fun '(rel, _) =>
              if keep (Path.name rel) then Some (Path.join base rel) else None)
           (walk_files m base) <->
  exists rel d,
    rel <> [] /\ p = mkPath (anchored base) (names base ++ rel)
    /\ file_at m base rel = Some d
    /\ keep (List.last rel "") = true.
Proof.
  rewrite list_elem_of_omap. split.
  - intros ([rel d] & Hin & Hk).
    apply elem_of_walk_files in Hin as (Ha & Hne & E).
    destruct (keep (Path.name rel)) eqn:Ek; [|done]. injection Hk as <-.
    exists (names rel), d. split; [done|]. split.
    { unfold Path.join. by rewrite Ha. }
    split; [|done]. unfold file_at, Fs.read. by rewrite E.
  - intros (rel & d & Hne & -> & E & Hk). exists (mkPath false rel, d). split.
    + apply elem_of_walk_files. simpl. split; [done|]. split; [done|].
      unfold file_at, Fs.read in E.
      by destruct (m !! _) as [[|?]|]; simplify_eq.
    + unfold Path.name. simpl. by rewrite Hk.
Qed.

(** Paths with the same anchor and file names only are told apart by
    their POSIX form. *)
Lemma as_posix_inj_wf p q :
  anchored p = anchored q -> names p <> [] -> names q <> [] ->
  forallb file_name (names p) = true -> forallb file_name (names q) = true ->
  Path.as_posix p = Path.as_posix q -> p = q.
Proof.
  destruct p as [a ns], q as [a' ns']. simpl. intros <- Hn Hn' W W' E.
  f_equal. destruct a.
  - unfold Path.as_posix in E. simpl in E.
    change ("/" +:+ join "/" ns) with (String "/" (join "/" ns)) in E.
    change ("/" +:+ join "/" ns') with (String "/" (join "/" ns')) in E.
    injection E as E. apply as_posix_inj; try done.
    unfold Path.as_posix. simpl. by destruct ns, ns'.
  - by apply as_posix_inj.
Qed.

Lemma collected_names (m : fs) base (keep : string -> bool) p :
  fs_wf m ->
  p ∈ omap (fun '(rel, _) =>
              if keep (Path.name rel) then Some (Path.join base rel) else None)
           (walk_files m base) ->
  anchored p = anchored base /\ names p <> []
  /\ forallb file_name (names p) = true.
Proof.
  intros Hwf (rel & d & Hne & -> & E & _)%elem_of_collected. simpl.
  split; [done|]. split; [by destruct (names base)|].
  unfold file_at, Fs.read in E.
  destruct (m !! _) as [[|d']|] eqn:E'; try done.
  by destruct (Hwf _ _ E') as [Hn _].
Qed.

Lemma walk_files_NoDup (m : fs) base :
  fs_wf m -> NoDup (walk_files m base).*1.
Proof.
  intros Hwf. pose proof (members_NoDup m base Hwf) as H.
  unfold Zipfile.namelist in H. rewrite <- list_fmap_compose in H.
  eapply (NoDup_fmap_1 Path.as_posix). rewrite <- list_fmap_compose.
  erewrite list_fmap_ext; [exact H|]. by intros i [rel d] _.
Qed.

Lemma collected_NoDup (m : fs) base (keep : string -> bool) :
  fs_wf m ->
  NoDup (omap (fun '(rel, _) =>
                 if keep (Path.name rel) then Some (Path.join base rel)
                 else None)
              (walk_files m base)).
Proof.
  intros Hwf. pose proof (walk_files_NoDup m base Hwf) as Hnd.
  assert (forall rel d, (rel, d) ∈ walk_files m base -> anchored rel = false)
    as Hanch.
  { intros rel d Hin. by apply elem_of_walk_files in Hin as (Ha & _). }
  induction (walk_files m base) as [|[rel d] l IH]; [constructor|].
  rewrite fmap_cons in Hnd. apply NoDup_cons in Hnd as [Hnotin Hnd].
  simpl. destruct (keep (Path.name rel)).
  - constructor.
    + intros Hin. apply list_elem_of_omap in Hin as ([rel' d'] & Hin' & Hk).
      destruct (keep (Path.name rel')); [|done]. injection Hk as Hk.
      assert (rel' = rel) as ->.
      { pose proof (Hanch rel d ltac:(by left)) as Ha.
        pose proof (Hanch rel' d' ltac:(by right)) as Ha'.
        unfold Path.join in Hk. rewrite Ha, Ha' in Hk. injection Hk as Hk.
        apply app_inv_head in Hk. destruct rel, rel'. simpl in *. by subst. }
      apply Hnotin. apply list_elem_of_fmap. by exists (rel, d').
    + apply IH; [done|]. intros r x Hr. apply (Hanch r x). by right.
  - apply IH; [done|]. intros r x Hr. apply (Hanch r x). by right.
Qed.

End FindFacts.

(** X17. [find_by_ext] returns exactly the regular files below
    [base_dir], at any depth, whose name ends, letter case apart, with one
    of the given suffixes, each by its full path; the list is ordered by
    the POSIX form of the paths, compared as strings; with no suffix at
    all, or in a folder that holds no such file, it is empty. *)
Theorem find_by_ext_spec (m : fs) (base_dir : Path) (exts : list string) :
  (forall p,
     p ∈ find_by_ext m base_dir exts <->
     exists rel d,
       rel <> [] /\ p = mkPath (anchored base_dir) (names base_dir ++ rel)
       /\ file_at m base_dir rel = Some d
       /\ exists e, e ∈ exts
                    /\ Py.endswith (Py.lower (List.last rel "")) (Py.lower e)
                       = true)
  /\ StronglySorted (fun p q => posix_le p q = true)
                    (find_by_ext m base_dir exts)
  /\ find_by_ext m base_dir [] = [].
Proof.
  split; [|split].
  - intros p. unfold find_by_ext, find_by_ext_in.
    rewrite FindFacts.sort_by_posix_perm.
    rewrite (FindFacts.elem_of_collected m base_dir
               (ends_with_any (Py.lower <$> exts))).
    unfold ends_with_any.
    split; intros (rel & d & H1 & H2 & H3 & H4); exists rel, d;
      (split; [done|]; split; [done|]; split; [done|]).
    + apply existsb_exists in H4 as (e' & Hin & He).
      apply in_map_iff in Hin as (e & <- & Hin).
      exists e. split; [by apply list_elem_of_In|done].
    + destruct H4 as (e & Hin & He). apply existsb_exists.
      exists (Py.lower e). split; [|done].
      apply in_map_iff. exists e. split; [done|by apply list_elem_of_In].
  - apply FindFacts.sort_by_posix_sorted.
  - unfold find_by_ext, find_by_ext_in. simpl.
    by induction (walk_files m base_dir) as [|[rel d] l IH].
Qed.

(** X18. In a well-formed file system the result of [find_by_ext] does
    not depend on the order in which the walk meets the files: whatever
    that order, the same list comes out, without repetition. *)
Theorem find_by_ext_order_independent (m : fs) (base_dir : Path)
    (exts : list string) (walk : list (Path * content)) :
  fs_wf m ->
  walk ≡ₚ walk_files m base_dir ->
  find_by_ext_in walk base_dir exts = find_by_ext m base_dir exts
  /\ NoDup (find_by_ext m base_dir exts).
Proof.
  intros Hwf Hperm. split.
  - unfold find_by_ext, find_by_ext_in.
    apply (StronglySorted_unique_strong (fun p q => posix_le p q = true)).
    + intros p q Hp Hq H1 H2.
      rewrite FindFacts.sort_by_posix_perm in Hp, Hq. rewrite Hperm in Hp.
      destruct (FindFacts.collected_names m base_dir _ p Hwf Hp)
        as (Ha & Hn & Hw).
      destruct (FindFacts.collected_names m base_dir _ q Hwf Hq)
        as (Ha' & Hn' & Hw').
      apply FindFacts.as_posix_inj_wf; try done; [congruence|].
      by apply String.leb_antisym.
    + apply FindFacts.sort_by_posix_sorted.
    + apply FindFacts.sort_by_posix_sorted.
    + rewrite !FindFacts.sort_by_posix_perm. by rewrite Hperm.
  - unfold find_by_ext, find_by_ext_in.
    rewrite FindFacts.sort_by_posix_perm.
    by apply FindFacts.collected_NoDup.
Qed.

Lemma find_by_ext_order_independent_witness :
  let m : fs := {[ Path.of_str "/s" := Dir;
                   Path.of_str "/s/b.XDMZ" := File (Bytes "2");
                   Path.of_str "/s/a" := Dir;
                   Path.of_str "/s/a/m.xdmz" := File (Bytes "1");
                   Path.of_str "/s/r.xdoz" := File (Bytes "3") ]} in
  find_by_ext_in (rev (walk_files m (Path.of_str "/s"))) (Path.of_str "/s")
    [".xdmz"]
  = find_by_ext m (Path.of_str "/s") [".xdmz"]
  /\ find_by_ext m (Path.of_str "/s") [".xdmz"]
     = [Path.of_str "/s/a/m.xdmz"; Path.of_str "/s/b.XDMZ"].
Proof.
  intros m.
  assert (fs_wf m) as Hwf.
  { apply (bool_decide_unpack _). exact I. }
  destruct (find_by_ext_order_independent m (Path.of_str "/s") [".xdmz"]
              (rev (walk_files m (Path.of_str "/s"))) Hwf) as [E _].
  { symmetry. apply Permutation_rev. }
  split; [exact E|reflexivity].
Defined.

(** X19. [find_datamodel_files] is [find_by_ext] for the one suffix
    [_datamodel.xdm]: it returns, ordered by their POSIX form, the
    regular files below [base_dir] whose name ends with
    [_datamodel.xdm], letter case apart. *)
Theorem find_datamodel_files_spec (m : fs) (base_dir : Path) :
  find_datamodel_files m base_dir = find_by_ext m base_dir ["_datamodel.xdm"]
  /\ (forall p,
        p ∈ find_datamodel_files m base_dir <->
        exists rel d,
          rel <> [] /\ p = mkPath (anchored base_dir) (names base_dir ++ rel)
          /\ file_at m base_dir rel = Some d
          /\ Py.endswith (Py.lower (List.last rel "")) "_datamodel.xdm" = true)
  /\ StronglySorted (fun p q => posix_le p q = true)
                    (find_datamodel_files m base_dir).
Proof.
  split; [|split].
  - unfold find_datamodel_files, find_datamodel_files_in, find_by_ext,
      find_by_ext_in. f_equal.
    change (Py.lower <$> ["_datamodel.xdm"]) with ["_datamodel.xdm"].
    induction (walk_files m base_dir) as [|[rel d] l IH]; [done|].
    cbn [omap list_omap]. rewrite IH. unfold ends_with_any.
    cbn [existsb]. by rewrite orb_false_r.
  - intros p. unfold find_datamodel_files, find_datamodel_files_in.
    rewrite FindFacts.sort_by_posix_perm.
    apply (FindFacts.elem_of_collected m base_dir
             (fun f => Py.endswith (Py.lower f) "_datamodel.xdm")).
  - apply FindFacts.sort_by_posix_sorted.
Qed.

(** ** Pass 1: one model bundle *)

Module ModelFacts.
Import Py PyFacts PathFacts WalkFacts FsFacts LayoutFacts MkdirFacts
       WriteFacts LoopFacts FrameFacts ConfineFacts TemplateFacts UniqueMore.

Lemma mkdir_p_dom (m m1 : fs) p :
  Fs.mkdir_p m p = Some m1 -> dom m ⊆ dom m1.
Proof. intros H. by apply subseteq_dom, (mkdir_p_subseteq m p). Qed.

Lemma write_dom (m m1 : fs) p d :
  Fs.write m p d = Some m1 -> dom m ⊆ dom m1.
Proof.
  unfold Fs.write. destruct (_ && _); [|done]. intros [= <-].
  apply dom_insert_subseteq.
Qed.

(** Extraction never removes an entry. *)
Lemma extract_member_dom dest (mc m2 : fs) member :
  extract_member dest (Some mc) member = Some m2 -> dom mc ⊆ dom m2.
Proof.
  destruct member as [name data]. unfold extract_member. simpl.
  intros H. apply bind_Some in H as (m1 & H1 & H).
  apply mkdir_p_dom in H1. destruct (endswith name "/").
  - apply mkdir_p_dom in H. by etrans.
  - apply write_dom in H. by etrans.
Qed.

Lemma foldl_None {A} (f : option fs -> A -> option fs) l :
  (forall x, f None x = None) -> foldl f None l = None.
Proof. intros Hf. induction l as [|x l IH]; [done|]. simpl. by rewrite Hf. Qed.

Lemma extract_members_dom dest members : forall (mc m2 : fs),
  foldl (extract_member dest) (Some mc) members = Some m2 ->
  dom mc ⊆ dom m2.
Proof.
  induction members as [|member members IH]; intros mc m2 H.
  - by injection H as <-.
  - change (foldl (extract_member dest)
              (extract_member dest (Some mc) member) members = Some m2) in H.
    destruct (extract_member dest (Some mc) member) as [m1|] eqn:E.
    + etrans; [by eapply extract_member_dom|by eapply IH].
    + by rewrite foldl_None in H.
Qed.

Lemma not_in_dom_mono (m m1 : fs) p :
  dom m ⊆ dom m1 -> m1 !! p = None -> m !! p = None.
Proof.
  intros Hsub H. apply not_elem_of_dom. apply not_elem_of_dom in H.
  set_solver.
Qed.

(** The writer's paths and what it leaves alone, whenever it goes
    through. *)
Lemma write_all_inv out_dir header files : forall (m m' : fs) created created',
  Forall (fun f => good_name f.1 = true) files ->
  write_all out_dir header (Some (m, created)) files = Some (m', created') ->
  created' = created ++ ((fun f => out_dir // f.1) <$> files)
  /\ (forall p, Path.parent p <> out_dir -> m' !! p = m !! p).
Proof.
  induction files as [|[fname sql] files IH]; intros m m' created created' Hg H.
  - injection H as <- <-. by rewrite app_nil_r.
  - apply Forall_cons in Hg as [Hf Hg]. simpl in Hf.
    rewrite write_all_cons in H.
    destruct (write_one out_dir header (Some (m, created)) fname sql)
      as [[m1 c1]|] eqn:E.
    + destruct (IH _ _ _ _ Hg H) as [-> Hfr].
      unfold write_one, Fs.write in E. simpl in E.
      destruct (_ && _); [|done]. injection E as <- <-.
      split; [by rewrite <- app_assoc|].
      intros p Hp. rewrite Hfr by done. rewrite lookup_insert_ne; [done|].
      intros <-. by destruct (child_facts out_dir fname Hf).
    + exfalso. clear -H. induction files as [|[f s] l IHl]; [done|].
      by apply IHl.
Qed.

Lemma write_sql_otbi_inv (m m' : fs) out_dir datasets valuesets title created :
  Forall (fun e => is_clean e.1 = true) (datasets ++ valuesets) ->
  Fs.is_dir m out_dir = true ->
  write_sql_otbi m out_dir datasets valuesets title = Some (m', created) ->
  Forall (fun p => Path.parent p = out_dir
                   /\ endswith (Path.name p) ".sql" = true) created
  /\ (forall p, Path.parent p <> out_dir -> m' !! p = m !! p).
Proof.
  intros Hclean Hd H. rewrite write_sql_otbi_eq, mkdir_p_dir in H by done.
  simpl in H.
  assert (Forall (fun f => good_name f.1 = true /\ endswith f.1 ".sql" = true)
                 (sql_files datasets valuesets)) as Hfiles.
  { apply Forall_app in Hclean as [Hds Hvs]. unfold sql_files.
    apply Forall_app. split; apply Forall_fmap.
    - eapply Forall_impl; [exact Hds|]. intros [n s] Hn. simpl in *. split.
      + pose proof (clean_no_separator n Hn) as Hs.
        apply sql_file_good; [|by eexists]. unfold no_separator in *.
        by rewrite all_chars_append, Hs.
      + apply endswith_append.
    - eapply Forall_impl; [exact Hvs|]. intros [n s] Hn. simpl in *. split.
      + pose proof (clean_no_separator n Hn) as Hs. apply sql_file_good.
        * unfold no_separator in *. by rewrite !all_chars_append, Hs.
        * exists ("lv_" +:+ n). by rewrite !append_assoc.
      + rewrite <- append_assoc. apply endswith_append. }
  destruct (write_all_inv out_dir (header_of title)
              (sql_files datasets valuesets) m m' [] created)
    as [-> Hfr]; [|exact H|].
  { eapply Forall_impl; [exact Hfiles|]. by intros f [? _]. }
  split; [|done]. simpl. apply Forall_fmap.
  eapply Forall_impl; [exact Hfiles|]. intros f [Hg He]. simpl.
  by destruct (child_facts out_dir f.1 Hg) as [-> ->].
Qed.

Lemma is_dir_frame (m m' : fs) root :
  (forall p, Path.parent p <> root -> m' !! p = m !! p) ->
  names root <> [] ->
  Fs.is_dir m root = true -> Fs.is_dir m' root = true.
Proof.
  intros Hfr Hne Hd. unfold Fs.is_dir in *. rewrite Hfr; [done|].
  unfold Path.parent. destruct root as [a ns]. simpl in *.
  intros [= E]. apply (f_equal length) in E.
  destruct ns as [|x ns _] using rev_ind; [done|].
  rewrite removelast_last, length_app in E. simpl in E. lia.
Qed.

(** The loop over the definition files writes SQL files directly in the
    model root and touches nothing that is not directly in it. *)
Lemma write_models_inv root dms : forall (m m' : fs) created created',
  names root <> [] ->
  Fs.is_dir m root = true ->
  foldl (write_models root) (Some (m, created)) dms = Some (m', created') ->
  (exists new,
     created' = created ++ new
     /\ Forall (fun p => Path.parent p = root
                         /\ endswith (Path.name p) ".sql" = true) new)
  /\ (forall p, Path.parent p <> root -> m' !! p = m !! p).
Proof.
  induction dms as [|dm dms IH]; intros m m' created created' Hne Hd H.
  - injection H as <- <-. split; [|done]. exists []. by rewrite app_nil_r.
  - change (foldl (write_models root)
              (write_models root (Some (m, created)) dm) dms
            = Some (m', created')) in H.
    destruct (write_models root (Some (m, created)) dm) as [[m1 c1]|] eqn:E.
    + unfold write_models in E. simpl in E.
      destruct (parse_datamodel_xdm m dm) as [[ds vs]|] eqn:Ep.
      * apply bind_Some in E as ([m2 c2] & Hw & E). injection E as <- <-.
        destruct (write_sql_otbi_inv m m2 root ds vs (Some "") c2)
          as [Hc2 Hfr2]; [|done|done|].
        { unfold parse_datamodel_xdm in Ep.
          destruct (Fs.read m dm) as [[|r|]|]; try done.
          injection Ep as <- <-. apply Forall_app. split.
          - eapply Forall_impl; [apply ParseFacts.datasets_of_clean|].
            by intros [n s].
          - eapply Forall_impl; [apply ParseFacts.valuesets_of_clean|].
            by intros [n s]. }
        destruct (IH m2 m' (created ++ c2) created' Hne) as [(new & -> & Hn) Hfr];
          [by eapply is_dir_frame|done|].
        split.
        -- exists (c2 ++ new). split; [by rewrite app_assoc|].
           by apply Forall_app.
        -- intros p Hp. by rewrite Hfr, Hfr2.
      * injection E as <- <-. by apply IH.
    + exfalso. clear -H. induction dms as [|x l IHl]; [done|]. by apply IHl.
Qed.

Lemma process_xdmz_inv (tmp src out_root : Path)
    (maps maps' : gmap (string * string) Path * gmap string Path)
    (m m' : fs) (created_paths created_paths' : list Path)
    (xdmz_file : Path) :
  good_name (Path.name xdmz_file) = true ->
  Fs.is_dir m tmp = true ->
  Path.relative_to xdmz_file (tmp // ("__xdmz_" +:+ Path.stem xdmz_file))
  = None ->
  process_xdmz tmp src out_root (m, maps, created_paths) xdmz_file
  = Some (m', maps', created_paths') ->
  exists rel model_root members new,
    Path.relative_to xdmz_file src = Some rel
    /\ Fs.read m xdmz_file = Some (Zip members)
    /\ maps' = register_model (Path.parent rel) (Path.name xdmz_file)
                 model_root maps
    /\ Path.parent model_root
       = Path.join out_root (safe_path_from_rel (Path.parent rel))
    /\ m !! model_root = None
    /\ Fs.is_dir m' model_root = true
    /\ m' !! (model_root // "Catalog" // Path.name xdmz_file)
       = Some (File (Zip members))
    /\ created_paths' = created_paths ++ new
    /\ Forall (fun p => Path.parent p = model_root
                        /\ endswith (Path.name p) ".sql" = true) new.
Proof.
  intros Hname Htmp Hout H. unfold process_xdmz in H.
  apply bind_Some in H as ([m1 sub_tmp] & H1 & H).
  apply ensure_dir_Some in H1 as [-> Hmk1].
  apply bind_Some in H as (m2 & Hex & H).
  apply bind_Some in H as (rel & Hrel & H).
  apply bind_Some in H as ([m3 otbi_root] & H3 & H).
  apply ensure_dir_Some in H3 as [-> Hmk3].
  apply bind_Some in H as ([m4 model_root] & H4 & H).
  apply bind_Some in H as ([m5 catalog_dir] & H5 & H).
  apply ensure_dir_Some in H5 as [-> Hmk5].
  apply bind_Some in H as (data & Hdata & H).
  apply bind_Some in H as (m6 & Hw & H).
  apply bind_Some in H as ([m7 cp7] & Hloop & H).
  injection H as <- <- <-.
  set (sub_tmp := tmp // ("__xdmz_" +:+ Path.stem xdmz_file)) in *.
  assert (no_separator (Path.name xdmz_file) = true) as Hsep.
  { unfold good_name in Hname. by apply andb_true_iff in Hname as [_ ?]. }
  (* the extraction *)
  unfold extractall in Hex.
  destruct (Fs.read m1 xdmz_file) as [[| |members]|] eqn:Hr1; try done.
  assert (Fs.read m xdmz_file = Some (Zip members)) as Hread.
  { by rewrite <- Hr1, (mkdir_p_read _ _ _ _ Hmk1). }
  assert (good_name ("__xdmz_" +:+ Path.stem xdmz_file) = true) as Hgsub.
  { apply stem_suffix_no_separator in Hsep as [Hb _].
    unfold good_name, Path.kept_part. rewrite !andb_true_iff.
    split; [done|]. unfold no_separator, Path.stem in *.
    by rewrite all_chars_append, Hb. }
  assert (Fs.is_dir m1 (Path.parent sub_tmp) = true) as Hpd.
  { subst sub_tmp. destruct (child_facts tmp _ Hgsub) as [-> _].
    eapply is_dir_mono; [by eapply mkdir_p_subseteq|done]. }
  pose proof (extract_members_frame sub_tmp members m1 m2
                (mkdir_p_is_dir _ _ _ Hmk1) Hpd Hex xdmz_file Hout) as Hfr2.
  (* the model root *)
  assert (Fs.is_dir m3 (Path.join out_root
                          (safe_path_from_rel (Path.parent rel))) = true)
    as Hd3 by by eapply mkdir_p_is_dir.
  destruct (unique_subdir_Some m3 m4 _ (Path.stem xdmz_file) model_root
              Hd3 H4) as (-> & Hnone & Hpar & Hne).
  set (t := model_root) in *.
  assert (m !! t = None) as Hfresh.
  { eapply not_in_dom_mono; [|exact Hnone].
    etrans; [by eapply mkdir_p_dom|].
    etrans; [by eapply extract_members_dom|]. by eapply mkdir_p_dom. }
  (* the copy *)
  assert (data = Zip members) as ->.
  { assert (Fs.read m5 xdmz_file = Fs.read m1 xdmz_file) as E.
    { rewrite (mkdir_p_read _ _ _ _ Hmk5). unfold Fs.read.
      destruct (decide (t = xdmz_file)) as [<-|Hne'].
      - rewrite lookup_insert_eq.
        assert (m1 !! t = None) as ->; [|done].
        eapply not_in_dom_mono; [|exact Hnone].
        etrans; [by eapply extract_members_dom|]. by eapply mkdir_p_dom.
      - rewrite lookup_insert_ne by done.
        change (Fs.read m3 xdmz_file = Fs.read m1 xdmz_file).
        rewrite (mkdir_p_read _ _ _ _ Hmk3). unfold Fs.read.
        by rewrite Hfr2. }
    rewrite E, Hr1 in Hdata. by injection Hdata. }
  assert (m6 = <[t // "Catalog" // Path.name xdmz_file
                 := File (Zip members)]> m5) as ->.
  { unfold Fs.write in Hw. destruct (_ && _); [|done]. by injection Hw. }
  (* the loop *)
  assert (Fs.is_dir m5 t = true) as Hd5.
  { eapply is_dir_mono; [by eapply mkdir_p_subseteq|].
    rewrite is_dir_insert_Dir. by rewrite bool_decide_eq_true_2. }
  assert (Path.parent (t // "Catalog" // Path.name xdmz_file) = t // "Catalog")
    as Hpc by by apply child_facts.
  assert (t // "Catalog" <> t) as Hct.
  { rewrite div_good by done. destruct t as [a ns]. simpl. intros [= E].
    apply (f_equal length) in E. rewrite length_app in E. simpl in E. lia. }
  assert (t // "Catalog" // Path.name xdmz_file <> t) as Hcopy.
  { intros E. rewrite !div_good in E by done. destruct t as [a ns].
    simpl in E. injection E as E. apply (f_equal length) in E.
    rewrite !length_app in E. simpl in E. lia. }
  assert (Fs.is_dir (<[t // "Catalog" // Path.name xdmz_file
                       := File (Zip members)]> m5) t = true) as Hd6.
  { by destruct (is_dir_insert_File m5 (t // "Catalog" // Path.name xdmz_file)
                   t (Zip members) Hd5). }
  destruct (write_models_inv t _ _ _ _ _ Hne Hd6 Hloop)
    as [(new & -> & Hnew) Hfr7].
  exists rel, t, members, new.
  split; [done|]. split; [done|]. split; [done|]. split; [done|].
  split; [done|]. split.
  { by eapply is_dir_frame. }
  split; [|done].
  rewrite Hfr7 by (rewrite Hpc; done). by rewrite lookup_insert_eq.
Qed.

End ModelFacts.

(** X20. One model bundle of pass 1, when the step goes through (the
    temporary folder exists and the bundle does not lie in its own
    extraction folder): the bundle is a zip archive; a model root that
    did not exist before is created as a child of the bundle's place in
    the output tree, [out_root/<sanitized rel_parent>]; the root is
    registered under the scoped key of the bundle's folder and stem and
    under the global key of its stem; the bundle is copied, byte for
    byte, into [Catalog] under the root; and the paths recorded are SQL
    files directly in the root. *)
Theorem process_xdmz_effect (tmp src out_root : Path)
    (maps maps' : gmap (string * string) Path * gmap string Path)
    (m m' : fs) (created_paths created_paths' : list Path)
    (xdmz_file : Path) :
  good_name (Path.name xdmz_file) = true ->
  Fs.is_dir m tmp = true ->
  Path.relative_to xdmz_file (tmp // ("__xdmz_" +:+ Path.stem xdmz_file))
  = None ->
  process_xdmz tmp src out_root (m, maps, created_paths) xdmz_file
  = Some (m', maps', created_paths') ->
  exists rel model_root members new,
    Path.relative_to xdmz_file src = Some rel
    /\ Fs.read m xdmz_file = Some (Zip members)
    /\ maps' = register_model (Path.parent rel) (Path.name xdmz_file)
                 model_root maps
    /\ Path.parent model_root
       = Path.join out_root (safe_path_from_rel (Path.parent rel))
    /\ m !! model_root = None
    /\ Fs.is_dir m' model_root = true
    /\ m' !! (model_root // "Catalog" // Path.name xdmz_file)
       = Some (File (Zip members))
    /\ created_paths' = created_paths ++ new
    /\ Forall (fun p => Path.parent p = model_root
                        /\ Py.endswith (Path.name p) ".sql" = true) new.
Proof. apply ModelFacts.process_xdmz_inv. Qed.

Lemma process_xdmz_effect_witness :
  let doc :=
    Element "dataModel" [] None
      [Element "dataSets" [] None
         [Element "dataSet" [("name", "G 1")] None
            [Element "sql" [] (Some " select 1 ") []]]] in
  let bundle := Zip [("M_datamodel.xdm", Xml doc)] in
  let m : fs := {[ Path.of_str "/t" := Dir;
                   Path.of_str "/t/s" := Dir;
                   Path.of_str "/t/s/M.xdmz" := File bundle;
                   Path.of_str "/t/o" := Dir ]} in
  let root := Path.of_str "/t/o/M" in
  let m' : fs :=
    <[Path.of_str "/t/o/M/G_1.sql" := File (Bytes ("select 1" +:+ LF))]>
      (<[Path.of_str "/t/o/M/Catalog/M.xdmz" := File bundle]>
         (<[Path.of_str "/t/o/M/Catalog" := Dir]>
            (<[root := Dir]>
               (<[Path.of_str "/t/__xdmz_M/M_datamodel.xdm" := File (Xml doc)]>
                  (<[Path.of_str "/t/__xdmz_M" := Dir]> m))))) in
  process_xdmz (Path.of_str "/t") (Path.of_str "/t/s") (Path.of_str "/t/o")
    (m, (∅, ∅), []) (Path.of_str "/t/s/M.xdmz")
  = Some (m', ({[ (".", "m") := root ]}, {[ "m" := root ]}),
          [Path.of_str "/t/o/M/G_1.sql"])
  /\ m !! root = None
  /\ m' !! (root // "Catalog" // "M.xdmz") = Some (File bundle).
Proof.
  intros doc bundle m root m'.
  assert (process_xdmz (Path.of_str "/t") (Path.of_str "/t/s")
            (Path.of_str "/t/o") (m, (∅, ∅), []) (Path.of_str "/t/s/M.xdmz")
          = Some (m', ({[ (".", "m") := root ]}, {[ "m" := root ]}),
                  [Path.of_str "/t/o/M/G_1.sql"])) as E by reflexivity.
  assert (good_name (Path.name (Path.of_str "/t/s/M.xdmz")) = true) as H1
    by reflexivity.
  assert (Fs.is_dir m (Path.of_str "/t") = true) as H2 by reflexivity.
  assert (Path.relative_to (Path.of_str "/t/s/M.xdmz")
            (Path.of_str "/t"
             // ("__xdmz_" +:+ Path.stem (Path.of_str "/t/s/M.xdmz")))
          = None) as H3 by reflexivity.
  destruct (process_xdmz_effect _ _ _ _ _ _ _ _ _ _ H1 H2 H3 E)
    as (rel & r & members & new & _ & Hr & Hmaps & _ & Hn & _ & Hc & _).
  assert (r = root) as ->.
  { apply (f_equal (fun mp => mp.2 !! "m")) in Hmaps. simpl in Hmaps.
    change (Py.lower (Path.stem_of_name
                        (Path.name (Path.of_str "/t/s/M.xdmz"))))
      with "m" in Hmaps.
    rewrite lookup_insert_eq, lookup_singleton_eq in Hmaps.
    by injection Hmaps. }
  assert (members = [("M_datamodel.xdm", Xml doc)]) as ->.
  { change (Fs.read m (Path.of_str "/t/s/M.xdmz")) with (Some bundle) in Hr.
    by injection Hr. }
  split; [exact E|]. split; [exact Hn|exact Hc].
Defined.

(** ** A model and a report of the same folder *)

Module PairFacts.
Import Py PyFacts PathFacts WalkFacts MatchFacts MatchMore.

Lemma relative_to_anchored p base rel :
  Path.relative_to p base = Some rel -> anchored rel = false.
Proof.
  unfold Path.relative_to. case_bool_decide; [|done].
  destruct (Path.strip_prefix _ _); [|done]. by intros [= <-].
Qed.

Lemma match_registered (maps : gmap (string * string) Path * gmap string Path)
    rel_parent xdmz_name model_root url :
  anchored rel_parent = false ->
  url <> "" ->
  stem_of_url url = lower (Path.stem_of_name xdmz_name) ->
  match_report (register_model rel_parent xdmz_name model_root maps).1
               (register_model rel_parent xdmz_name model_root maps).2
               rel_parent (Some url)
  = Some model_root.
Proof.
  intros Ha Hurl Hstem. rewrite match_report_url by done.
  destruct (walk_head rel_parent Ha) as [rest ->]. simpl.
  by rewrite Hstem, lookup_insert_eq.
Qed.

End PairFacts.

(** X21. A model bundle and a report bundle of the same folder of a
    container, the report referring to the model by its stem, letter case
    apart: when pass 1 goes through for the model and pass 2 then goes
    through for the report, the report is copied, byte for byte, into the
    [Catalog] folder of the model root created for that model, next to
    the copy of the model bundle, which is still there. *)
Theorem model_then_report (tmp src out_root : Path)
    (maps maps1 : gmap (string * string) Path * gmap string Path)
    (m m1 m2 : fs) (created created1 created2 : list Path)
    (xdmz_file xdoz_file : Path) (url : string) :
  good_name (Path.name xdmz_file) = true ->
  good_name (Path.name xdoz_file) = true ->
  Fs.is_dir m tmp = true ->
  Path.relative_to xdmz_file (tmp // ("__xdmz_" +:+ Path.stem xdmz_file))
  = None ->
  Path.parent <$> Path.relative_to xdoz_file src
  = Path.parent <$> Path.relative_to xdmz_file src ->
  process_xdmz tmp src out_root (m, maps, created) xdmz_file
  = Some (m1, maps1, created1) ->
  read_report_datamodel_url m1 xdoz_file = Some url ->
  url <> "" ->
  stem_of_url url = Py.lower (Path.stem xdmz_file) ->
  process_xdoz src out_root maps1.1 maps1.2 (m1, created1) xdoz_file
  = Some (m2, created2) ->
  exists model_root dest model report,
    m !! model_root = None
    /\ Fs.read m xdmz_file = Some model
    /\ Fs.read m1 xdoz_file = Some report
    /\ dest ∈ created2
    /\ Path.parent dest = model_root // "Catalog"
    /\ m2 !! dest = Some (File report)
    /\ m2 !! (model_root // "Catalog" // Path.name xdmz_file)
       = Some (File model).
Proof.
  intros Hx Hr Htmp Hout Hsame H1 Hurl Hne Hstem H2.
  destruct (ModelFacts.process_xdmz_inv _ _ _ _ _ _ _ _ _ _ Hx Htmp Hout H1)
    as (relx & root & members & new & Erx & Hrx & -> & _ & Hfresh & _ & Hcopy
        & _ & _).
  destruct (ReportFacts.process_xdoz_inv _ _ _ _ _ _ _ _ _ Hr H2)
    as (relr & dest & templates & data & Err & -> & Hrr & _ & Hd & Hpar & _
        & _ & Hsub).
  rewrite Err, Erx in Hsame. apply (inj Some) in Hsame.
  rewrite Hurl, Hsame in Hpar.
  assert (anchored (Path.parent relx) = false) as Ha.
  { unfold Path.parent. simpl. by eapply PairFacts.relative_to_anchored. }
  rewrite (PairFacts.match_registered maps _ _ root url Ha Hne Hstem) in Hpar.
  simpl in Hpar.
  exists root, dest, (Zip members), data.
  split; [done|]. split; [done|]. split; [done|].
  split; [apply elem_of_app; right; by left|].
  split; [done|]. split; [done|].
  by eapply lookup_weaken.
Qed.

Lemma model_then_report_witness :
  let doc :=
    Element "dataModel" [] None
      [Element "dataSets" [] None
         [Element "dataSet" [("name", "G")] None
            [Element "sql" [] (Some "select 1") []]]] in
  let model := Zip [("M_datamodel.xdm", Xml doc)] in
  let xdo := Xml (Element "report" [] None
                    [Element "dataModel" [("url", "/x/m.xdm")] None []]) in
  let report := Zip [("_report.xdo", xdo)] in
  let m : fs := {[ Path.of_str "/t" := Dir;
                   Path.of_str "/t/s" := Dir;
                   Path.of_str "/t/s/A" := Dir;
                   Path.of_str "/t/s/A/M.xdmz" := File model;
                   Path.of_str "/t/s/A/R.xdoz" := File report;
                   Path.of_str "/t/o" := Dir ]} in
  let root := Path.of_str "/t/o/A/M" in
  let m1 : fs :=
    <[Path.of_str "/t/o/A/M/G.sql" := File (Bytes ("select 1" +:+ LF))]>
      (<[Path.of_str "/t/o/A/M/Catalog/M.xdmz" := File model]>
         (<[Path.of_str "/t/o/A/M/Catalog" := Dir]>
            (<[root := Dir]>
               (<[Path.of_str "/t/o/A" := Dir]>
                  (<[Path.of_str "/t/__xdmz_M/M_datamodel.xdm"
                     := File (Xml doc)]>
                     (<[Path.of_str "/t/__xdmz_M" := Dir]> m)))))) in
  let m2 : fs :=
    <[Path.of_str "/t/o/A/M/report_templates" := Dir]>
      (<[Path.of_str "/t/o/A/M/Catalog/R.xdoz" := File report]> m1) in
  let maps1 : gmap (string * string) Path * gmap string Path :=
    ({[ ("A", "m") := root ]}, {[ "m" := root ]}) in
  process_xdmz (Path.of_str "/t") (Path.of_str "/t/s") (Path.of_str "/t/o")
    (m, (∅, ∅), []) (Path.of_str "/t/s/A/M.xdmz")
  = Some (m1, maps1, [Path.of_str "/t/o/A/M/G.sql"])
  /\ process_xdoz (Path.of_str "/t/s") (Path.of_str "/t/o") maps1.1 maps1.2
       (m1, [Path.of_str "/t/o/A/M/G.sql"]) (Path.of_str "/t/s/A/R.xdoz")
     = Some (m2, [Path.of_str "/t/o/A/M/G.sql";
                  Path.of_str "/t/o/A/M/Catalog/R.xdoz"])
  /\ exists model_root dest,
       dest ∈ [Path.of_str "/t/o/A/M/G.sql";
               Path.of_str "/t/o/A/M/Catalog/R.xdoz"]
       /\ Path.parent dest = model_root // "Catalog"
       /\ m2 !! dest = Some (File report)
       /\ m2 !! (model_root // "Catalog" // "M.xdmz") = Some (File model).
Proof.
  intros doc model xdo report m root m1 m2 maps1.
  assert (process_xdmz (Path.of_str "/t") (Path.of_str "/t/s")
            (Path.of_str "/t/o") (m, (∅, ∅), [])
            (Path.of_str "/t/s/A/M.xdmz")
          = Some (m1, maps1, [Path.of_str "/t/o/A/M/G.sql"])) as E1
    by reflexivity.
  assert (process_xdoz (Path.of_str "/t/s") (Path.of_str "/t/o")
            maps1.1 maps1.2 (m1, [Path.of_str "/t/o/A/M/G.sql"])
            (Path.of_str "/t/s/A/R.xdoz")
          = Some (m2, [Path.of_str "/t/o/A/M/G.sql";
                       Path.of_str "/t/o/A/M/Catalog/R.xdoz"])) as E2
    by reflexivity.
  split; [exact E1|]. split; [exact E2|].
  assert (good_name (Path.name (Path.of_str "/t/s/A/M.xdmz")) = true) as H1
    by reflexivity.
  assert (good_name (Path.name (Path.of_str "/t/s/A/R.xdoz")) = true) as H2
    by reflexivity.
  assert (Fs.is_dir m (Path.of_str "/t") = true) as H3 by reflexivity.
  assert (Path.relative_to (Path.of_str "/t/s/A/M.xdmz")
            (Path.of_str "/t"
             // ("__xdmz_" +:+ Path.stem (Path.of_str "/t/s/A/M.xdmz")))
          = None) as H4 by reflexivity.
  assert (Path.parent <$> Path.relative_to (Path.of_str "/t/s/A/R.xdoz")
                            (Path.of_str "/t/s")
          = Path.parent <$> Path.relative_to (Path.of_str "/t/s/A/M.xdmz")
                              (Path.of_str "/t/s")) as H5 by reflexivity.
  assert (read_report_datamodel_url m1 (Path.of_str "/t/s/A/R.xdoz")
          = Some "/x/m.xdm") as H6 by reflexivity.
  assert (stem_of_url "/x/m.xdm"
          = Py.lower (Path.stem (Path.of_str "/t/s/A/M.xdmz"))) as H7
    by reflexivity.
  destruct (model_then_report _ _ _ _ _ _ _ _ _ _ _ _ _ "/x/m.xdm"
              H1 H2 H3 H4 H5 E1 H6 ltac:(discriminate) H7 E2)
    as (model_root & dest & md & rp & _ & Hmd & Hrp & Hin & Hpar & Hd & Hc).
  assert (md = model) as -> by (injection Hmd as <-; reflexivity).
  assert (rp = report) as -> by (injection Hrp as <-; reflexivity).
  exists model_root, dest. split; [exact Hin|]. split; [exact Hpar|].
  split; [exact Hd|exact Hc].
Defined.

(** ** The launcher *)

Section launcher.
Variable world : Type.
Variable path_exists : world -> Path -> bool.
Variable create_venv : Path -> world -> option world.
Variable check_call : list string -> world -> option Z * world.
Variable path_str : Path -> string.


End launcher.

(** ** Pass 2 as a whole *)

Module PassFacts.
Import Py PyFacts PathFacts FsFacts ReportFacts.

Lemma pass_two_inv src out_root scoped_map global_map reports :
  forall (m m' : fs) created created',
  Forall (fun r => good_name (Path.name r) = true) reports ->
  pass_two src out_root scoped_map global_map (m, created) reports
  = Some (m', created') ->
  exists new,
    created' = created ++ new
    /\ NoDup new
    /\ Forall (fun p => m !! p = None /\ exists d, m' !! p = Some (File d)) new
    /\ length reports <= length new
    /\ m ⊆ m'.
Proof.
  induction reports as [|r reports IH]; intros m m' created created' Hg H.
  - injection H as <- <-. exists []. rewrite app_nil_r.
    split; [done|]. split; [constructor|]. split; [constructor|]. done.
  - apply Forall_cons in Hg as [Hr Hg]. unfold pass_two in H.
    cbn [foldl mbind option_bind] in H.
    destruct (process_xdoz src out_root scoped_map global_map (m, created) r)
      as [[m1 c1]|] eqn:E.
    + destruct (process_xdoz_inv _ _ _ _ _ _ _ _ _ Hr E)
        as (rel & dest & ts & data & _ & -> & _ & _ & _ & _ & Hnd & Hall
            & Hsub).
      destruct (IH m1 m' _ created' Hg H) as (new & -> & Hnd' & Hall' & Hlen
                                             & Hsub').
      exists ((dest :: ts) ++ new). split; [by rewrite <- app_assoc|].
      split; [|split; [|split]].
      * apply NoDup_app. split; [done|]. split; [|done].
        intros p Hp Hp'. rewrite Forall_forall in Hall, Hall'.
        destruct (Hall p Hp) as (_ & d & Hd). destruct (Hall' p Hp') as (Hn & _).
        congruence.
      * apply Forall_app. split.
        -- eapply Forall_impl; [exact Hall|]. intros p (Hn & d & Hd).
           split; [done|]. exists d. by eapply lookup_weaken.
        -- eapply Forall_impl; [exact Hall'|]. intros p (Hn & Hd).
           split; [by eapply lookup_weaken_None|done].
      * rewrite length_app. simpl. lia.
      * by etrans.
    + exfalso. clear -H. induction reports as [|x l IHl]; [done|].
      by apply IHl.
Qed.

End PassFacts.

(** X23. Pass 2 over any list of report bundles, when it goes through:
    the paths it records are added after those recorded before, they are
    pairwise distinct, each is a file that did not exist when the pass
    began, there is at least one for each report (its copy in a
    [Catalog] folder), and nothing that was in the file system is
    changed or removed: two reports with the same name sent to the same
    folder are both kept, the later under a numbered name. *)
Theorem pass_two_adds_new_files (src out_root : Path)
    (scoped_map : gmap (string * string) Path)
    (global_map : gmap string Path)
    (m m' : fs) (created created' : list Path) (xdoz_list : list Path) :
  Forall (fun r => good_name (Path.name r) = true) xdoz_list ->
  pass_two src out_root scoped_map global_map (m, created) xdoz_list
  = Some (m', created') ->
  exists new,
    created' = created ++ new
    /\ NoDup new
    /\ Forall (fun p => m !! p = None /\ exists d, m' !! p = Some (File d)) new
    /\ length xdoz_list <= length new
    /\ m ⊆ m'.
Proof. apply PassFacts.pass_two_inv. Qed.

Lemma pass_two_adds_new_files_witness :
  let xdo := Xml (Element "report" [] None
                    [Element "dataModel" [("url", "/x/M.xdm")] None []]) in
  let report := Zip [("_report.xdo", xdo); ("t.rtf", Bytes "RTF")] in
  let m : fs := {[ Path.of_str "/s/A/r.xdoz" := File report;
                   Path.of_str "/s/B/r.xdoz" := File report;
                   Path.of_str "/o" := Dir ]} in
  let scoped_map : gmap (string * string) Path := ∅ in
  let global_map : gmap string Path := {[ "m" := Path.of_str "/o/M" ]} in
  let created' :=
    [Path.of_str "/o/M/Catalog/r.xdoz";
     Path.of_str "/o/M/report_templates/t.rtf";
     Path.of_str "/o/M/Catalog/r_1.xdoz";
     Path.of_str "/o/M/report_templates/t_1.rtf"] in
  exists m',
    pass_two (Path.of_str "/s") (Path.of_str "/o") scoped_map global_map
      (m, []) [Path.of_str "/s/A/r.xdoz"; Path.of_str "/s/B/r.xdoz"]
    = Some (m', created')
    /\ NoDup created'
    /\ Forall (fun p => m !! p = None /\ exists d, m' !! p = Some (File d))
              created'
    /\ m ⊆ m'.
Proof.
  intros xdo report m scoped_map global_map created'.
  assert (exists m',
            pass_two (Path.of_str "/s") (Path.of_str "/o") scoped_map
              global_map (m, [])
              [Path.of_str "/s/A/r.xdoz"; Path.of_str "/s/B/r.xdoz"]
            = Some (m', created')) as [m' E]
    by (eexists; reflexivity).
  assert (Forall (fun r => good_name (Path.name r) = true)
            [Path.of_str "/s/A/r.xdoz"; Path.of_str "/s/B/r.xdoz"]) as Hg
    by (repeat constructor).
  destruct (pass_two_adds_new_files _ _ _ _ _ _ _ _ _ Hg E)
    as (new & Hc & Hnd & Hall & _ & Hsub).
  simpl in Hc. subst new.
  exists m'. split; [exact E|]. split; [exact Hnd|]. split; [exact Hall|].
  exact Hsub.
Defined.
